(** * Scoring, signalling and paper trading of the meme trading bot

    A shallow embedding of
      - [src/scoring/comprehensive_scorer.py] (class [ComprehensiveTokenScorer]),
      - the paper-trading block of [src/main.py] with the [paper_trades]
        table of [src/storage/database.py],
      - the timing query of [src/analytics/price_tracker.py],
      - the position size and price targets of the scorer, the stored
        signal of [src/main.py] and [src/storage/database.py],
      - the performance pass and report of
        [src/crons/paper_trade_performance_cron.py],
      - the snapshot recording of [src/analytics/price_tracker.py],
    followed by the properties proved about them.

    Modelling conventions.
      - Python numbers (int, float) are exact rationals [Q]; [bool] counts
        as 0/1 where Python treats it as an int.  NaN and infinities are not
        represented.
      - [token_data] is a dynamically typed dictionary: its values range over
        [pyval] (None, bool, number, str, dict).  An operation that Python
        rejects at run time (attribute lookup on a non-dict, ordering a str
        against a number, ...) raises.
      - A category scorer mutates [score], [flags] and [strengths] inside a
        [try] block: the accumulator survives a raised exception.
      - [print] and the logger write to the console only and are left out;
        message texts are kept without their leading pictograph.
      - [time.time()] and [datetime.utcnow()] are read from a [clock].
      - A row of [paper_trades] holds what the server stores: DECIMAL
        columns are rounded to 8 places and ids are given by the server;
        how the server compares text, fits it into a VARCHAR and reads a
        timestamp is a parameter ([server]).  Rows of [signals] and
        [price_history] are the values passed to their INSERT. *)

From Stdlib Require Import QArith Qminmax Qround ZArith List String Bool Lia Lqa
  Permutation Sorted.
Import ListNotations.

(* ================================================================== *)
(** * Python values *)

Module Py.

#[warnings="-register-all"]
Inductive pyval : Type :=
| PNone
| PBool (b : bool)
| PNum (q : Q)
| PStr (s : string)
| PDict (items : list (string * pyval)).

(** [bool(v)] *)
Definition truthy (v : pyval) : bool :=
  match v with
  | PNone => false
  | PBool b => b
  | PNum q => negb (Qeq_bool q 0)
  | PStr s => negb (String.eqb s EmptyString)
  | PDict items => match items with [] => false | _ :: _ => true end
  end.

Fixpoint lookup (items : list (string * pyval)) (key : string) : option pyval :=
  match items with
  | [] => None
  | (k, v) :: rest => if String.eqb k key then Some v else lookup rest key
  end.

(** [d.get(key, default)]; [None] stands for the AttributeError raised when
    [d] is not a dict. *)
Definition get (d : pyval) (key : string) (default : pyval) : option pyval :=
  match d with
  | PDict items =>
      Some (match lookup items key with Some v => v | None => default end)
  | _ => None
  end.

(** The numeric reading of a value in an ordering comparison or in
    arithmetic with a number ([bool] is an [int]). *)
Definition as_num (v : pyval) : option Q :=
  match v with
  | PBool b => Some (if b then 1%Q else 0%Q)
  | PNum q => Some q
  | _ => None
  end.

Definition Qlt_bool (x y : Q) : bool := negb (Qle_bool y x).

(** [v < q], [v <= q], [v > q], [v >= q] for a number literal [q]:
    TypeError ([None]) unless [v] is numeric. *)
Definition lt_num (v : pyval) (q : Q) : option bool := option_map (fun x => Qlt_bool x q) (as_num v).
Definition le_num (v : pyval) (q : Q) : option bool := option_map (fun x => Qle_bool x q) (as_num v).
Definition gt_num (v : pyval) (q : Q) : option bool := option_map (fun x => Qlt_bool q x) (as_num v).
Definition ge_num (v : pyval) (q : Q) : option bool := option_map (fun x => Qle_bool q x) (as_num v).

(** [a > b] for two run-time values: numbers order numerically, two strs
    order lexicographically, anything else is a TypeError. *)
Definition gt (a b : pyval) : option bool :=
  match a, b with
  | PStr x, PStr y => Some (String.ltb y x)
  | _, _ =>
      match as_num a, as_num b with
      | Some x, Some y => Some (Qlt_bool y x)
      | _, _ => None
      end
  end.

(** [v * 2] with the int literal 2: a number doubles, a str repeats. *)
Definition times2 (v : pyval) : option pyval :=
  match v with
  | PStr s => Some (PStr (s ++ s))
  | _ => option_map (fun x => PNum (x * 2)) (as_num v)
  end.

(** [v == "literal"] and [v == number]; [==] never raises. *)
Definition eq_str (v : pyval) (s : string) : bool :=
  match v with PStr x => String.eqb x s | _ => false end.

Definition eq_num (v : pyval) (q : Q) : bool :=
  match as_num v with Some x => Qeq_bool x q | None => false end.

(** [v in ["a", "b", ...]] *)
Definition in_strs (v : pyval) (l : list string) : bool :=
  existsb (eq_str v) l.

(** [isinstance(v, dict)] *)
Definition is_dict (v : pyval) : bool :=
  match v with PDict _ => true | _ => false end.

End Py.
Export Py.

(* ================================================================== *)
(** * The body of a category scorer

    [score], [flags] and [strengths] are local variables mutated by the
    body; the body ends normally, by an early [return], or by an exception. *)

Module Body.

(** A strength is a text, or the one formatted message that carries
    values of the snapshot. *)
Inductive message : Type :=
| Text (s : string)
| LowTaxes (buy_tax sell_tax : pyval).

Record acc : Type := mkAcc {
  score : Q;
  flags : list string;
  strengths : list message
}.

Definition acc0 : acc := mkAcc 0 [] [].

Inductive outcome (A : Type) : Type :=
| Normal (a : A)
| Returned
| Raised.
Arguments Normal {A} a.
Arguments Returned {A}.
Arguments Raised {A}.

Definition M (A : Type) : Type := acc -> acc * outcome A.

Definition ret {A} (a : A) : M A := fun s => (s, Normal a).

Definition bind {A B} (m : M A) (k : A -> M B) : M B :=
  fun s =>
    match m s with
    | (s', Normal a) => k a s'
    | (s', Returned) => (s', Returned)
    | (s', Raised) => (s', Raised)
    end.

(** [score += q] *)
Definition award (q : Q) : M unit :=
  fun s => (mkAcc (score s + q) (flags s) (strengths s), Normal tt).

(** [flags.append(f)] *)
Definition flag (f : string) : M unit :=
  fun s => (mkAcc (score s) (flags s ++ [f]) (strengths s), Normal tt).

(** [strengths.append(m)] *)
Definition strength (m : message) : M unit :=
  fun s => (mkAcc (score s) (flags s) (strengths s ++ [m]), Normal tt).

(** [return score, flags, strengths] in the middle of the body *)
Definition early_return {A} : M A := fun s => (s, Returned).

(** an operation that may raise *)
Definition lift {A} (o : option A) : M A :=
  fun s => match o with Some a => (s, Normal a) | None => (s, Raised) end.

Definition pass : M unit := ret tt.

End Body.
Export Body.

Declare Scope body_scope.
Delimit Scope body_scope with body.
Bind Scope body_scope with M.

Notation "x <- m ;; k" := (bind m (fun x => k))
  (at level 61, m at next level, right associativity) : body_scope.
Notation "m ;; k" := (bind m (fun _ => k))
  (at level 61, right associativity) : body_scope.
(** [if c: a  else: b] where evaluating [c] may raise *)
Notation "'IF' c 'THEN' a 'ELSE' b" :=
  (bind c (fun t : bool => if t then a else b))
  (at level 10, c at level 200, a at level 200, b at level 200) : body_scope.
(** short-circuit [and] / [or] *)
Notation "a 'AND' b" := (bind a (fun t : bool => if t then b else ret false))
  (at level 40, left associativity) : body_scope.
Notation "a 'OR' b" := (bind a (fun t : bool => if t then ret true else b))
  (at level 50, left associativity) : body_scope.

(* ================================================================== *)
(** * ComprehensiveTokenScorer: the category scorers *)

Module Scorer.

Local Open Scope string_scope.
Local Open Scope Q_scope.
Local Open Scope body_scope.

(** [token_data.get(key, default)] inside a body *)
Definition get_ (d : pyval) (key : string) (default : pyval) : M pyval :=
  lift (Py.get d key default).
Definition lt (v : pyval) (q : Q) : M bool := lift (lt_num v q).
Definition le (v : pyval) (q : Q) : M bool := lift (le_num v q).
Definition gt (v : pyval) (q : Q) : M bool := lift (gt_num v q).
Definition ge (v : pyval) (q : Q) : M bool := lift (ge_num v q).
(** the number held by a value used in arithmetic *)
Definition num (v : pyval) : M Q := lift (as_num v).

(** The [try: ... except Exception: flags.append(error_flag)] wrapper and
    the final [return score, flags, strengths]. *)
Definition category_result : Type := Q * list string * list message.

Definition try_except (error_flag : string) (body : M unit) : category_result :=
  match body acc0 with
  | (s, Raised) => (score s, (flags s ++ [error_flag])%list, strengths s)
  | (s, _) => (score s, flags s, strengths s)
  end.

(** ** 1. On-chain health and security *)

Definition honeypot_check (token_data : pyval) : M unit :=
  honeypot_status <- get_ token_data "honeypot_check" (PDict []) ;;
  is_honeypot <- get_ honeypot_status "is_honeypot" (PBool true) ;;
  can_sell <- get_ honeypot_status "can_sell" (PBool false) ;;
  if negb (truthy is_honeypot) && truthy can_sell then
    award 8 ;; strength (Text "SAFE TO TRADE - Not a honeypot")
  else if truthy can_sell then
    award 5 ;; strength (Text "Can sell but check carefully")
  else
    flag "CRITICAL_HONEYPOT" ;; early_return.

Definition tax_check (token_data : pyval) : M unit :=
  buy_tax <- get_ token_data "buy_tax_percentage" (PNum 0) ;;
  sell_tax <- get_ token_data "sell_tax_percentage" (PNum 0) ;;
  IF le buy_tax 5 AND le sell_tax 10 THEN
    award 4 ;; strength (LowTaxes buy_tax sell_tax)
  ELSE IF le buy_tax 10 AND le sell_tax 20 THEN
    award 2 ;; strength (Text "Moderate taxes")
  ELSE IF gt sell_tax 30 THEN
    flag "extreme_sell_tax"
  ELSE pass.

Definition tx_limit_check (token_data : pyval) : M unit :=
  max_tx_amount <- get_ token_data "max_transaction_percentage" (PNum 100) ;;
  IF ge max_tx_amount 1 THEN
    award 2 ;; strength (Text "No restrictive transaction limits")
  ELSE IF lt max_tx_amount 0.1 THEN
    flag "restrictive_tx_limits"
  ELSE pass.

Definition pause_check (token_data : pyval) : M unit :=
  has_pause_function <- get_ token_data "has_pause_function" (PBool false) ;;
  if negb (truthy has_pause_function) then
    award 1 ;; strength (Text "No pause function")
  else
    flag "has_pause_risk".

Definition liquidity_check (token_data : pyval) : M unit :=
  liquidity_info <- get_ token_data "liquidity" (PDict []) ;;
  pool_size <- get_ liquidity_info "usd" (PNum 0) ;;
  is_locked <- get_ liquidity_info "locked" (PBool false) ;;
  (IF ge pool_size 20000 THEN
     award 3 ;; strength (Text "Sufficient liquidity for trading")
   ELSE IF ge pool_size 5000 THEN
     award 2 ;; strength (Text "Basic liquidity available")
   ELSE IF ge pool_size 1000 THEN
     award 1 ;; strength (Text "Minimal liquidity")
   ELSE
     flag "insufficient_liquidity") ;;
  if truthy is_locked then
    award 2 ;; strength (Text "Liquidity locked - Rug protection")
  else
    flag "unlocked_liquidity".

Definition contract_check (token_data : pyval) : M unit :=
  contract_info <- get_ token_data "contract" (PDict []) ;;
  ownership <- get_ contract_info "ownership" (PStr "unknown") ;;
  (if eq_str ownership "renounced" then
     award 3 ;; strength (Text "Ownership renounced - Decentralized")
   else if eq_str ownership "multisig" then
     award 1 ;; strength (Text "Multi-signature ownership")
   else
     flag "centralized_control") ;;
  can_mint <- get_ contract_info "can_mint" (PBool true) ;;
  if negb (truthy can_mint) then
    award 2 ;; strength (Text "No mint function - Fixed supply")
  else
    flag "unlimited_minting".

(** The sub-checks that follow the honeypot check. *)
Definition safety_sub_checks (token_data : pyval) : M unit :=
  tax_check token_data ;;
  tx_limit_check token_data ;;
  pause_check token_data ;;
  liquidity_check token_data ;;
  contract_check token_data.

(** the statements inside [try] *)
Definition onchain_health_body (token_data : pyval) : M unit :=
  honeypot_check token_data ;; safety_sub_checks token_data.

Definition _score_onchain_health (token_data : pyval) : category_result :=
  try_except "safety_analysis_error" (onchain_health_body token_data).

(** ** 2. Market dynamics and trading metrics *)

Definition volume_surge (volume_24h volume_1h volume_5m : pyval) : M unit :=
  IF gt volume_5m 0 AND gt volume_1h 0 THEN
    v5 <- num volume_5m ;;
    v1 <- num volume_1h ;;
    let five_min_acceleration := (v5 * 12) / v1 in
    if Qlt_bool 10 five_min_acceleration then
      award 8 ;; strength (Text "VOLUME EXPLOSION - EARLY DETECTION (10x+ surge)")
    else if Qlt_bool 5 five_min_acceleration then
      award 6 ;; strength (Text "Early volume surge detected (5x+)")
    else if Qlt_bool 3 five_min_acceleration then
      award 4 ;; strength (Text "Strong early volume surge (3x+)")
    else pass
  ELSE IF gt volume_1h 0 AND gt volume_24h 0 THEN
    v1 <- num volume_1h ;;
    v24 <- num volume_24h ;;
    let hourly_acceleration := (v1 * 24) / v24 in
    if Qlt_bool 15 hourly_acceleration then
      award 6 ;; strength (Text "MASSIVE hourly volume acceleration (15x+)")
    else if Qlt_bool 8 hourly_acceleration then
      award 4 ;; strength (Text "Strong hourly volume acceleration (8x+)")
    else if Qlt_bool 3 hourly_acceleration then
      award 2 ;; strength (Text "Decent volume acceleration")
    else
      flag "weak_volume_surge"
  ELSE pass.

Definition volume_intensity_check (volume_24h market_cap : pyval) : M unit :=
  IF gt market_cap 0 THEN
    v24 <- num volume_24h ;;
    cap <- num market_cap ;;
    let volume_intensity := v24 / cap in
    if Qlt_bool 1.2 volume_intensity then
      award 4 ;; strength (Text "INSANE VOLUME INTENSITY - Traders going crazy")
    else if Qlt_bool 0.7 volume_intensity then
      award 2 ;; strength (Text "High volume intensity")
    else if Qlt_bool 0.3 volume_intensity then
      award 1 ;; strength (Text "Decent volume intensity")
    else if Qlt_bool volume_intensity 0.1 then
      flag "dead_volume"
    else pass
  ELSE pass.

Definition price_momentum (token_data : pyval) : M unit :=
  price_change_5m <- get_ token_data "price_change_5m" (PNum 0) ;;
  price_change_15m <- get_ token_data "price_change_15m" (PNum 0) ;;
  price_change_1h <- get_ token_data "price_change_1h" (PNum 0) ;;
  (IF gt price_change_5m 10 THEN
     award 2 ;; strength (Text "LIGHTNING PUMP - 10%+ in 5 minutes")
   ELSE pass) ;;
  (IF gt price_change_15m 20 THEN
     award 1 ;; strength (Text "15m momentum - 20%+")
   ELSE pass) ;;
  (IF gt price_change_1h 30 THEN
     award 1 ;; strength (Text "1h pump trend - 30%+")
   ELSE pass).

Definition whale_activity_check (token_data : pyval) : M unit :=
  whale_data <- get_ token_data "whale_activity" (PDict []) ;;
  large_buys_1h <- get_ whale_data "large_buys_1h" (PNum 0) ;;
  large_sells_1h <- get_ whale_data "large_sells_1h" (PNum 0) ;;
  (IF (doubled <- lift (times2 large_sells_1h) ;; lift (Py.gt large_buys_1h doubled)) THEN
     award 2 ;; strength (Text "WHALE ACCUMULATION - Large wallets buying")
   ELSE pass) ;;
  new_large_holders_1h <- get_ whale_data "new_large_holders_1h" (PNum 0) ;;
  (IF gt new_large_holders_1h 1 THEN
     award 1 ;; strength (Text "New whales entering")
   ELSE pass).

Definition slippage_check (token_data : pyval) : M unit :=
  liquidity <- get_ token_data "liquidity_usd" (PNum 0) ;;
  slippage_5k <- get_ token_data "slippage_5k_usd" (PNum 100) ;;
  (IF gt liquidity 30000 AND lt slippage_5k 15 THEN
     award 2 ;; strength (Text "Good liquidity - Can actually trade")
   ELSE IF gt liquidity 7000 AND lt slippage_5k 35 THEN
     award 1 ;; strength (Text "Adequate liquidity")
   ELSE IF lt liquidity 7000 OR gt slippage_5k 35 THEN
     flag "high_slippage"
   ELSE pass) ;;
  liquidity_growth <- get_ token_data "liquidity_growth_1h" (PNum 0) ;;
  (IF gt liquidity_growth 50 THEN
     award 1 ;; strength (Text "Growing liquidity pool")
   ELSE pass).

Definition market_dynamics_body (token_data : pyval) : M unit :=
  volume_24h <- get_ token_data "volume_24h_usd" (PNum 0) ;;
  volume_1h <- get_ token_data "volume_1h_usd" (PNum 0) ;;
  volume_5m <- get_ token_data "volume_5m_usd" (PNum 0) ;;
  market_cap <- get_ token_data "market_cap_usd" (PNum 1) ;;
  volume_surge volume_24h volume_1h volume_5m ;;
  volume_intensity_check volume_24h market_cap ;;
  price_momentum token_data ;;
  whale_activity_check token_data ;;
  slippage_check token_data.

Definition _score_market_dynamics (token_data : pyval) : category_result :=
  try_except "market_analysis_error" (market_dynamics_body token_data).

(** ** 3. Community and social signals *)

Definition twitter_check (social_data : pyval) : M unit :=
  twitter_mentions_1h <- get_ social_data "twitter_mentions_1h" (PNum 0) ;;
  (IF gt twitter_mentions_1h 500 THEN
     award 7 ;; strength (Text "TWITTER EXPLOSION - 500+ mentions in 1 hour")
   ELSE IF gt twitter_mentions_1h 300 THEN
     award 6 ;; strength (Text "TWITTER EXPLOSION - 300+ mentions in 1 hour")
   ELSE IF gt twitter_mentions_1h 150 THEN
     award 5 ;; strength (Text "Strong Twitter momentum")
   ELSE IF gt twitter_mentions_1h 75 THEN
     award 4 ;; strength (Text "Growing Twitter buzz")
   ELSE IF gt twitter_mentions_1h 30 THEN
     award 3 ;; strength (Text "Early Twitter activity")
   ELSE IF gt twitter_mentions_1h 10 THEN
     award 2 ;; strength (Text "Some Twitter activity")
   ELSE IF gt twitter_mentions_1h 0 THEN
     award 1 ;; strength (Text "Any Twitter activity")
   ELSE pass) ;;
  twitter_engagement_1h <- get_ social_data "twitter_engagement_1h" (PNum 0) ;;
  (IF gt twitter_engagement_1h 5000 THEN
     award 4 ;; strength (Text "INSANE ENGAGEMENT - Real community interest")
   ELSE IF gt twitter_engagement_1h 2500 THEN
     award 3 ;; strength (Text "High engagement")
   ELSE IF gt twitter_engagement_1h 1000 THEN
     award 2 ;; strength (Text "High social engagement")
   ELSE IF gt twitter_engagement_1h 300 THEN
     award 1 ;; strength (Text "Noticeable engagement")
   ELSE pass).

Definition reddit_telegram_check (social_data : pyval) : M unit :=
  reddit_mentions_1h <- get_ social_data "reddit_mentions_1h" (PNum 0) ;;
  (IF gt reddit_mentions_1h 20 THEN
     award 2 ;; strength (Text "REDDIT BUZZ - Viral potential")
   ELSE IF gt reddit_mentions_1h 5 THEN
     award 1 ;; strength (Text "Reddit community interest")
   ELSE pass) ;;
  telegram_activity_1h <- get_ social_data "telegram_activity_1h" (PNum 0) ;;
  (IF gt telegram_activity_1h 200 THEN
     award 2 ;; strength (Text "TELEGRAM EXPLOSION - Community going crazy")
   ELSE IF gt telegram_activity_1h 50 THEN
     award 1 ;; strength (Text "Active Telegram discussion")
   ELSE pass).

Definition influencer_meme_check (social_data : pyval) : M unit :=
  influencer_mentions <- get_ social_data "influencer_mentions_24h" (PNum 0) ;;
  influencer_quality <- get_ social_data "influencer_quality" (PStr "none") ;;
  (IF ret (eq_str influencer_quality "major") AND gt influencer_mentions 0 THEN
     award 2 ;; strength (Text "MAJOR INFLUENCER MENTION - Potential massive pump")
   ELSE IF gt influencer_mentions 0 THEN
     award 1 ;; strength (Text "Some influencer mention")
   ELSE pass) ;;
  meme_viral_score <- get_ social_data "meme_viral_score" (PNum 0) ;;
  (IF ge meme_viral_score 8 THEN
     award 2 ;; strength (Text "HIGH VIRAL POTENTIAL - Quality meme content")
   ELSE IF ge meme_viral_score 5 THEN
     award 1 ;; strength (Text "Good meme quality")
   ELSE pass).

Definition hype_check (social_data : pyval) : M unit :=
  trending_hashtags <- get_ social_data "trending_hashtag_count" (PNum 0) ;;
  (IF gt trending_hashtags 0 THEN
     award 1 ;; strength (Text "Trending hashtag presence")
   ELSE pass) ;;
  sentiment_momentum <- get_ social_data "sentiment_momentum_1h" (PNum 0) ;;
  (IF gt sentiment_momentum 0.1 THEN
     award 1 ;; strength (Text "SENTIMENT SURGE - Hype building")
   ELSE pass) ;;
  growth_pattern <- get_ social_data "growth_pattern" (PStr "unknown") ;;
  if eq_str growth_pattern "viral" then
    award 1 ;; strength (Text "VIRAL GROWTH PATTERN")
  else if eq_str growth_pattern "artificial" then
    flag "artificial_social_growth"
  else pass.

Definition community_signals_body (token_data : pyval) : M unit :=
  social_data <- get_ token_data "social" (PDict []) ;;
  twitter_check social_data ;;
  reddit_telegram_check social_data ;;
  influencer_meme_check social_data ;;
  hype_check social_data.

Definition _score_community_signals (token_data : pyval) : category_result :=
  try_except "social_analysis_error" (community_signals_body token_data).

(** ** 4. Technical and development (discovery timing, opportunity) *)

(** What the scorer reads from the system clock. *)
Record clock : Type := mkClock {
  time_time : Q;          (* time.time(), seconds since the epoch *)
  utcnow_hour : Z;        (* datetime.utcnow().hour *)
  utcnow_weekday : Z      (* datetime.utcnow().weekday(), Monday = 0 *)
}.

Definition token_age_check (clk : clock) (token_data : pyval) : M unit :=
  creation_time <- get_ token_data "created_timestamp" (PNum 0) ;;
  IF gt creation_time 0 THEN
    created <- num creation_time ;;
    let age_hours := (time_time clk - created) / 3600 in
    let age_days := age_hours / 24 in
    if Qlt_bool age_hours 1 then
      award 4 ;; strength (Text "ULTRA-FRESH - Less than 1 hour old")
    else if Qlt_bool age_hours 6 then
      award 3 ;; strength (Text "Very early discovery - Under 6 hours")
    else if Qlt_bool age_hours 24 then
      award 2 ;; strength (Text "Early discovery - Under 24 hours")
    else if Qlt_bool age_days 7 then
      award 1 ;; strength (Text "Recent launch - Under 1 week")
    else if Qlt_bool 30 age_days then
      flag "old_token"
    else pass
  ELSE pass.

Definition listing_check (token_data : pyval) : M unit :=
  listing_data <- get_ token_data "listings" (PDict []) ;;
  major_cex_listed <- get_ listing_data "major_cex" (PBool false) ;;
  small_cex_listed <- get_ listing_data "small_cex" (PBool false) ;;
  let dex_only := negb (truthy major_cex_listed) && negb (truthy small_cex_listed) in
  (if dex_only then
     award 3 ;; strength (Text "DEX-ONLY - Pre-CEX pump potential")
   else if truthy small_cex_listed && negb (truthy major_cex_listed) then
     award 1 ;; strength (Text "Small CEX listed - Room for major exchange pump")
   else
     flag "already_mainstream") ;;
  influencer_coverage <- get_ token_data "influencer_coverage" (PStr "none") ;;
  if eq_str influencer_coverage "none" then
    award 1 ;; strength (Text "Pre-influencer discovery - High upside potential")
  else if eq_str influencer_coverage "emerging" then
    award 0.5
  else pass.

Definition opportunity_check (token_data : pyval) : M unit :=
  market_cap <- get_ token_data "market_cap_usd" (PNum 0) ;;
  (IF ge market_cap 1000 AND le market_cap 100000 THEN
     award 3 ;; strength (Text "PERFECT MARKET CAP - Huge pump potential")
   ELSE IF ge market_cap 100000 AND le market_cap 1000000 THEN
     award 2 ;; strength (Text "Good market cap for growth")
   ELSE IF ge market_cap 1000000 AND le market_cap 10000000 THEN
     award 1 ;; strength (Text "Moderate growth potential")
   ELSE IF gt market_cap 50000000 THEN
     flag "high_market_cap"
   ELSE pass) ;;
  holder_count <- get_ token_data "holder_count" (PNum 999999) ;;
  (IF lt holder_count 100 THEN
     award 1 ;; strength (Text "Low holder count - Room for massive growth")
   ELSE IF gt holder_count 10000 THEN
     flag "saturated_holders"
   ELSE pass).

Definition momentum_check (token_data : pyval) : M unit :=
  activity_surge <- get_ token_data "activity_surge_24h" (PBool false) ;;
  (if truthy activity_surge then
     award 2 ;; strength (Text "ACTIVITY SURGE - Momentum building")
   else pass) ;;
  smart_money_interest <- get_ token_data "smart_money_wallets" (PNum 0) ;;
  (IF gt smart_money_interest 3 THEN
     award 1 ;; strength (Text "Smart money accumulating")
   ELSE pass) ;;
  project <- get_ token_data "project" (PDict []) ;;
  dev_activity <- get_ project "development_activity" (PDict []) ;;
  if is_dict dev_activity then
    github_commits <- get_ dev_activity "github_commits" (PStr "") ;;
    IF (if eq_str github_commits "active" then ret true
        else (regular_updates <- get_ dev_activity "regular_updates" (PBool false) ;;
              ret (truthy regular_updates))) THEN
      award 1 ;; strength (Text "Active development - Regular updates")
    ELSE pass
  else pass.

Definition transparency_check (token_data : pyval) : M unit :=
  project_info <- get_ token_data "project" (PDict []) ;;
  website_quality <- get_ project_info "website_quality" (PStr "") ;;
  (if eq_str website_quality "professional" then
     award 2 ;; strength (Text "Professional website")
   else if eq_str website_quality "basic" then
     award 1 ;; strength (Text "Basic website")
   else pass) ;;
  documentation_quality <- get_ project_info "documentation_quality" (PStr "") ;;
  (if in_strs documentation_quality ["basic"; "clear"; "detailed"] then
     award 2 ;; strength (Text "Has documentation")
   else pass) ;;
  team_public <- get_ project_info "team_public" (PBool false) ;;
  (if truthy team_public then
     award 1 ;; strength (Text "Public team")
   else pass) ;;
  has_partnerships <- get_ project_info "has_partnerships" (PBool false) ;;
  (if truthy has_partnerships then
     award 1 ;; strength (Text "Partnerships announced")
   else pass) ;;
  utility <- get_ project_info "utility" (PStr "") ;;
  (if negb (in_strs utility [""; "none"; "planned"]) then
     award 0.5 ;; strength (Text "Has real utility")
   else pass) ;;
  website <- get_ project_info "website_quality" PNone ;;
  (if negb (truthy website) then
     award (-0.25) ;; flag "no_website"
   else pass) ;;
  docs <- get_ project_info "documentation_quality" PNone ;;
  (if negb (truthy docs) then
     award (-0.25) ;; flag "no_docs"
   else pass) ;;
  roadmap <- get_ project_info "roadmap_quality" PNone ;;
  (if negb (truthy roadmap) then
     award (-0.25) ;; flag "no_roadmap"
   else pass).

Definition technical_foundation_body (clk : clock) (token_data : pyval) : M unit :=
  token_age_check clk token_data ;;
  listing_check token_data ;;
  opportunity_check token_data ;;
  momentum_check token_data ;;
  transparency_check token_data.

Definition _score_technical_foundation (clk : clock) (token_data : pyval) : category_result :=
  try_except "timing_analysis_error" (technical_foundation_body clk token_data).

(** ** 5. Timing and market context *)

Definition market_momentum (market_context : pyval) : M unit :=
  if truthy market_context then
    solana_performance <- get_ market_context "solana_24h_change" (PNum 0) ;;
    (IF gt solana_performance 5 THEN
       award 2 ;; strength (Text "Solana pumping - Meme coin favorable environment")
     ELSE IF gt solana_performance 0 THEN
       award 1 ;; strength (Text "Positive Solana momentum")
     ELSE IF lt solana_performance (-10) THEN
       flag "solana_dumping"
     ELSE pass) ;;
    meme_sector_momentum <- get_ market_context "meme_sector_24h" (PNum 0) ;;
    (IF gt meme_sector_momentum 20 THEN
       award 2 ;; strength (Text "MEME SECTOR EXPLOSION - Perfect timing")
     ELSE IF gt meme_sector_momentum 0 THEN
       award 1 ;; strength (Text "Meme coins trending")
     ELSE pass) ;;
    market_greed <- get_ market_context "fear_greed_index" (PNum 50) ;;
    (IF gt market_greed 70 THEN
       award 1 ;; strength (Text "Market greed high - Meme pump season")
     ELSE pass)
  else pass.

Definition trading_hours (clk : clock) : M unit :=
  let current_hour_utc := utcnow_hour clk in
  (if (12 <=? current_hour_utc)%Z && (current_hour_utc <=? 20)%Z then
     award 1 ;; strength (Text "Peak trading hours - Maximum attention")
   else if ((8 <=? current_hour_utc)%Z && (current_hour_utc <=? 12)%Z)
           || ((20 <=? current_hour_utc)%Z && (current_hour_utc <=? 24)%Z) then
     award 0.5 ;; strength (Text "Good trading hours")
   else pass) ;;
  let current_weekday := utcnow_weekday clk in
  if (5 <=? current_weekday)%Z then
    award 1 ;; strength (Text "Weekend pump potential - Lower volume, higher volatility")
  else pass.

Definition competition_check (token_data : pyval) : M unit :=
  recent_major_launches <- get_ token_data "recent_major_launches_24h" (PNum 0) ;;
  (if eq_num recent_major_launches 0 then
     award 2 ;; strength (Text "Clear market - No major launches competing for attention")
   else IF gt recent_major_launches 3 THEN
     flag "crowded_launch_day"
   ELSE pass) ;;
  trending_peak <- get_ token_data "trending_momentum" (PStr "none") ;;
  if eq_str trending_peak "building" then
    award 1 ;; strength (Text "Trending momentum building")
  else if eq_str trending_peak "peak" then
    award 0.5 ;; strength (Text "At trending peak")
  else if eq_str trending_peak "fading" then
    flag "momentum_fading"
  else pass.

Definition timing_factors_body (clk : clock) (token_data market_context : pyval) : M unit :=
  market_momentum market_context ;;
  trading_hours clk ;;
  competition_check token_data.

Definition _score_timing_factors (clk : clock) (token_data market_context : pyval)
  : category_result :=
  try_except "timing_analysis_error" (timing_factors_body clk token_data market_context).

(** ** 6. Risk factors: deductions

    [deductions] is kept in [score], [risk_flags] in [flags]. *)

Definition mem_str (x : string) (l : list string) : bool :=
  existsb (String.eqb x) l.

Definition _score_risk_factors (token_data : pyval) (existing_flags : list string)
  : Q * list string :=
  let body :=
    (if mem_str "weak_social_presence" existing_flags
        || mem_str "small_community" existing_flags then
       award 3 ;; flag "minimal_social_presence"
     else pass) ;;
    marketing_claims <- get_ token_data "marketing_analysis" (PDict []) ;;
    excessive_claims <- get_ marketing_claims "excessive_claims" (PBool false) ;;
    (if truthy excessive_claims then
       award 2 ;; flag "excessive_marketing"
     else pass) ;;
    is_copycat <- get_ token_data "is_copycat" (PBool false) ;;
    (if truthy is_copycat then
       award 2 ;; flag "copycat_project"
     else pass) ;;
    whale_activity <- get_ token_data "whale_activity" (PDict []) ;;
    suspicious_movements <- get_ whale_activity "suspicious_movements" (PBool false) ;;
    (if truthy suspicious_movements then
       award 2 ;; flag "suspicious_whale_activity"
     else pass) ;;
    engagement_score <- get_ token_data "engagement_score" (PNum 50) ;;
    (IF lt engagement_score 20 THEN
       award 1 ;; flag "poor_engagement"
     ELSE pass)
  in
  match try_except "risk_assessment_error" body with
  | (deductions, risk_flags, _) => (deductions, risk_flags)
  end.

(** ** Configuration and construction *)

(** The values [src/config.py] reads from the environment. *)
Record config : Type := mkConfig {
  TIER_A_THRESHOLD : Q;
  TIER_B_THRESHOLD : Q;
  TIER_C_THRESHOLD : Q;
  TIER_A_ALWAYS_SIGNAL : bool;
  TIER_B_MIN_SCORE : Q;
  TIER_C_MIN_SCORE : Q;
  TIER_D_NEVER_SIGNAL : bool
}.

(** [config.py] with no environment variable set. *)
Definition default_config : config :=
  mkConfig 40 25 15 true 30 18 true.

Inductive tier : Type := TierA | TierB | TierC | TierD.

Inductive risk : Type := LOW | MEDIUM | HIGH | CRITICAL.

(** The attributes [__init__] sets on the scorer. *)
Record scorer : Type := mkScorer {
  TIER_THRESHOLDS : tier -> Q;
  tier_a_always : bool;
  tier_b_min_score : Q;
  tier_c_min_score : Q;
  tier_d_never : bool;
  CRITICAL_RED_FLAGS : list string;
  MARKET_CONDITION_WEIGHTS : list (string * list (string * Q))
}.

(** How constructing an object ends.  [ConfigurationError] is the failure
    the specification names. *)
Inductive construction : Type :=
| Constructed (self : scorer)
| ConfigurationError.

(** [ComprehensiveTokenScorer.__init__]: the body is five assignments. *)
Definition __init__ (cfg : config) : construction :=
  Constructed
    (mkScorer
       (fun t => match t with
                 | TierA => TIER_A_THRESHOLD cfg
                 | TierB => TIER_B_THRESHOLD cfg
                 | TierC => TIER_C_THRESHOLD cfg
                 | TierD => 0
                 end)
       (TIER_A_ALWAYS_SIGNAL cfg)
       (TIER_B_MIN_SCORE cfg)
       (TIER_C_MIN_SCORE cfg)
       (TIER_D_NEVER_SIGNAL cfg)
       ["CRITICAL_HONEYPOT"; "extreme_sell_tax"; "insufficient_liquidity";
        "whale_dumping"; "sentiment_crash"; "safety_analysis_error"]
       [("bull_market", [("community", 1.2); ("timing", 1.3); ("technical", 0.9)]);
        ("bear_market", [("security", 1.3); ("technical", 1.2); ("timing", 0.8)]);
        ("sideways", [("security", 1.1); ("community", 1.1); ("market", 1.0)])]).

(** ** The aggregator *)

Inductive recommendation : Type :=
| AvoidCritical                 (* "AVOID - Critical red flags detected" *)
| MemePumpAlert (score : Q)
| StrongBuy (score : Q)
| WatchClosely (score : Q)
| Avoid (score : Q).

Record ScoringResult : Type := mkResult {
  total_score : Q;
  result_tier : tier;
  category_scores : list (string * Q);
  red_flags : list string;
  result_strengths : list message;
  result_recommendation : recommendation;
  risk_level : risk
}.

(** [d.get(key)] on a dict keyed by str *)
Fixpoint assoc {V : Type} (d : list (string * V)) (key : string) : option V :=
  match d with
  | [] => None
  | (k, v) :: rest => if String.eqb k key then Some v else assoc rest key
  end.

Definition assoc_default {V : Type} (d : list (string * V)) (key : string) (default : V) : V :=
  match assoc d key with Some v => v | None => default end.

(** [sum(scores.values())] *)
Definition sum_values (scores : list (string * Q)) : Q :=
  fold_left Qplus (map snd scores) 0.

(** One turn of the loop over [weights.items()]. *)
Definition adjust (category_scores : list (string * Q)) (adjusted_score : Q)
           (item : string * Q) : Q :=
  let (category, weight) := item in
  match assoc category_scores category with
  | Some category_score => adjusted_score + (category_score * weight - category_score)
  | None => adjusted_score
  end.

Definition _apply_market_adjustments (self : scorer) (base_score : Q)
           (category_scores : list (string * Q)) (market_context : pyval) : Q :=
  match Py.get market_context "condition" (PStr "sideways") with
  | None => base_score                  (* except: return base_score *)
  | Some (PDict _) => base_score        (* unhashable key: TypeError, same handler *)
  | Some market_condition =>
      let weights :=
        match market_condition with
        | PStr c => assoc_default (MARKET_CONDITION_WEIGHTS self) c []
        | _ => []
        end in
      let adjusted_score := fold_left (adjust category_scores) weights base_score in
      Qmin 100 (Qmax 0 adjusted_score)
  end.

Definition _determine_tier (self : scorer) (score : Q) : tier :=
  if Qle_bool (TIER_THRESHOLDS self TierA) score then TierA
  else if Qle_bool (TIER_THRESHOLDS self TierB) score then TierB
  else if Qle_bool (TIER_THRESHOLDS self TierC) score then TierC
  else TierD.

Definition _generate_recommendation (t : tier) (score : Q) : recommendation :=
  match t with
  | TierA => MemePumpAlert score
  | TierB => StrongBuy score
  | TierC => WatchClosely score
  | TierD => Avoid score
  end.

Definition critical_flags_of (self : scorer) (red_flags : list string) : list string :=
  filter (fun f => mem_str f (CRITICAL_RED_FLAGS self)) red_flags.

Definition _assess_risk_level (self : scorer) (score : Q) (red_flags : list string) : risk :=
  let critical_count := List.length (critical_flags_of self red_flags) in
  if (0 <? critical_count)%nat then CRITICAL
  else if Qlt_bool score 30 || (5 <? List.length red_flags)%nat then HIGH
  else if Qlt_bool score 60 || (2 <? List.length red_flags)%nat then MEDIUM
  else LOW.

(** [comprehensive_score].  The enclosing [try] has nothing left to catch:
    every call below handles its own exceptions. *)
Definition comprehensive_score (self : scorer) (clk : clock)
           (token_data market_context : pyval) : ScoringResult :=
  let '(on_chain_health, health_flags, health_strengths) := _score_onchain_health token_data in
  let '(market_dynamics, market_flags, market_strengths) := _score_market_dynamics token_data in
  let '(community_signals, community_flags, community_strengths) :=
    _score_community_signals token_data in
  let '(technical_foundation, tech_flags, tech_strengths) :=
    _score_technical_foundation clk token_data in
  let '(timing_factors, timing_flags, timing_strengths) :=
    _score_timing_factors clk token_data market_context in
  let flags_so_far :=
    (health_flags ++ market_flags ++ community_flags ++ tech_flags ++ timing_flags)%list in
  let strengths :=
    (health_strengths ++ market_strengths ++ community_strengths
       ++ tech_strengths ++ timing_strengths)%list in
  let '(risk_deductions, risk_flags) := _score_risk_factors token_data flags_so_far in
  let red_flags := (flags_so_far ++ risk_flags)%list in
  let scores :=
    [("on_chain_health", on_chain_health);
     ("market_dynamics", market_dynamics);
     ("community_signals", community_signals);
     ("technical_foundation", technical_foundation);
     ("timing_factors", timing_factors);
     ("risk_deductions", risk_deductions)] in
  match critical_flags_of self red_flags with
  | _ :: _ =>
      mkResult 0 TierD scores red_flags strengths AvoidCritical CRITICAL
  | [] =>
      let total_score := sum_values scores - assoc_default scores "risk_deductions" 0 in
      let total_score := Qmax 0 (Qmin 100 total_score) in
      let total_score :=
        if truthy market_context
        then _apply_market_adjustments self total_score scores market_context
        else total_score in
      let tier := _determine_tier self total_score in
      mkResult total_score tier scores red_flags strengths
               (_generate_recommendation tier total_score)
               (_assess_risk_level self total_score red_flags)
  end.

(** ** Signal decision

    [main.py] passes [result.to_dict()]; the dict branch reads the same
    fields under the keys [comprehensive_score], [tier], [category_scores]
    and [risk_level].  A result is never falsy and always has a tier, so
    the guards [if not result] and [if tier is None] do not fire. *)

Definition tier_eqb (a b : tier) : bool :=
  match a, b with
  | TierA, TierA | TierB, TierB | TierC, TierC | TierD, TierD => true
  | _, _ => false
  end.

Definition risk_eqb (a b : risk) : bool :=
  match a, b with
  | LOW, LOW | MEDIUM, MEDIUM | HIGH, HIGH | CRITICAL, CRITICAL => true
  | _, _ => false
  end.

Definition is_speculative_candidate (result : ScoringResult) : bool :=
  let tier := result_tier result in
  let market := assoc_default (category_scores result) "market_dynamics" 0 in
  let social := assoc_default (category_scores result) "community_signals" 0 in
  let risk_level := risk_level result in
  let total_score := total_score result in
  if tier_eqb tier TierA || tier_eqb tier TierB then false
  else if risk_eqb risk_level CRITICAL then false
  else if (Qle_bool 12 market || Qle_bool 12 social) && Qle_bool 18 total_score then true
  else false.

Definition is_watchlist_candidate (self : scorer) (result : ScoringResult) : bool :=
  let tier := result_tier result in
  let total_score := total_score result in
  if tier_eqb tier TierA || tier_eqb tier TierB || tier_eqb tier TierC then false
  else
    let tier_c := TIER_THRESHOLDS self TierC in
    if Qle_bool (tier_c - 5) total_score && Qlt_bool total_score tier_c then true
    else false.

Definition should_send_signal_comprehensive (self : scorer)
           (comprehensive_result : ScoringResult) (speculative_mode : bool) : bool :=
  let score := total_score comprehensive_result in
  let tier := result_tier comprehensive_result in
  if tier_eqb tier TierA && tier_a_always self then true
  else if tier_eqb tier TierB && Qle_bool (tier_b_min_score self) score then true
  else if tier_eqb tier TierC && Qle_bool (tier_c_min_score self) score then true
  else if speculative_mode && is_speculative_candidate comprehensive_result then true
  else if tier_eqb tier TierD && negb (tier_d_never self) then Qle_bool 40 score
  else false.

End Scorer.

(* ================================================================== *)
(** * Paper trading: the [paper_trades] table and the open block of
      [MemeBot.scan_and_analyze] *)

Module PaperTrading.

Local Open Scope string_scope.
Local Open Scope Q_scope.

(** The database server, as far as the table depends on it.  The table is
    created with DEFAULT CHARSET=utf8mb4 COLLATE=utf8mb4_unicode_ci, so
    text is compared by the weights of that collation, which are the same
    for strings that differ in case, in accents or in trailing spaces; a
    value that does not fit its column is refused in strict SQL mode and
    cut to fit otherwise. *)
Record server : Type := mkServer {
  weight_string : string -> string;           (* WEIGHT_STRING(s) of the collation *)
  strict_mode : bool;                         (* sql_mode has STRICT_TRANS_TABLES *)
  varchar : nat -> string -> option string;   (* the value a VARCHAR(n) column takes,
                                                 [None] when the server refuses it *)
  as_timestamp : string -> string             (* the TIMESTAMP read from an ISO string *)
}.

(** A row of [paper_trades], with the values the server holds. *)
Record paper_trade : Type := mkTrade {
  id : Z;                       (* INT AUTO_INCREMENT PRIMARY KEY *)
  token_address : string;       (* VARCHAR(255) NOT NULL, UNIQUE KEY *)
  token_symbol : string;        (* VARCHAR(50) *)
  buy_price_usd : Q;            (* DECIMAL(20, 8) NOT NULL *)
  amount_usd : Q;               (* DECIMAL(20, 8) NOT NULL *)
  tokens_bought : Q;            (* DECIMAL(30, 8) NOT NULL *)
  buy_timestamp : string;       (* TIMESTAMP *)
  status : string;              (* VARCHAR(20); only ever written as 'OPEN' *)
  last_price_usd : option Q;    (* DECIMAL(20, 8) DEFAULT NULL *)
  profit_loss_usd : option Q    (* DECIMAL(20, 8) DEFAULT NULL *)
}.

(** The table; rows are in insertion order. *)
Definition table : Type := list paper_trade.

(** The nearest integer, halves away from zero. *)
Definition round_half_away (x : Q) : Z :=
  if Qle_bool 0 x then Qfloor (x + (1 # 2)) else (- Qfloor ((1 # 2) - x))%Z.

(** The value a DECIMAL(precision, 8) column takes for [x]: [x] rounded to
    8 places, halves away from zero.  With [precision] digits the column
    holds less than 10^precision units of 0.00000001; beyond that the
    server raises an [Error] in strict mode ([None]) and stores the
    nearest end of the range otherwise. *)
Definition decimal (srv : server) (precision : Z) (x : Q) : option Q :=
  let units := round_half_away (x * 100000000) in
  let bound := (10 ^ precision)%Z in
  if (Z.abs units <? bound)%Z then Some (units # 100000000)
  else if strict_mode srv then None
  else Some ((Z.sgn units * (bound - 1))%Z # 100000000).

(** Equality of two addresses under the collation of the column. *)
Definition same_address (srv : server) (a b : string) : bool :=
  String.eqb (weight_string srv a) (weight_string srv b).

(** [get_paper_trade_by_address]:
    SELECT * FROM paper_trades WHERE token_address = %s AND status = 'OPEN' LIMIT 1.
    [connected] is whether [get_connection] returned a connection. *)
Definition get_paper_trade_by_address (srv : server) (db : table) (connected : bool)
           (address : string) : option paper_trade :=
  if connected then
    find (fun r => same_address srv (token_address r) address
                   && String.eqb (status r) "OPEN") db
  else None.

(** UNIQUE KEY unique_token_address (token_address) *)
Definition violates_unique (srv : server) (db : table) (address : string) : bool :=
  existsb (fun r => same_address srv (token_address r) address) db.

(** PRIMARY KEY (id) *)
Definition violates_primary (db : table) (new_id : Z) : bool :=
  existsb (fun r => (id r =? new_id)%Z) db.

(** [store_paper_trade]: INSERT ... VALUES (..., 'OPEN').
    [auto_increment] is the id the server gives to the row.  A value the
    server refuses for its column, or a duplicate key, raises a database
    [Error], which the method catches, returning False. *)
Definition store_paper_trade (srv : server) (db : table) (connected : bool)
           (auto_increment : Z)
           (address symbol : string) (price amount tokens : Q) (timestamp : string)
  : table * bool :=
  if connected then
    match varchar srv 255 address, varchar srv 50 symbol,
          decimal srv 20 price, decimal srv 20 amount, decimal srv 30 tokens with
    | Some stored_address, Some stored_symbol,
      Some stored_price, Some stored_amount, Some stored_tokens =>
        if violates_unique srv db stored_address || violates_primary db auto_increment
        then (db, false)
        else ((db ++ [mkTrade auto_increment stored_address stored_symbol
                              stored_price stored_amount stored_tokens
                              (as_timestamp srv timestamp) "OPEN" None None])%list,
              true)
    | _, _, _, _, _ => (db, false)
    end
  else (db, false).

(** The [priceUsd] entry of a trading pair, as the block uses it. *)
Inductive price_field : Type :=
| PriceMissing                (* absent or falsy: [p.get('priceUsd')] fails the test *)
| PriceInvalid                (* truthy, but [float(price_usd)] raises *)
| PriceUsd (price : Q).       (* truthy, [float(price_usd)] is [price] *)

Record pair : Type := mkPair {
  priceUsd : price_field;
  baseToken_symbol : option string
}.

(** An entry of the in-memory list [self.paper_trades]. *)
Record local_trade : Type := mkLocal {
  local_address : string;
  local_symbol : string;
  local_price : Q;
  local_amount : Q;
  local_tokens : Q;
  local_timestamp : string
}.

Record MemeBot : Type := mkBot {
  db : table;
  paper_trading : bool;
  paper_usd_balance : Q;
  paper_trades : list local_trade
}.

Definition has_price (p : pair) : bool :=
  match priceUsd p with PriceMissing => false | _ => true end.

(** The "Paper Trading Logic" block, run for a token that signalled.
    [PAPER_TRADE_AMOUNT_USD] comes from [config.py]; [now] is
    [datetime.now().isoformat()]; [lookup_up] and [insert_up] tell whether
    the database answered the lookup and the insert, [auto_increment] is
    the id the server has for a new row. *)
Definition paper_trading_logic (srv : server) (PAPER_TRADE_AMOUNT_USD : Q)
           (self : MemeBot) (address : string) (pairs : list pair) (now : string)
           (lookup_up insert_up : bool) (auto_increment : Z) : MemeBot :=
  if paper_trading self then
    match get_paper_trade_by_address srv (db self) lookup_up address with
    | Some existing_trade => self              (* already in portfolio: skipping *)
    | None =>
        let selected_pair :=
          match find has_price pairs with
          | Some p => Some p
          | None => hd_error pairs             (* fallback to first pair *)
          end in
        match selected_pair with
        | Some selected =>
            let buy_price :=
              match priceUsd selected with PriceUsd price => Some price | _ => None end in
            let symbol :=
              match baseToken_symbol selected with Some s => s | None => "UNKNOWN" end in
            let trade_amount_usd := PAPER_TRADE_AMOUNT_USD in
            match buy_price with
            | Some price =>
                if Qle_bool trade_amount_usd (paper_usd_balance self)
                   && negb (Qeq_bool price 0) && Qlt_bool 0 price
                then
                  let tokens_to_buy := trade_amount_usd / price in
                  let (db', _) :=
                    store_paper_trade srv (db self) insert_up auto_increment address
                                      symbol price trade_amount_usd tokens_to_buy now in
                  mkBot db' (paper_trading self) (paper_usd_balance self)
                        (paper_trades self
                           ++ [mkLocal address symbol price trade_amount_usd
                                       tokens_to_buy now])%list
                else self
            | None => self
            end
        | None => self
        end
    end
  else self.

End PaperTrading.

(* ================================================================== *)
(** * PriceTracker.analyze_timing_patterns: the timing query *)

Module PriceTracker.

Local Open Scope string_scope.
Local Open Scope Z_scope.

(** The two columns of [price_history] the query reads.
    [performance_pct] is DECIMAL(10,4): the number of 0.0001 % steps. *)
Record snapshot : Type := mkSnapshot {
  minutes_since_entry : Z;
  performance_pct : Z
}.

(** a percentage as a DECIMAL(10,4) *)
Definition pct (p : Z) : Z := p * 10000.

(** CASE WHEN minutes_since_entry <= 15 THEN '0-15 min' ... ELSE '24+ hours' END *)
Definition time_interval (s : snapshot) : string :=
  let m := minutes_since_entry s in
  if m <=? 15 then "0-15 min"
  else if m <=? 30 then "15-30 min"
  else if m <=? 60 then "30-60 min"
  else if m <=? 120 then "1-2 hours"
  else if m <=? 360 then "2-6 hours"
  else if m <=? 1440 then "6-24 hours"
  else "24+ hours".

(** The intervals in the order of the ORDER BY clause (keys 1 to 7). *)
Definition intervals : list string :=
  ["0-15 min"; "15-30 min"; "30-60 min"; "1-2 hours"; "2-6 hours";
   "6-24 hours"; "24+ hours"].

(** A row of the result set. *)
Record interval_row : Type := mkRow {
  interval : string;
  snapshots : nat;              (* COUNT( * ) *)
  avg_performance : Q;          (* AVG(performance_pct), in 0.0001 % steps *)
  max_performance : Z;          (* MAX(performance_pct) *)
  min_performance : Z;          (* MIN(performance_pct) *)
  pumps_10pct : nat;            (* SUM(CASE WHEN performance_pct > 10 ...) *)
  pumps_50pct : nat;
  moons_100pct : nat
}.

Definition sum_performance (g : list snapshot) : Z :=
  fold_right (fun s acc => performance_pct s + acc) 0 g.

Definition max_of (first : snapshot) (g : list snapshot) : Z :=
  fold_right (fun s acc => Z.max (performance_pct s) acc) (performance_pct first) g.

Definition min_of (first : snapshot) (g : list snapshot) : Z :=
  fold_right (fun s acc => Z.min (performance_pct s) acc) (performance_pct first) g.

Definition count_above (threshold : Z) (g : list snapshot) : nat :=
  List.length (filter (fun s => pct threshold <? performance_pct s) g).

(** The rows of one GROUP BY group. *)
Definition group (label : string) (history : list snapshot) : list snapshot :=
  filter (fun s => String.eqb (time_interval s) label) history.

(** The aggregates of a group; SQL forms no group without a row. *)
Definition aggregate (label : string) (g : list snapshot) : list interval_row :=
  match g with
  | [] => []
  | first :: rest =>
      [mkRow label (List.length g)
             (Qmake (sum_performance g) (Pos.of_nat (List.length g)))
             (max_of first rest) (min_of first rest)
             (count_above 10 g) (count_above 50 g) (count_above 100 g)]
  end.

(** The result of the query over the rows of [price_history]:
    GROUP BY time_interval ORDER BY the interval's key. *)
Definition timing_query (history : list snapshot) : list interval_row :=
  flat_map (fun label => aggregate label (group label history)) intervals.

End PriceTracker.


(* ================================================================== *)
(** * ComprehensiveTokenScorer: position size and price targets *)

Module Targets.
Import Scorer.

Local Open Scope string_scope.
Local Open Scope Q_scope.

(** [get_position_size_recommendation].  A result is never falsy, so the
    guard [if not comprehensive_result] does not fire; the object and the
    dict branch read the same two fields. *)
Definition get_position_size_recommendation (comprehensive_result : ScoringResult)
  : string :=
  let tier := result_tier comprehensive_result in
  let score := total_score comprehensive_result in
  if tier_eqb tier TierA then
    if Qle_bool 90 score then "5-8% of portfolio" else "3-5% of portfolio"
  else if tier_eqb tier TierB then "1-3% of portfolio"
  else if tier_eqb tier TierC then "0.5-1% of portfolio (speculation only)"
  else "NO POSITION".

(** The price-target percentages [src/config.py] reads from the environment. *)
Record target_config : Type := mkTargets {
  TIER_A_TARGET_1_PERCENT : Q;
  TIER_A_TARGET_2_PERCENT : Q;
  TIER_A_STOP_LOSS_PERCENT : Q;
  TIER_B_TARGET_1_PERCENT : Q;
  TIER_B_TARGET_2_PERCENT : Q;
  TIER_B_STOP_LOSS_PERCENT : Q;
  TIER_C_TARGET_1_PERCENT : Q;
  TIER_C_TARGET_2_PERCENT : Q;
  TIER_C_STOP_LOSS_PERCENT : Q
}.

(** [config.py] with no environment variable set. *)
Definition default_targets : target_config :=
  mkTargets 200 1000 (-50) 100 500 (-60) 50 200 (-70).

(** The dict [get_tp_sl_position] returns. *)
Record tp_sl : Type := mkTpSl {
  target_1_percent : Q;
  target_2_percent : Q;
  target_1_price : Q;
  target_2_price : Q;
  stop_loss_price : Q;
  stop_loss_percent : Q
}.

(** [get_tp_sl_position(current_price, comprehensive_result)].  The method
    reads [comprehensive_result.get('tier', 'D')] from the dict of the
    result; a tier other than A, B and C keeps the fallback values.
    [current_price] is a float or [None]; the test [current_price > 0] on
    [None] is a TypeError, which the method does not catch ([None] here). *)
Definition get_tp_sl_position (cfg : target_config) (current_price : option Q)
           (tier : tier) : option tp_sl :=
  let '(target_1_percent, target_2_percent, stop_loss_percent) :=
    match tier with
    | TierA => (TIER_A_TARGET_1_PERCENT cfg, TIER_A_TARGET_2_PERCENT cfg,
                TIER_A_STOP_LOSS_PERCENT cfg)
    | TierB => (TIER_B_TARGET_1_PERCENT cfg, TIER_B_TARGET_2_PERCENT cfg,
                TIER_B_STOP_LOSS_PERCENT cfg)
    | TierC => (TIER_C_TARGET_1_PERCENT cfg, TIER_C_TARGET_2_PERCENT cfg,
                TIER_C_STOP_LOSS_PERCENT cfg)
    | TierD => (50, 200, -60)          (* the fallback values *)
    end in
  match current_price with
  | None => None
  | Some price =>
      let target_1_price :=
        if Qlt_bool 0 price then price * (1 + target_1_percent / 100) else 0 in
      let target_2_price :=
        if Qlt_bool 0 price then price * (1 + target_2_percent / 100) else 0 in
      let stop_loss_price :=
        if Qlt_bool 0 price then price * (1 + stop_loss_percent / 100) else 0 in
      Some (mkTpSl target_1_percent target_2_percent target_1_price target_2_price
                   stop_loss_price stop_loss_percent)
  end.

End Targets.

(* ================================================================== *)
(** * MemeBot: what a scan does with a scored token, and the stored signal *)

Module Scan.
Import Scorer PaperTrading Targets.

Local Open Scope string_scope.
Local Open Scope Q_scope.

(** What [scan_and_analyze] does with the result of a token. *)
Inductive action : Type :=
| TradingSignal            (* the token is added to the signals of the scan *)
| SpeculativeAlert         (* [send_speculative_signal] *)
| WatchlistEntry.          (* [add_to_watchlist] and [send_watchlist_notification] *)

(** The branches of [scan_and_analyze] after scoring; the signal decision
    is taken with [speculative_mode=True]. *)
Definition scan_actions (self : scorer) (comprehensive_result : ScoringResult)
  : list action :=
  let should_signal := should_send_signal_comprehensive self comprehensive_result true in
  if should_signal then [TradingSignal]
  else
    ((if is_speculative_candidate comprehensive_result then [SpeculativeAlert] else [])
       ++ (if is_watchlist_candidate self comprehensive_result then [WatchlistEntry] else []))%list.

(** A row of the [signals] table. *)
Record signal : Type := mkSignal {
  signal_address : string;
  signal_type : string;
  boom_score : Q;
  signal_risk_level : string;
  current_price : option Q;
  entry_target : option Q;
  take_profit_1 : option Q;
  take_profit_2 : option Q;
  stop_loss : option Q;
  telegram_sent : bool;
  sent_timestamp : string
}.

(** The [targets] dict built by [_send_trading_signal], as far as
    [store_signal] reads it. *)
Record signal_targets : Type := mkSignalTargets {
  targets_current_price : option Q;
  targets_entry_target : option Q;
  targets_take_profit_1 : option Q;
  targets_take_profit_2 : option Q;
  targets_stop_loss : option Q
}.

(** [store_signal]: one INSERT; [telegram_sent] is set to True in the
    method.  [timestamp] is [datetime.now().isoformat()].  The table has
    no unique key, and the four NOT NULL columns are always given. *)
Definition store_signal (signals : list signal) (connected : bool)
           (token_address signal_type : string) (boom_score : Q) (risk_level : string)
           (targets : option signal_targets) (timestamp : string)
  : list signal * bool :=
  if connected then
    let field (f : signal_targets -> option Q) :=
      match targets with Some t => f t | None => None end in
    ((signals
        ++ [mkSignal token_address signal_type boom_score risk_level
                     (field targets_current_price) (field targets_entry_target)
                     (field targets_take_profit_1) (field targets_take_profit_2)
                     (field targets_stop_loss) true timestamp])%list,
     true)
  else (signals, false).

(** The price [_send_trading_signal] reads from the pairs: that of the
    first pair with a [priceUsd], [None] when converting it fails. *)
Definition signal_price (pairs : list pair) : option Q :=
  match find has_price pairs with
  | Some p => match priceUsd p with PriceUsd price => Some price | _ => None end
  | None => None
  end.

(** [_send_trading_signal] for the result of a token.  [risk_level] is
    [risk_result['risk_level']]; [sent] is what [send_comprehensive_signal]
    returns, [None] when it raises.  Every exception ends in
    [return False]. *)
Definition _send_trading_signal (cfg : target_config) (signals : list signal)
           (connected : bool) (token_address : string)
           (comprehensive_result : ScoringResult) (risk_level : string)
           (pairs : list pair) (timestamp : string) (sent : option bool)
  : list signal * bool :=
  let tier := result_tier comprehensive_result in
  let signal_type :=
    if tier_eqb tier TierA || tier_eqb tier TierB then "BUY" else "MONITOR" in
  let signal_score := total_score comprehensive_result in
  let current_price := signal_price pairs in
  let entry_target := current_price in
  match get_tp_sl_position cfg current_price tier with
  | None => (signals, false)
  | Some tp_sl_positions =>
      let targets :=
        mkSignalTargets current_price entry_target
                        (Some (target_1_percent tp_sl_positions))
                        (Some (target_2_percent tp_sl_positions))
                        (Some (stop_loss_percent tp_sl_positions)) in
      let (signals', _) :=
        store_signal signals connected token_address signal_type signal_score
                     risk_level (Some targets) timestamp in
      match sent with
      | Some success => (signals', success)
      | None => (signals', false)
      end
  end.

End Scan.

(* ================================================================== *)
(** * PaperTradePerformanceCron: updating and reporting open positions *)

Module Performance.
Import PaperTrading.

Local Open Scope string_scope.
Local Open Scope Q_scope.

(** ORDER BY buy_timestamp ASC.  [earlier a b] is the order of TIMESTAMP
    values, [a] not after [b]; rows with equal keys keep their order. *)
Fixpoint insert_by_timestamp (earlier : string -> string -> bool) (r : paper_trade)
         (sorted : list paper_trade) : list paper_trade :=
  match sorted with
  | [] => [r]
  | x :: rest =>
      if earlier (buy_timestamp r) (buy_timestamp x) then r :: sorted
      else x :: insert_by_timestamp earlier r rest
  end.

(** [get_open_paper_trades]:
    SELECT * FROM paper_trades WHERE status = 'OPEN' ORDER BY buy_timestamp ASC;
    an empty list when there is no connection. *)
Definition get_open_paper_trades (earlier : string -> string -> bool)
           (db : table) (connected : bool) : list paper_trade :=
  if connected then
    fold_right (insert_by_timestamp earlier) []
               (filter (fun r => String.eqb (status r) "OPEN") db)
  else [].

(** [update_paper_trade_performance]:
    UPDATE paper_trades SET last_checked = NOW(), last_price_usd = %s,
    profit_loss_usd = %s, performance_note = %s WHERE id = %s.
    ([last_checked] and [performance_note] are not columns of the row
    model.)  Both values go into DECIMAL(20, 8) columns; one the server
    refuses raises an [Error], which the method catches, returning False. *)
Definition update_paper_trade_performance (srv : server) (db : table) (connected : bool)
           (trade_id : Z) (last_price profit_loss : Q) : table * bool :=
  if connected then
    match decimal srv 20 last_price, decimal srv 20 profit_loss with
    | Some stored_price, Some stored_profit =>
        (map (fun r =>
                if Z.eqb (id r) trade_id then
                  mkTrade (id r) (token_address r) (token_symbol r) (buy_price_usd r)
                          (amount_usd r) (tokens_bought r) (buy_timestamp r) (status r)
                          (Some stored_price) (Some stored_profit)
                else r) db,
         true)
    | _, _ => (db, false)
    end
  else (db, false).

(** An entry of [trade_rows]. *)
Record report_row : Type := mkReportRow {
  row_symbol : string;
  row_address : string;
  row_buy_price : Q;
  row_latest_price : Q;
  row_amount_usd : Q;
  row_tokens_bought : Q;
  pnl_usd : Q;
  pnl_pct : Q;
  row_buy_timestamp : string;
  current_value_usd : Q
}.

(** The variables of [fetch_and_update_trades] while it loops. *)
Record pass : Type := mkPass {
  pass_db : table;
  total_pnl_usd : Q;
  profitable : nat;
  losses : nat;
  trade_rows : list report_row;
  seen : list (string * string)
}.

(** The first pair whose [priceUsd] is present and converts to a float. *)
Definition latest_price (pairs : list pair) : option Q :=
  match find (fun p => match priceUsd p with PriceUsd _ => true | _ => false end) pairs with
  | Some p => match priceUsd p with PriceUsd price => Some price | _ => None end
  | None => None
  end.

Definition key_eqb (a b : string * string) : bool :=
  String.eqb (fst a) (fst b) && String.eqb (snd a) (snd b).

(** One turn of the loop over the open trades.  [fetch_pairs] is the
    DexScreener lookup ([None] when it raises); [update_up] tells whether
    the database answers the update of a trade. *)
Definition visit (srv : server) (fetch_pairs : string -> option (list pair))
           (update_up : Z -> bool) (st : pass) (trade : paper_trade) : pass :=
  let buy_price_usd := buy_price_usd trade in
  let amount_usd := amount_usd trade in
  let tokens_bought := tokens_bought trade in
  if Qeq_bool buy_price_usd 0 || Qeq_bool amount_usd 0 || Qeq_bool tokens_bought 0
  then st
  else
    let key := (token_symbol trade, token_address trade) in
    if existsb (key_eqb key) (seen st) then st
    else
      let st := mkPass (pass_db st) (total_pnl_usd st) (profitable st) (losses st)
                       (trade_rows st) (seen st ++ [key])%list in
      match fetch_pairs (token_address trade) with
      | None => st
      | Some pairs =>
          match latest_price pairs with
          | None => st
          | Some latest_price_usd =>
              if Qeq_bool latest_price_usd 0 then st
              else
                let current_value_usd := tokens_bought * latest_price_usd in
                let pnl_usd := current_value_usd - amount_usd in
                let pnl_pct :=
                  if Qlt_bool 0 buy_price_usd
                  then (latest_price_usd - buy_price_usd) / buy_price_usd * 100
                  else 0 in
                let (db', _) :=
                  update_paper_trade_performance srv (pass_db st) (update_up (id trade))
                                                 (id trade) latest_price_usd pnl_usd in
                mkPass db'
                       (total_pnl_usd st + pnl_usd)
                       (if Qle_bool 0 pnl_usd then S (profitable st) else profitable st)
                       (if Qle_bool 0 pnl_usd then losses st else S (losses st))
                       (trade_rows st
                          ++ [mkReportRow (token_symbol trade) (token_address trade)
                                          buy_price_usd latest_price_usd amount_usd
                                          tokens_bought pnl_usd pnl_pct
                                          (buy_timestamp trade) current_value_usd])%list
                       (seen st)
          end
      end.

(** [fetch_and_update_trades]; the pass holds the updated table, the
    counters left on [self] and the returned [trade_rows]. *)
Definition fetch_and_update_trades (srv : server) (earlier : string -> string -> bool)
           (fetch_pairs : string -> option (list pair)) (update_up : Z -> bool)
           (db : table) (connected : bool) : pass :=
  fold_left (visit srv fetch_pairs update_up)
            (get_open_paper_trades earlier db connected)
            (mkPass db 0 0 0 [] []).

(** [sorted(trade_rows, key=pnl_pct, reverse=True)]: best first, rows with
    equal keys in their original order. *)
Fixpoint insert_by_pnl (r : report_row) (sorted : list report_row) : list report_row :=
  match sorted with
  | [] => [r]
  | x :: rest =>
      if Qle_bool (pnl_pct x) (pnl_pct r) then r :: sorted
      else x :: insert_by_pnl r rest
  end.

Definition sorted_trades (trade_rows : list report_row) : list report_row :=
  fold_right insert_by_pnl [] trade_rows.

(** The numbers of the report [build_report] formats. *)
Record report : Type := mkReport {
  cards : list report_row;
  total_invested : Q;
  total_current_value : Q;
  overall_pct : Q;
  win_rate : Q
}.

Definition sum_amounts (trade_rows : list report_row) : Q :=
  fold_left Qplus (map row_amount_usd trade_rows) 0.

(** [build_report], without the layout of the text; it reads the counters
    the last [fetch_and_update_trades] left on [self]. *)
Definition build_report (self : pass) (trade_rows : list report_row) : report :=
  let total_invested := sum_amounts trade_rows in
  let total_current_value := total_invested + total_pnl_usd self in
  let overall_pct :=
    if Qlt_bool 0 total_invested then total_pnl_usd self / total_invested * 100 else 0 in
  let win_rate :=
    match trade_rows with
    | [] => 0
    | _ => inject_Z (Z.of_nat (profitable self))
           / inject_Z (Z.of_nat (List.length trade_rows)) * 100
    end in
  mkReport (sorted_trades trade_rows) total_invested total_current_value overall_pct win_rate.

End Performance.

(* ================================================================== *)
(** * PriceTracker.record_price_snapshot *)

Module Sampler.
Import PaperTrading.

Local Open Scope string_scope.
Local Open Scope Q_scope.

(** A row of [price_history], with the values passed to the INSERT. *)
Record price_row : Type := mkPriceRow {
  paper_trade_id : Z;
  history_address : string;
  history_symbol : string;
  price_usd : Q;
  performance : Q;
  history_profit_loss_usd : Q;
  minutes : Z
}.

(** [int(x)] on a float: the fraction is dropped *)
Definition int_of (x : Q) : Z := Z.quot (Qnum x) (Zpos (Qden x)).

(** What the loop does with one open trade: nothing when no price is found,
    a row otherwise; [None] is the ZeroDivisionError of dividing by a zero
    buy price, which the method does not catch. *)
Definition snapshot_of (get_token_price : string -> option Q)
           (elapsed_seconds : paper_trade -> Q) (trade : paper_trade)
  : option (list price_row) :=
  match get_token_price (token_address trade) with
  | None => Some []
  | Some current_price =>
      if Qeq_bool current_price 0 then Some []
      else if Qeq_bool (buy_price_usd trade) 0 then None
      else
        let performance_pct :=
          (current_price - buy_price_usd trade) / buy_price_usd trade * 100 in
        let profit_loss_usd :=
          (current_price - buy_price_usd trade)
          * (amount_usd trade / buy_price_usd trade) in
        let minutes_since_entry := int_of (elapsed_seconds trade / 60) in
        Some [mkPriceRow (id trade) (token_address trade) (token_symbol trade)
                         current_price performance_pct profit_loss_usd
                         minutes_since_entry]
  end.

Fixpoint snapshots_of (get_token_price : string -> option Q)
         (elapsed_seconds : paper_trade -> Q) (open_trades : list paper_trade)
  : option (list price_row) :=
  match open_trades with
  | [] => Some []
  | trade :: rest =>
      match snapshot_of get_token_price elapsed_seconds trade with
      | None => None
      | Some rows =>
          match snapshots_of get_token_price elapsed_seconds rest with
          | None => None
          | Some more => Some (rows ++ more)%list
          end
      end
  end.

(** [record_price_snapshot].  [get_token_price] is the DexScreener lookup
    ([None] when it finds no price); [elapsed_seconds] is
    [(datetime.now() - buy_timestamp).total_seconds()] when the trade is
    visited.  The rows are committed after the loop: an exception inside it
    leaves [price_history] as it was ([None]). *)
Definition record_price_snapshot (db : table) (history : list price_row)
           (connected : bool) (get_token_price : string -> option Q)
           (elapsed_seconds : paper_trade -> Q) : option (list price_row) :=
  if connected then
    match snapshots_of get_token_price elapsed_seconds
                       (filter (fun r => String.eqb (status r) "OPEN") db) with
    | Some rows => Some (history ++ rows)%list
    | None => None
    end
  else Some history.

End Sampler.
(* ================================================================== *)
(** * Vocabulary of the statements *)

Module Vocabulary.
Import Scorer PaperTrading PriceTracker.

Local Open Scope string_scope.
Local Open Scope Q_scope.

(** ** Scorers and inputs *)

(** The scorer built from a configuration. *)
Definition scorer_of (cfg : config) : scorer :=
  match __init__ cfg with
  | Constructed self => self
  | ConfigurationError => mkScorer (fun _ => 0) false 0 0 true [] []
  end.

Definition default_scorer : scorer := scorer_of default_config.

(** The thresholds the specification asks for: A > B > C > 0. *)
Definition strictly_decreasing (cfg : config) : Prop :=
  TIER_B_THRESHOLD cfg < TIER_A_THRESHOLD cfg
  /\ TIER_C_THRESHOLD cfg < TIER_B_THRESHOLD cfg
  /\ 0 < TIER_C_THRESHOLD cfg.

(** A configuration whose thresholds increase. *)
Definition increasing_config : config := mkConfig 10 20 30 true 30 18 true.

(** Some raised flag is in the scorer's critical list. *)
Definition has_critical_flag (self : scorer) (flags : list string) : Prop :=
  exists f, In f flags /\ In f (CRITICAL_RED_FLAGS self).

(** The flags [comprehensive_score] collects, as a function of the inputs. *)
Definition collected_flags (clk : clock) (token_data market_context : pyval) : list string :=
  let so_far :=
    (snd (fst (_score_onchain_health token_data))
       ++ snd (fst (_score_market_dynamics token_data))
       ++ snd (fst (_score_community_signals token_data))
       ++ snd (fst (_score_technical_foundation clk token_data))
       ++ snd (fst (_score_timing_factors clk token_data market_context)))%list in
  (so_far ++ snd (_score_risk_factors token_data so_far))%list.

(** The contribution of a category scorer. *)
Definition contribution (r : category_result) : Q := fst (fst r).

(** The sum of the five category contributions. *)
Definition category_sum (clk : clock) (token_data market_context : pyval) : Q :=
  contribution (_score_onchain_health token_data)
  + contribution (_score_market_dynamics token_data)
  + contribution (_score_community_signals token_data)
  + contribution (_score_technical_foundation clk token_data)
  + contribution (_score_timing_factors clk token_data market_context).

(** The deduction the risk scorer computes for an evaluation. *)
Definition risk_deduction (clk : clock) (token_data market_context : pyval) : Q :=
  assoc_default
    (category_scores (comprehensive_score default_scorer clk token_data market_context))
    "risk_deductions" 0.

(** [d] with further entries in front *)
Definition with_items (extra : list (string * pyval)) (d : pyval) : pyval :=
  match d with PDict items => PDict (extra ++ items)%list | _ => d end.

(** A token that passes every safety check. *)
Definition safe_token : pyval :=
  PDict [("honeypot_check", PDict [("is_honeypot", PBool false); ("can_sell", PBool true)]);
         ("liquidity", PDict [("usd", PNum 150000); ("locked", PBool true)]);
         ("contract", PDict [("ownership", PStr "renounced"); ("can_mint", PBool false)])].

(** The same token, marked as a copycat project. *)
Definition copycat_token : pyval := with_items [("is_copycat", PBool true)] safe_token.

(** A token with every market signal present and a null [liquidity_growth_1h]. *)
Definition pumping_token : pyval :=
  with_items
    [("volume_5m_usd", PNum 100); ("volume_1h_usd", PNum 100);
     ("volume_24h_usd", PNum 1000); ("market_cap_usd", PNum 100);
     ("price_change_5m", PNum 11); ("price_change_15m", PNum 21);
     ("price_change_1h", PNum 31);
     ("whale_activity", PDict [("large_buys_1h", PNum 5); ("large_sells_1h", PNum 1);
                               ("new_large_holders_1h", PNum 2)]);
     ("liquidity_usd", PNum 40000); ("slippage_5k_usd", PNum 10);
     ("liquidity_growth_1h", PNone)]
    safe_token.

(** A token whose honeypot check reports that it cannot be sold. *)
Definition honeypot_token : pyval :=
  with_items [("honeypot_check", PDict [("is_honeypot", PBool true); ("can_sell", PBool false)])]
             pumping_token.

(** A Wednesday, 13:00 UTC. *)
Definition wednesday_13h : clock := mkClock 1000000 13 2.

(** ** The accumulator of a body *)

(** [a] after the additions [d] *)
Definition shift (a d : acc) : acc :=
  mkAcc (score a + score d) (flags a ++ flags d)%list (strengths a ++ strengths d)%list.

Definition acc_eq (a b : acc) : Prop :=
  score a == score b /\ flags a = flags b /\ strengths a = strengths b.

(** A body that only adds to the accumulator, the same additions and the
    same outcome from every starting point; [P] holds of the flags it adds. *)
Definition framed (P : string -> Prop) {X : Type} (m : M X) : Prop :=
  exists d o,
    Forall P (flags d)
    /\ forall a, snd (m a) = o /\ acc_eq (fst (m a)) (shift a d).

(** a flag other than [error_flag] *)
Definition other_than (error_flag : string) (f : string) : Prop :=
  String.eqb f error_flag = false.

(** What [try_except] returns from the state and outcome the body ended in. *)
Definition finish (error_flag : string) (r : acc * outcome unit) : category_result :=
  match r with
  | (s, Raised) => (score s, (flags s ++ [error_flag])%list, strengths s)
  | (s, _) => (score s, flags s, strengths s)
  end.

(** The body raised. *)
Definition faults (body : M unit) : Prop := snd (body acc0) = Raised.

(** The accumulator when the body stopped. *)
Definition reached (body : M unit) : acc := fst (body acc0).

(** The safety sub-checks run on their own, without the honeypot check. *)
Definition sub_checks_alone (token_data : pyval) : category_result :=
  try_except "safety_analysis_error" (safety_sub_checks token_data).

(** ** Market weights *)




(** ** Signal policy *)

(** The result is a speculative candidate and speculative mode is on. *)
Definition speculative (result : ScoringResult) (speculative_mode : bool) : Prop :=
  speculative_mode = true /\ is_speculative_candidate result = true.

(** ** Paper positions *)

(** No two rows of the table share an address (the unique key): their
    addresses have different weights. *)
Definition unique_addresses (srv : server) (db : table) : Prop :=
  NoDup (map (fun r => weight_string srv (token_address r)) db).

(** The OPEN positions held for an address. *)
Definition open_positions (srv : server) (db : table) (address : string)
  : list paper_trade :=
  filter (fun r => same_address srv (token_address r) address
                   && String.eqb (status r) "OPEN") db.

(** A letter of the ASCII alphabet as a capital. *)
Definition capital (c : Ascii.ascii) : Ascii.ascii :=
  let n := Ascii.nat_of_ascii c in
  if ((97 <=? n) && (n <=? 122))%nat then Ascii.ascii_of_nat (n - 32) else c.

Fixpoint capitals (s : string) : string :=
  match s with
  | EmptyString => EmptyString
  | String c rest => String (capital c) (capitals rest)
  end.

(** A server in strict mode that compares ASCII text without regard to
    case, refuses text longer than its column and keeps a timestamp as it
    is written. *)
Definition strict_server : server :=
  mkServer capitals true
           (fun n s => if (String.length s <=? n)%nat then Some s else None)
           (fun timestamp => timestamp).

(** A bot with paper trading on, an empty table and the default balance. *)
Definition fresh_bot : MemeBot := mkBot [] true 10000 [].

(** ** Timing bands *)

(** Some snapshot falls in the interval. *)
Definition has_samples (label : string) (history : list snapshot) : bool :=
  existsb (fun s => String.eqb (time_interval s) label) history.

(** A snapshot taken [minutes] after entry at [percent] % performance. *)
Definition sample (minutes percent : Z) : snapshot := mkSnapshot minutes (pct percent).

(** The three samples of the specification's example. *)
Definition three_samples : list snapshot := [sample 10 5; sample 20 60; sample 70 (-3)].

End Vocabulary.

(* ================================================================== *)
(** * Vocabulary of the further properties *)

Module Budget.
Import Scorer Vocabulary.

Local Open Scope string_scope.
Local Open Scope Q_scope.

(** Whatever the starting point, the body leaves the score between
    [lo] and [hi] above it. *)
Definition gains {X : Type} (lo hi : Q) (m : M X) : Prop :=
  forall a, score a + lo <= score (fst (m a)) <= score a + hi.

(** A token on which every market-dynamics check awards its highest band. *)
Definition surging_token : pyval :=
  with_items [("liquidity_growth_1h", PNum 60)] pumping_token.

(** A token on which every community check awards its highest band. *)
Definition viral_token : pyval :=
  PDict
    [("social",
      PDict [("twitter_mentions_1h", PNum 501); ("twitter_engagement_1h", PNum 5001);
             ("reddit_mentions_1h", PNum 21); ("telegram_activity_1h", PNum 201);
             ("influencer_mentions_24h", PNum 1); ("influencer_quality", PStr "major");
             ("meme_viral_score", PNum 8); ("trending_hashtag_count", PNum 1);
             ("sentiment_momentum_1h", PNum 0.2); ("growth_pattern", PStr "viral")])].

(** A token created half an hour before [wednesday_13h] on which every
    technical check awards its highest band. *)
Definition fresh_token : pyval :=
  PDict
    [("created_timestamp", PNum 998200);
     ("market_cap_usd", PNum 50000); ("holder_count", PNum 50);
     ("activity_surge_24h", PBool true); ("smart_money_wallets", PNum 4);
     ("project",
      PDict [("development_activity", PDict [("github_commits", PStr "active")]);
             ("website_quality", PStr "professional");
             ("documentation_quality", PStr "clear");
             ("roadmap_quality", PStr "clear");
             ("team_public", PBool true); ("has_partnerships", PBool true);
             ("utility", PStr "staking")])].

(** A token listed on a major exchange, with every other entry missing. *)
Definition mainstream_token : pyval :=
  PDict [("listings", PDict [("major_cex", PBool true)]);
         ("influencer_coverage", PStr "saturated")].

(** The same token on a day with another major launch, and a Tuesday at
    03:00 UTC: no timing check awards anything. *)
Definition quiet_token : pyval :=
  with_items [("recent_major_launches_24h", PNum 1)] mainstream_token.

Definition tuesday_3h : clock := mkClock 1000000 3 1.

(** A market context and a token on which every timing check awards its
    highest band on a Saturday at 13:00 UTC. *)
Definition euphoric_market : pyval :=
  PDict [("solana_24h_change", PNum 6); ("meme_sector_24h", PNum 21);
         ("fear_greed_index", PNum 71)].

Definition trending_token : pyval := PDict [("trending_momentum", PStr "building")].

Definition saturday_13h : clock := mkClock 1000000 13 5.

(** A token on which every risk check deducts. *)
Definition risky_token : pyval :=
  PDict [("marketing_analysis", PDict [("excessive_claims", PBool true)]);
         ("is_copycat", PBool true);
         ("whale_activity", PDict [("suspicious_movements", PBool true)]);
         ("engagement_score", PNum 10)].

(** The order of the tiers, D lowest. *)
Definition tier_rank (t : tier) : nat :=
  match t with TierD => 0 | TierC => 1 | TierB => 2 | TierA => 3 end.

(** A flag that neither triggers the social-presence deduction nor
    reports it. *)
Definition not_social (f : string) : Prop :=
  mem_str f ["weak_social_presence"; "small_community"; "minimal_social_presence"]
  = false.

(** The flags the five category scorers raise in an evaluation. *)
Definition category_flags (clk : clock) (token_data market_context : pyval) : list string :=
  (snd (fst (_score_onchain_health token_data))
     ++ snd (fst (_score_market_dynamics token_data))
     ++ snd (fst (_score_community_signals token_data))
     ++ snd (fst (_score_technical_foundation clk token_data))
     ++ snd (fst (_score_timing_factors clk token_data market_context)))%list.

(** A token and a moment at which every category check awards its highest
    band. *)
Definition ideal_token : pyval :=
  PDict
    [("honeypot_check", PDict [("is_honeypot", PBool false); ("can_sell", PBool true)]);
     ("liquidity", PDict [("usd", PNum 150000); ("locked", PBool true)]);
     ("contract", PDict [("ownership", PStr "renounced"); ("can_mint", PBool false)]);
     ("volume_5m_usd", PNum 10000); ("volume_1h_usd", PNum 10000);
     ("volume_24h_usd", PNum 100000); ("market_cap_usd", PNum 50000);
     ("price_change_5m", PNum 11); ("price_change_15m", PNum 21);
     ("price_change_1h", PNum 31);
     ("whale_activity", PDict [("large_buys_1h", PNum 5); ("large_sells_1h", PNum 1);
                               ("new_large_holders_1h", PNum 2)]);
     ("liquidity_usd", PNum 40000); ("slippage_5k_usd", PNum 10);
     ("liquidity_growth_1h", PNum 60);
     ("social",
      PDict [("twitter_mentions_1h", PNum 501); ("twitter_engagement_1h", PNum 5001);
             ("reddit_mentions_1h", PNum 21); ("telegram_activity_1h", PNum 201);
             ("influencer_mentions_24h", PNum 1); ("influencer_quality", PStr "major");
             ("meme_viral_score", PNum 8); ("trending_hashtag_count", PNum 1);
             ("sentiment_momentum_1h", PNum 0.2); ("growth_pattern", PStr "viral")]);
     ("created_timestamp", PNum 998200); ("holder_count", PNum 50);
     ("activity_surge_24h", PBool true); ("smart_money_wallets", PNum 4);
     ("project",
      PDict [("development_activity", PDict [("github_commits", PStr "active")]);
             ("website_quality", PStr "professional");
             ("documentation_quality", PStr "clear");
             ("roadmap_quality", PStr "clear");
             ("team_public", PBool true); ("has_partnerships", PBool true);
             ("utility", PStr "staking")]);
     ("trending_momentum", PStr "building")].

End Budget.

Module Ledger.
Import Scorer PaperTrading Targets Scan Performance Sampler Vocabulary.

Local Open Scope string_scope.
Local Open Scope Q_scope.

(** Price targets above the price and a stop loss between 0 and the price,
    for the tiers A, B and C. *)
Definition ordered_targets (cfg : target_config) : Prop :=
  (-100 < TIER_A_STOP_LOSS_PERCENT cfg /\ TIER_A_STOP_LOSS_PERCENT cfg < 0
   /\ 0 < TIER_A_TARGET_1_PERCENT cfg
   /\ TIER_A_TARGET_1_PERCENT cfg < TIER_A_TARGET_2_PERCENT cfg)
  /\ (-100 < TIER_B_STOP_LOSS_PERCENT cfg /\ TIER_B_STOP_LOSS_PERCENT cfg < 0
      /\ 0 < TIER_B_TARGET_1_PERCENT cfg
      /\ TIER_B_TARGET_1_PERCENT cfg < TIER_B_TARGET_2_PERCENT cfg)
  /\ (-100 < TIER_C_STOP_LOSS_PERCENT cfg /\ TIER_C_STOP_LOSS_PERCENT cfg < 0
      /\ 0 < TIER_C_TARGET_1_PERCENT cfg
      /\ TIER_C_TARGET_1_PERCENT cfg < TIER_C_TARGET_2_PERCENT cfg).

(** A position as the bot opens it: bought at a positive price, the tokens
    worth the amount spent at that price, OPEN. *)
Definition sound_position (r : paper_trade) : Prop :=
  0 < buy_price_usd r
  /\ tokens_bought r * buy_price_usd r == amount_usd r
  /\ status r = "OPEN".

(** The columns of a row that are set when the position is opened. *)
Definition entry (r : paper_trade)
  : Z * string * string * Q * Q * Q * string * string :=
  (id r, token_address r, token_symbol r, buy_price_usd r, amount_usd r,
   tokens_bought r, buy_timestamp r, status r).

(** Best first. *)
Definition best_first (rows : list report_row) : Prop :=
  StronglySorted (fun a b => pnl_pct b <= pnl_pct a) rows.

Definition sum_pnl (rows : list report_row) : Q :=
  fold_right (fun r rest => pnl_usd r + rest) 0 rows.

Definition sum_current_value (rows : list report_row) : Q :=
  fold_right (fun r rest => current_value_usd r + rest) 0 rows.

Definition winners (rows : list report_row) : nat :=
  List.length (filter (fun r => Qle_bool 0 (pnl_usd r)) rows).

(** The counters of a pass agree with its rows. *)
Definition counted (p : pass) : Prop :=
  (profitable p + losses p = List.length (trade_rows p))%nat
  /\ profitable p = winners (trade_rows p)
  /\ total_pnl_usd p == sum_pnl (trade_rows p).

(** The profit of a row in USD is its percentage of the amount spent, and
    its current value is the amount plus the profit. *)
Definition coherent_row (r : report_row) : Prop :=
  pnl_usd r == row_amount_usd r * pnl_pct r / 100
  /\ current_value_usd r == row_amount_usd r + pnl_usd r
  /\ 0 < row_buy_price r
  /\ ~ row_latest_price r == 0.

(** A lookup that quotes every token at 0.002 USD. *)
Definition quote_all (address : string) : option (list pair) :=
  Some [mkPair (PriceUsd 0.002) (Some "MEME")].

(** An order of timestamps in which none is after another. *)
Definition any_order (a b : string) : bool := true.

(** A token quoted at 0.002 USD by its only pair. *)
Definition quoted_pairs : list pair := [mkPair (PriceUsd 0.002) (Some "MEME")].

(** A table with one position: 25 USD of MEME bought at 0.001 USD. *)
Definition one_position : table :=
  [mkTrade 1 "ADDR1" "MEME" 0.001 25 25000 "t1" "OPEN" None None].

(** A bot that holds this position. *)
Definition holding_bot : MemeBot := mkBot one_position true 10000 [].

(** The local record of a position bought at [price]. *)
Definition local_of (amount : Q) (address : string) (selected : pair) (price : Q)
           (now : string) : local_trade :=
  mkLocal address
          (match baseToken_symbol selected with Some s => s | None => "UNKNOWN" end)
          price amount (amount / price) now.

End Ledger.

Module History.
Import PaperTrading Sampler PriceTracker Vocabulary.

Local Open Scope string_scope.
Local Open Scope Q_scope.





(** A column of the result summed over its rows. *)
Definition total_of (column : interval_row -> nat) (rows : list interval_row) : nat :=
  fold_right (fun r n => (column r + n)%nat) 0%nat rows.

(** A lookup that quotes every token at 0.002 USD, and a clock that finds
    every position 959 seconds old. *)
Definition quoted (address : string) : option Q := Some 0.002.

Definition sixteen_minutes_less_a_second (trade : paper_trade) : Q := 959.

(** A pair that quotes a token at 0.000000001 USD. *)
Definition dust_pairs : list pair := [mkPair (PriceUsd 0.000000001) (Some "DUST")].

(** A position with a buy price of zero. *)
Definition unpriced_position : paper_trade :=
  mkTrade 2 "ADDR2" "FREE" 0 25 0 "t2" "OPEN" None None.

End History.

(* ================================================================== *)
(** * Properties of the scorer *)

Module ScorerFacts.
Import Scorer Vocabulary.

Local Open Scope string_scope.
Local Open Scope Q_scope.

(** ** Helpers *)

Lemma Qlt_bool_iff (x y : Q) : Qlt_bool x y = true <-> x < y.
Proof.
  unfold Qlt_bool. rewrite negb_true_iff.
  split; intro H.
  - apply Qnot_le_lt. intro L. apply Qle_bool_iff in L. congruence.
  - destruct (Qle_bool y x) eqn:E; [|reflexivity].
    apply Qle_bool_iff in E. exfalso. exact (Qlt_not_le _ _ H E).
Qed.

Lemma Qle_bool_false_iff (x y : Q) : Qle_bool x y = false <-> y < x.
Proof.
  rewrite <- Qlt_bool_iff. unfold Qlt_bool.
  destruct (Qle_bool x y); cbn; intuition congruence.
Qed.

Lemma mem_str_In (x : string) (l : list string) : mem_str x l = true <-> In x l.
Proof.
  unfold mem_str. rewrite existsb_exists. split.
  - intros [y [Hy E]]. apply String.eqb_eq in E. now subst.
  - intro H. exists x. split; [assumption | apply String.eqb_refl].
Qed.

Lemma clamp_bounds (x : Q) : 0 <= Qmax 0 (Qmin 100 x) <= 100.
Proof.
  split.
  - apply Q.le_max_l.
  - apply Q.max_lub; [discriminate | apply Q.le_min_l].
Qed.

Lemma reclamp (x : Q) : 0 <= x <= 100 -> Qmin 100 (Qmax 0 x) == x.
Proof.
  intros [H0 H1]. rewrite (Q.max_r _ _ H0). now apply Q.min_r.
Qed.

(** ** The critical override *)

Lemma critical_flags_of_nil (self : scorer) (flags : list string) :
  critical_flags_of self flags = [] -> ~ has_critical_flag self flags.
Proof.
  intros E [f [Hin Hc]].
  assert (H : In f (critical_flags_of self flags)).
  { unfold critical_flags_of. apply filter_In. split; [assumption|].
    now apply mem_str_In. }
  rewrite E in H. exact H.
Qed.

Lemma critical_flags_of_cons (self : scorer) (flags : list string) f rest :
  critical_flags_of self flags = f :: rest -> has_critical_flag self flags.
Proof.
  intro E. exists f.
  assert (H : In f (critical_flags_of self flags)) by (rewrite E; now left).
  unfold critical_flags_of in H. apply filter_In in H. destruct H as [H1 H2].
  split; [assumption | now apply mem_str_In].
Qed.

(** Splits the results of the six scorers as [comprehensive_score] does. *)
Ltac split_scorers clk td mc :=
  destruct (_score_onchain_health td) as [[?on_chain ?health_flags] ?health_strengths];
  destruct (_score_market_dynamics td) as [[?market ?market_flags] ?market_strengths];
  destruct (_score_community_signals td) as [[?community ?community_flags] ?community_strengths];
  destruct (_score_technical_foundation clk td) as [[?technical ?tech_flags] ?tech_strengths];
  destruct (_score_timing_factors clk td mc) as [[?timing ?timing_flags] ?timing_strengths];
  cbn [fst snd] in *;
  destruct (_score_risk_factors td _) as [?deductions ?risk_flags];
  cbn [fst snd] in *.

Lemma red_flags_collected self clk td mc :
  red_flags (comprehensive_score self clk td mc) = collected_flags clk td mc.
Proof.
  unfold comprehensive_score, collected_flags.
  split_scorers clk td mc.
  destruct (critical_flags_of self _); reflexivity.
Qed.

(** With a critical flag among the collected flags the result is the fixed
    AVOID record. *)
Lemma critical_override self clk td mc :
  has_critical_flag self (collected_flags clk td mc) ->
  let r := comprehensive_score self clk td mc in
  total_score r = 0 /\ result_tier r = TierD /\ risk_level r = CRITICAL
  /\ result_recommendation r = AvoidCritical.
Proof.
  intro H. unfold collected_flags in H.
  unfold comprehensive_score.
  split_scorers clk td mc.
  destruct (critical_flags_of self _) eqn:E.
  - exfalso. exact (critical_flags_of_nil _ _ E H).
  - cbn. repeat split.
Qed.

(** C1. For every evaluation of [comprehensive_score], if any raised flag
    belongs to the critical-flag set, the result has total score 0, tier D
    and risk level CRITICAL, whatever the category scorers contributed. *)
Theorem critical_flag_gives_zero_D_critical
        (self : scorer) (clk : clock) (token_data market_context : pyval) :
  let result := comprehensive_score self clk token_data market_context in
  has_critical_flag self (red_flags result) ->
  total_score result = 0 /\ result_tier result = TierD /\ risk_level result = CRITICAL.
Proof.
  intros result H. subst result. rewrite red_flags_collected in H.
  destruct (critical_override self clk token_data market_context H) as [T [D [R _]]].
  repeat split; assumption.
Qed.

(** C1 at a token that cannot be sold, although its market signals would
    score 21 points. *)
Lemma critical_flag_gives_zero_D_critical_witness :
  let result := comprehensive_score default_scorer wednesday_13h honeypot_token PNone in
  has_critical_flag default_scorer (red_flags result)
  /\ assoc (category_scores result) "market_dynamics" = Some (21 # 1)
  /\ total_score result = 0 /\ result_tier result = TierD /\ risk_level result = CRITICAL.
Proof.
  intro result.
  assert (H : has_critical_flag default_scorer (red_flags result)).
  { exists "CRITICAL_HONEYPOT". split; vm_compute; auto. }
  split; [exact H|]. split; [vm_compute; reflexivity|].
  exact (critical_flag_gives_zero_D_critical
           default_scorer wednesday_13h honeypot_token PNone H).
Defined.

(** C10. A result of [comprehensive_score] whose red flags include a
    critical flag never signals, under every policy and both values of the
    speculative-mode flag. *)
Theorem critical_result_never_signals
        (self : scorer) (clk : clock) (token_data market_context : pyval)
        (speculative_mode : bool) :
  let result := comprehensive_score self clk token_data market_context in
  has_critical_flag self (red_flags result) ->
  should_send_signal_comprehensive self result speculative_mode = false.
Proof.
  intros result H. subst result. rewrite red_flags_collected in H.
  destruct (critical_override self clk token_data market_context H) as [T [D [R _]]].
  unfold should_send_signal_comprehensive, is_speculative_candidate.
  rewrite T, D, R. cbn.
  rewrite andb_false_r. destruct (tier_d_never self); reflexivity.
Qed.

(** C10 at a token that cannot be sold, with speculative mode on. *)
Lemma critical_result_never_signals_witness :
  let result := comprehensive_score default_scorer wednesday_13h honeypot_token PNone in
  has_critical_flag default_scorer (red_flags result)
  /\ should_send_signal_comprehensive default_scorer result true = false.
Proof.
  intro result.
  assert (H : has_critical_flag default_scorer (red_flags result)).
  { exists "CRITICAL_HONEYPOT". split; vm_compute; auto. }
  split; [exact H|].
  exact (critical_result_never_signals
           default_scorer wednesday_13h honeypot_token PNone true H).
Defined.

(** ** Bodies only add to the accumulator *)

Lemma acc_eq_shift_nil a : acc_eq a (shift a acc0).
Proof.
  unfold acc_eq, shift; cbn. rewrite !app_nil_r. repeat split; try lra.
Qed.

Section Framed.
Variable P : string -> Prop.

Lemma framed_ret {X} (x : X) : framed P (ret x).
Proof.
  exists acc0, (Normal x). split; [constructor|].
  intro a. split; [reflexivity | apply acc_eq_shift_nil].
Qed.

Lemma framed_early_return {X} : framed P (@early_return X).
Proof.
  exists acc0, Returned. split; [constructor|].
  intro a. split; [reflexivity | apply acc_eq_shift_nil].
Qed.

Lemma framed_lift {X} (o : option X) : framed P (lift o).
Proof.
  destruct o as [x|].
  - exists acc0, (Normal x). split; [constructor|].
    intro a. split; [reflexivity | apply acc_eq_shift_nil].
  - exists acc0, Raised. split; [constructor|].
    intro a. split; [reflexivity | apply acc_eq_shift_nil].
Qed.

Lemma framed_award q : framed P (award q).
Proof.
  exists (mkAcc q [] []), (Normal tt). split; [constructor|].
  intro a. split; [reflexivity|].
  unfold acc_eq, shift; cbn. rewrite !app_nil_r. repeat split; try lra.
Qed.

Lemma framed_flag f : P f -> framed P (flag f).
Proof.
  intro Pf. exists (mkAcc 0 [f] []), (Normal tt).
  split; [repeat constructor; exact Pf|].
  intro a. split; [reflexivity|].
  unfold acc_eq, shift; cbn. rewrite !app_nil_r. repeat split; try lra.
Qed.

Lemma framed_strength m : framed P (strength m).
Proof.
  exists (mkAcc 0 [] [m]), (Normal tt). split; [constructor|].
  intro a. split; [reflexivity|].
  unfold acc_eq, shift; cbn. rewrite !app_nil_r. repeat split; try lra.
Qed.

Lemma framed_bind {X Y} (m : M X) (k : X -> M Y) :
  framed P m -> (forall x, framed P (k x)) -> framed P (bind m k).
Proof.
  intros [d [o [Pd Hm]]] Hk.
  destruct o as [x| |].
  - destruct (Hk x) as [d' [o' [Pd' Hk']]].
    exists (shift d d'), o'. split.
    { cbn. apply Forall_app. now split. }
    intro a.
    unfold bind. destruct (Hm a) as [Ho Ha].
    destruct (m a) as [s' o'']. cbn in Ho, Ha. subst o''.
    destruct (Hk' s') as [Ho' Ha']. split; [assumption|].
    destruct Ha as [A1 [A2 A3]], Ha' as [B1 [B2 B3]].
    unfold acc_eq, shift in *; cbn in *.
    rewrite B1, B2, B3, A1, A2, A3, !app_assoc. repeat split; try lra.
  - exists d, Returned. split; [assumption|].
    intro a. unfold bind. destruct (Hm a) as [Ho Ha].
    destruct (m a) as [s' o'']. cbn in Ho, Ha. subst o''. split; [reflexivity | assumption].
  - exists d, Raised. split; [assumption|].
    intro a. unfold bind. destruct (Hm a) as [Ho Ha].
    destruct (m a) as [s' o'']. cbn in Ho, Ha. subst o''. split; [reflexivity | assumption].
Qed.

(** The flags a framed body has raised when it stops satisfy [P]. *)
Lemma framed_flags_reached (m : M unit) :
  framed P m -> Forall P (flags (reached m)).
Proof.
  intros [d [o [Pd H]]]. unfold reached.
  destruct (H acc0) as [_ [_ [F _]]]. rewrite F. exact Pd.
Qed.

End Framed.

Ltac framed_step :=
  first
    [ apply framed_bind; [ | intro ]
    | apply framed_ret | apply framed_early_return | apply framed_lift
    | apply framed_award | apply framed_strength
    | apply framed_flag; first [ exact I | reflexivity ]
    | match goal with
      | |- framed _ (if ?b then _ else _) => destruct b
      | |- framed _ (match ?x with _ => _ end) => destruct x
      end
    | progress cbv zeta
    | progress unfold get_, Scorer.lt, Scorer.le, Scorer.gt, Scorer.ge, num, pass ].

Ltac framed_tac := repeat framed_step.

Lemma framed_safety_sub_checks P td :
  (forall f, In f ["extreme_sell_tax"; "restrictive_tx_limits"; "has_pause_risk";
                   "insufficient_liquidity"; "unlocked_liquidity";
                   "centralized_control"; "unlimited_minting"] -> P f) ->
  framed P (safety_sub_checks td).
Proof.
  intro HP.
  unfold safety_sub_checks, tax_check, tx_limit_check, pause_check,
    liquidity_check, contract_check.
  repeat first [ framed_step | apply framed_flag; apply HP; cbn; tauto ].
Qed.

Lemma try_except_finish error_flag body :
  try_except error_flag body = finish error_flag (body acc0).
Proof. reflexivity. Qed.

(** A framed body started from [a] ends as it does from the empty
    accumulator, with [a] in front. *)
Lemma finish_framed {P : string -> Prop} (error_flag : string) {m : M unit} (a : acc) :
  framed P m ->
  let '(s, f, g) := finish error_flag (m a) in
  let '(s0, f0, g0) := finish error_flag (m acc0) in
  s == score a + s0 /\ f = (flags a ++ f0)%list /\ g = (strengths a ++ g0)%list.
Proof.
  intros [d [o [_ H]]]. unfold finish.
  destruct (H a) as [Ho [A1 [A2 A3]]], (H acc0) as [Ho0 [B1 [B2 B3]]].
  destruct (m a) as [s1 o1], (m acc0) as [s2 o2]. cbn in *. subst o1 o2.
  destruct o; cbn; rewrite A1, A2, A3, B1, B2, B3, ?app_assoc; repeat split; try lra.
Qed.

(** C2. The safety scorer reproduces the honeypot calibration: a snapshot
    that can be sold and is not flagged as honeypot gets +8 on top of the
    remaining safety sub-checks; one that can be sold but is flagged gets
    +5; one that cannot be sold gets 0 and the CRITICAL_HONEYPOT flag, and
    the scorer returns at once, so that taxes, liquidity lock, ownership
    and mint capability contribute nothing (no points, flags or strengths). *)
Theorem honeypot_calibration (token_data status is_honeypot can_sell : pyval) :
  Py.get token_data "honeypot_check" (PDict []) = Some status ->
  Py.get status "is_honeypot" (PBool true) = Some is_honeypot ->
  Py.get status "can_sell" (PBool false) = Some can_sell ->
  let '(score, flags, strengths) := _score_onchain_health token_data in
  let '(sub_score, sub_flags, sub_strengths) := sub_checks_alone token_data in
  if truthy can_sell then
    if truthy is_honeypot then
      score == 5 + sub_score /\ flags = sub_flags
      /\ strengths = Text "Can sell but check carefully" :: sub_strengths
    else
      score == 8 + sub_score /\ flags = sub_flags
      /\ strengths = Text "SAFE TO TRADE - Not a honeypot" :: sub_strengths
  else
    score = 0 /\ flags = ["CRITICAL_HONEYPOT"] /\ strengths = [].
Proof.
  intros Hs Hh Hc.
  assert (F : framed (fun _ => True) (safety_sub_checks token_data))
    by (apply framed_safety_sub_checks; trivial).
  unfold _score_onchain_health, onchain_health_body, sub_checks_alone.
  rewrite !try_except_finish.
  unfold honeypot_check, bind, get_, lift, award, strength, flag, early_return.
  rewrite Hs, Hh, Hc.
  destruct (truthy can_sell) eqn:Ec; [destruct (truthy is_honeypot) eqn:Eh|].
  - cbn [negb andb acc0 score flags strengths app].
    pose proof (finish_framed "safety_analysis_error"
                  (mkAcc (0 + 5) [] [Text "Can sell but check carefully"]) F) as T.
    destruct (finish _ (safety_sub_checks token_data (mkAcc _ _ _))) as [[s f] g].
    destruct (finish _ (safety_sub_checks token_data acc0)) as [[s0 f0] g0].
    cbn in T. destruct T as [T1 [T2 T3]].
    repeat split; try assumption; try (rewrite T1; lra).
  - cbn [negb andb acc0 score flags strengths app].
    pose proof (finish_framed "safety_analysis_error"
                  (mkAcc (0 + 8) [] [Text "SAFE TO TRADE - Not a honeypot"]) F) as T.
    destruct (finish _ (safety_sub_checks token_data (mkAcc _ _ _))) as [[s f] g].
    destruct (finish _ (safety_sub_checks token_data acc0)) as [[s0 f0] g0].
    cbn in T. destruct T as [T1 [T2 T3]].
    repeat split; try assumption; try (rewrite T1; lra).
  - rewrite andb_false_r. cbn.
    destruct (finish _ _) as [[s0 f0] g0]. repeat split.
Qed.

(** C2 at a token that cannot be sold: the sub-checks alone would give 17
    points; the scorer gives 0. *)
Lemma honeypot_calibration_witness :
  let status := PDict [("is_honeypot", PBool true); ("can_sell", PBool false)] in
  Py.get honeypot_token "honeypot_check" (PDict []) = Some status
  /\ Py.get status "is_honeypot" (PBool true) = Some (PBool true)
  /\ Py.get status "can_sell" (PBool false) = Some (PBool false)
  /\ contribution (sub_checks_alone honeypot_token) == 17
  /\ _score_onchain_health honeypot_token = (0, ["CRITICAL_HONEYPOT"], []).
Proof.
  intro status.
  assert (Hs : Py.get honeypot_token "honeypot_check" (PDict []) = Some status)
    by reflexivity.
  assert (Hh : Py.get status "is_honeypot" (PBool true) = Some (PBool true))
    by reflexivity.
  assert (Hc : Py.get status "can_sell" (PBool false) = Some (PBool false))
    by reflexivity.
  repeat (split; [assumption|]).
  split; [vm_compute; reflexivity|].
  pose proof (honeypot_calibration honeypot_token status (PBool true) (PBool false)
                Hs Hh Hc) as H.
  destruct (_score_onchain_health honeypot_token) as [[s f] g].
  destruct (sub_checks_alone honeypot_token) as [[s0 f0] g0].
  cbn in H. destruct H as [H1 [H2 H3]]. now subst.
Defined.

(** ** Faults inside a category scorer *)

(** How [try_except] treats a body: on a fault the result is the
    accumulator reached, with the error flag appended; otherwise it is the
    accumulator unchanged. *)
Lemma try_except_faults error_flag body :
  faults body ->
  try_except error_flag body
  = (score (reached body), (flags (reached body) ++ [error_flag])%list,
     strengths (reached body)).
Proof.
  unfold faults, reached, try_except. destruct (body acc0) as [s o]. cbn.
  intros ->. reflexivity.
Qed.

Lemma try_except_no_fault error_flag body :
  ~ faults body ->
  try_except error_flag body
  = (score (reached body), flags (reached body), strengths (reached body)).
Proof.
  unfold faults, reached, try_except. destruct (body acc0) as [s o]. cbn.
  destruct o; [reflexivity | reflexivity | intro H; now elim H].
Qed.

(** The category scores of a result are the contributions of the six
    scorers, each computed from the inputs alone. *)
Lemma category_scores_independent self clk td mc :
  category_scores (comprehensive_score self clk td mc)
  = [("on_chain_health", contribution (_score_onchain_health td));
     ("market_dynamics", contribution (_score_market_dynamics td));
     ("community_signals", contribution (_score_community_signals td));
     ("technical_foundation", contribution (_score_technical_foundation clk td));
     ("timing_factors", contribution (_score_timing_factors clk td mc));
     ("risk_deductions",
      fst (_score_risk_factors td
             (snd (fst (_score_onchain_health td))
                ++ snd (fst (_score_market_dynamics td))
                ++ snd (fst (_score_community_signals td))
                ++ snd (fst (_score_technical_foundation clk td))
                ++ snd (fst (_score_timing_factors clk td mc)))%list))].
Proof.
  unfold comprehensive_score, contribution.
  split_scorers clk td mc.
  destruct (critical_flags_of self _); reflexivity.
Qed.

(** C7, what the code does not do: a fault in the last statement of the
    market-dynamics scorer leaves the category with 21 points, and the
    token reaches tier A with them. *)
Lemma faulting_category_keeps_its_points :
  let result := comprehensive_score default_scorer wednesday_13h pumping_token PNone in
  faults (market_dynamics_body pumping_token)
  /\ In "market_analysis_error" (snd (fst (_score_market_dynamics pumping_token)))
  /\ contribution (_score_market_dynamics pumping_token) == 21
  /\ ~ contribution (_score_market_dynamics pumping_token) <= 1
  /\ total_score result == 52.25
  /\ result_tier result = TierA.
Proof.
  vm_compute. repeat split; auto; discriminate.
Qed.

(** No statement of a body raises the body's own error flag. *)
Lemma framed_onchain_health td :
  framed (other_than "safety_analysis_error") (onchain_health_body td).
Proof.
  unfold onchain_health_body, honeypot_check.
  apply framed_bind; [framed_tac | intro].
  apply framed_safety_sub_checks.
  intros f H. cbn in H. unfold other_than.
  repeat (destruct H as [<-|H]; [reflexivity|]). contradiction.
Qed.

Lemma framed_market_dynamics td :
  framed (other_than "market_analysis_error") (market_dynamics_body td).
Proof.
  unfold market_dynamics_body, volume_surge, volume_intensity_check, price_momentum,
    whale_activity_check, slippage_check.
  framed_tac.
Qed.

Lemma framed_community_signals td :
  framed (other_than "social_analysis_error") (community_signals_body td).
Proof.
  unfold community_signals_body, twitter_check, reddit_telegram_check,
    influencer_meme_check, hype_check.
  framed_tac.
Qed.

Lemma framed_technical_foundation clk td :
  framed (other_than "timing_analysis_error") (technical_foundation_body clk td).
Proof.
  unfold technical_foundation_body, token_age_check, listing_check, opportunity_check,
    momentum_check, transparency_check.
  framed_tac.
Qed.

Lemma framed_timing_factors clk td mc :
  framed (other_than "timing_analysis_error") (timing_factors_body clk td mc).
Proof.
  unfold timing_factors_body, market_momentum, trading_hours, competition_check.
  framed_tac.
Qed.

(** The error flag is in the flags a scorer returns exactly when its body
    faulted. *)
Lemma error_flag_iff_faults error_flag body :
  framed (other_than error_flag) body ->
  In error_flag (snd (fst (try_except error_flag body))) <-> faults body.
Proof.
  intro F. apply framed_flags_reached in F.
  destruct (snd (body acc0)) eqn:E.
  - assert (N : ~ faults body) by (unfold faults; congruence).
    rewrite (try_except_no_fault _ _ N). cbn [fst snd]. split; [|contradiction].
    intro H. rewrite Forall_forall in F. specialize (F _ H).
    unfold other_than in F. rewrite String.eqb_refl in F. discriminate.
  - assert (N : ~ faults body) by (unfold faults; congruence).
    rewrite (try_except_no_fault _ _ N). cbn [fst snd]. split; [|contradiction].
    intro H. rewrite Forall_forall in F. specialize (F _ H).
    unfold other_than in F. rewrite String.eqb_refl in F. discriminate.
  - rewrite (try_except_faults _ _ E). cbn [fst snd]. split; [intros _; exact E|].
    intros _. apply in_or_app. right. now left.
Qed.

(** C7, as the code has it.  Every category scorer returns a result for
    every snapshot; a fault inside its body is caught by the scorer itself:
    the category keeps the contribution, flags and strengths accumulated
    before the fault (they are not reset) and gains its [*_analysis_error]
    flag, which it carries in no other case; every category score of the
    evaluation is the contribution of its own scorer on the snapshot,
    whatever happens in the other scorers. *)
Theorem category_faults_are_contained
        (self : scorer) (clk : clock) (token_data market_context : pyval) :
  let caught error_flag body result :=
    exists score flags strengths,
      result = (score, flags, strengths)
      /\ score = Body.score (reached body)
      /\ strengths = Body.strengths (reached body)
      /\ (faults body -> flags = (Body.flags (reached body) ++ [error_flag])%list)
      /\ (~ faults body -> flags = Body.flags (reached body))
      /\ (In error_flag flags <-> faults body) in
  caught "safety_analysis_error" (onchain_health_body token_data)
         (_score_onchain_health token_data)
  /\ caught "market_analysis_error" (market_dynamics_body token_data)
            (_score_market_dynamics token_data)
  /\ caught "social_analysis_error" (community_signals_body token_data)
            (_score_community_signals token_data)
  /\ caught "timing_analysis_error" (technical_foundation_body clk token_data)
            (_score_technical_foundation clk token_data)
  /\ caught "timing_analysis_error" (timing_factors_body clk token_data market_context)
            (_score_timing_factors clk token_data market_context)
  /\ let scores := category_scores (comprehensive_score self clk token_data market_context) in
     assoc scores "on_chain_health" = Some (contribution (_score_onchain_health token_data))
     /\ assoc scores "market_dynamics"
        = Some (contribution (_score_market_dynamics token_data))
     /\ assoc scores "community_signals"
        = Some (contribution (_score_community_signals token_data))
     /\ assoc scores "technical_foundation"
        = Some (contribution (_score_technical_foundation clk token_data))
     /\ assoc scores "timing_factors"
        = Some (contribution (_score_timing_factors clk token_data market_context)).
Proof.
  intro caught.
  assert (K : forall error_flag body,
             framed (other_than error_flag) body ->
             caught error_flag body (try_except error_flag body)).
  { intros error_flag body F. unfold caught.
    pose proof (error_flag_iff_faults error_flag body F) as I.
    exists (score (reached body)).
    destruct (snd (body acc0)) eqn:E.
    - exists (flags (reached body)), (strengths (reached body)).
      assert (N : ~ faults body) by (unfold faults; congruence).
      rewrite (try_except_no_fault _ _ N) in *. cbn [fst snd] in I.
      repeat split; intros; try reflexivity; try contradiction; now apply I.
    - exists (flags (reached body)), (strengths (reached body)).
      assert (N : ~ faults body) by (unfold faults; congruence).
      rewrite (try_except_no_fault _ _ N) in *. cbn [fst snd] in I.
      repeat split; intros; try reflexivity; try contradiction; now apply I.
    - exists (flags (reached body) ++ [error_flag])%list, (strengths (reached body)).
      rewrite (try_except_faults _ _ E) in *. cbn [fst snd] in I.
      repeat split; intros; try reflexivity; try contradiction; now apply I. }
  split; [apply K, framed_onchain_health|].
  split; [apply K, framed_market_dynamics|].
  split; [apply K, framed_community_signals|].
  split; [apply K, framed_technical_foundation|].
  split; [apply K, framed_timing_factors|].
  cbv zeta. rewrite category_scores_independent. cbn. repeat split.
Qed.

(** C7 at the token whose market-dynamics scorer faults. *)
Lemma category_faults_are_contained_witness :
  faults (market_dynamics_body pumping_token)
  /\ _score_market_dynamics pumping_token
     = (score (reached (market_dynamics_body pumping_token)),
        (flags (reached (market_dynamics_body pumping_token))
           ++ ["market_analysis_error"])%list,
        strengths (reached (market_dynamics_body pumping_token)))
  /\ ~ faults (community_signals_body pumping_token)
  /\ ~ In "social_analysis_error" (snd (fst (_score_community_signals pumping_token))).
Proof.
  destruct (category_faults_are_contained default_scorer wednesday_13h pumping_token PNone)
    as [_ [[s [f [g [R [Hs [Hg [Hf [_ _]]]]]]]] [[s' [f' [g' [R' [_ [_ [_ [_ I]]]]]]]] _]]].
  assert (F : faults (market_dynamics_body pumping_token)) by reflexivity.
  assert (N : ~ faults (community_signals_body pumping_token)) by (vm_compute; discriminate).
  split; [exact F|]. split; [|split; [exact N|]].
  - rewrite R, Hs, Hg, (Hf F). reflexivity.
  - rewrite R'. cbn [fst snd]. intro H. apply N. now apply I.
Defined.

(** ** The total score *)

Lemma sum_values_six a b c d e r k1 k2 k3 k4 k5 k6 :
  sum_values [(k1, a); (k2, b); (k3, c); (k4, d); (k5, e); (k6, r)] - r
  == a + b + c + d + e.
Proof. unfold sum_values. cbn [map fold_left snd]. ring. Qed.

(** The weight tables name no key of the category scores, so the market
    adjustment leaves a clamped total as it is. *)
Lemma adjustment_of_evaluation cfg total a b c d e r mc :
  0 <= total <= 100 ->
  _apply_market_adjustments (scorer_of cfg) total
    [("on_chain_health", a); ("market_dynamics", b); ("community_signals", c);
     ("technical_foundation", d); ("timing_factors", e); ("risk_deductions", r)] mc
  == total.
Proof.
  intro B. unfold _apply_market_adjustments.
  destruct (Py.get mc "condition" (PStr "sideways")) as [[| | |s|]|];
    try reflexivity; try (cbn; now apply reclamp).
  unfold scorer_of, __init__, assoc_default, MARKET_CONDITION_WEIGHTS, assoc.
  destruct (String.eqb "bull_market" s); [cbn; now apply reclamp|].
  destruct (String.eqb "bear_market" s); [cbn; now apply reclamp|].
  destruct (String.eqb "sideways" s); cbn; now apply reclamp.
Qed.

(** Without a critical flag the total is the clamped sum of the five
    category contributions: the risk deduction, added by [sum] and then
    subtracted, is not in it. *)
Lemma total_is_clamped_category_sum cfg clk td mc :
  ~ has_critical_flag (scorer_of cfg) (collected_flags clk td mc) ->
  total_score (comprehensive_score (scorer_of cfg) clk td mc)
  == Qmax 0 (Qmin 100 (category_sum clk td mc)).
Proof.
  intro H. unfold collected_flags in H.
  unfold comprehensive_score, category_sum, contribution.
  split_scorers clk td mc.
  destruct (critical_flags_of (scorer_of cfg) _) eqn:E.
  - cbn [total_score].
    assert (S : sum_values
                  [("on_chain_health", on_chain); ("market_dynamics", market);
                   ("community_signals", community); ("technical_foundation", technical);
                   ("timing_factors", timing); ("risk_deductions", deductions)]
                - assoc_default
                    [("on_chain_health", on_chain); ("market_dynamics", market);
                     ("community_signals", community); ("technical_foundation", technical);
                     ("timing_factors", timing); ("risk_deductions", deductions)]
                    "risk_deductions" 0
                == on_chain + market + community + technical + timing).
    { change (assoc_default _ "risk_deductions" 0) with deductions.
      apply sum_values_six. }
    destruct (truthy mc).
    + rewrite adjustment_of_evaluation by apply clamp_bounds.
      now rewrite S.
    + now rewrite S.
  - exfalso. apply H. eapply critical_flags_of_cons; eassumption.
Qed.

(** C3, at a copycat token.  No critical flag fires and the risk scorer
    computes a deduction of 2; the total is the plain sum of the five
    category contributions, 31.25, not that sum minus the deduction. *)
Theorem risk_deduction_is_not_subtracted :
  let result := comprehensive_score default_scorer wednesday_13h copycat_token PNone in
  ~ has_critical_flag default_scorer (red_flags result)
  /\ risk_deduction wednesday_13h copycat_token PNone == 2
  /\ category_sum wednesday_13h copycat_token PNone == 31.25
  /\ total_score result == 31.25
  /\ ~ total_score result == 31.25 - 2.
Proof.
  cbv zeta. split.
  - rewrite red_flags_collected. apply critical_flags_of_nil. vm_compute. reflexivity.
  - vm_compute. repeat split; discriminate.
Qed.

(** ** Market adjustment *)





(** ** Signal policy *)

Lemma Qle_bool_spec (x y : Q) : Qle_bool x y = true <-> x <= y.
Proof. apply Qle_bool_iff. Qed.

Lemma speculative_excludes_A_B result :
  result_tier result = TierA \/ result_tier result = TierB ->
  is_speculative_candidate result = false.
Proof.
  unfold is_speculative_candidate. intros [-> | ->]; reflexivity.
Qed.

(** C5. The signal decision is the policy ladder, rung by rung: a signal
    fires exactly when the result is tier A and tier_a_always is set, or
    tier B with a total of at least tier_b_min_score, or tier C with a
    total of at least tier_c_min_score, or, failing these, speculative mode
    is on and the result is a speculative candidate, or it is tier D,
    tier_d_never is off and the total reaches the floor of 40; in all other
    cases no signal fires.  Tier by tier: A signals iff tier_a_always;
    B iff total >= tier_b_min_score (with 30: a total of 30 signals, 29
    does not); C iff total >= tier_c_min_score or else by the speculative
    rung; D by the speculative rung or else only with tier_d_never off and
    a total of at least 40. *)
Theorem signal_policy_ladder
        (self : scorer) (result : ScoringResult) (speculative_mode : bool) :
  let signal := should_send_signal_comprehensive self result speculative_mode in
  let total := total_score result in
  let tier := result_tier result in
  (signal = true <->
     (tier = TierA /\ tier_a_always self = true)
     \/ (tier = TierB /\ tier_b_min_score self <= total)
     \/ (tier = TierC /\ tier_c_min_score self <= total)
     \/ speculative result speculative_mode
     \/ (tier = TierD /\ tier_d_never self = false /\ 40 <= total))
  /\ match tier with
     | TierA => signal = true <-> tier_a_always self = true
     | TierB => signal = true <-> tier_b_min_score self <= total
     | TierC => signal = true <->
                tier_c_min_score self <= total \/ speculative result speculative_mode
     | TierD => signal = true <->
                speculative result speculative_mode
                \/ (tier_d_never self = false /\ 40 <= total)
     end
  /\ (forall scores flags strengths recommendation risk,
         should_send_signal_comprehensive default_scorer
           (mkResult 30 TierB scores flags strengths recommendation risk)
           speculative_mode = true
         /\ should_send_signal_comprehensive default_scorer
              (mkResult 29 TierB scores flags strengths recommendation risk)
              speculative_mode = false).
Proof.
  cbv zeta. split; [|split].
  - unfold should_send_signal_comprehensive, speculative.
    rewrite <- !Qle_bool_spec.
    destruct (result_tier result) eqn:T; cbn [tier_eqb andb];
      try rewrite (speculative_excludes_A_B result (or_introl T));
      try rewrite (speculative_excludes_A_B result (or_intror T));
      destruct (tier_a_always self),
        (Qle_bool (tier_b_min_score self) (total_score result)),
        (Qle_bool (tier_c_min_score self) (total_score result)),
        (Qle_bool 40 (total_score result)),
        speculative_mode, (tier_d_never self);
      try destruct (is_speculative_candidate result);
      cbn; intuition congruence.
  - unfold should_send_signal_comprehensive, speculative.
    destruct (result_tier result) eqn:T; cbn [tier_eqb andb].
    + rewrite (speculative_excludes_A_B result (or_introl T)), andb_false_r.
      destruct (tier_a_always self); intuition congruence.
    + rewrite (speculative_excludes_A_B result (or_intror T)), andb_false_r.
      rewrite <- Qle_bool_spec.
      destruct (Qle_bool (tier_b_min_score self) (total_score result));
        intuition congruence.
    + rewrite <- Qle_bool_spec.
      destruct (Qle_bool (tier_c_min_score self) (total_score result)),
        speculative_mode, (is_speculative_candidate result);
        cbn; intuition congruence.
    + rewrite <- Qle_bool_spec.
      destruct (Qle_bool 40 (total_score result)),
        speculative_mode, (is_speculative_candidate result), (tier_d_never self);
        cbn; intuition congruence.
  - intros. unfold should_send_signal_comprehensive, is_speculative_candidate.
    cbn. rewrite !andb_false_r. split; reflexivity.
Qed.

(** ** Construction *)

Ltac reflect_Q :=
  repeat match goal with
         | H : Qle_bool _ _ = true |- _ => apply Qle_bool_iff in H
         | H : Qle_bool _ _ = false |- _ => apply Qle_bool_false_iff in H
         end.

(** C6, what the code does not do: thresholds that increase (A = 10,
    B = 20, C = 30) are accepted by the constructor, and the scorer built
    from them evaluates a token. *)
Lemma increasing_thresholds_are_accepted :
  ~ strictly_decreasing increasing_config
  /\ __init__ increasing_config <> ConfigurationError
  /\ result_tier
       (comprehensive_score (scorer_of increasing_config) wednesday_13h safe_token PNone)
     = TierA.
Proof.
  split; [|split].
  - intros [H _]. vm_compute in H. discriminate.
  - discriminate.
  - vm_compute. reflexivity.
Qed.

(** C6, as the code has it.  The default thresholds satisfy A > B > C > 0
    (40 > 25 > 15 > 0).  The constructor copies the configured thresholds
    without checking them: every configuration, monotonic or not,
    constructs a scorer and none raises a ConfigurationError; the
    classifier then tests the thresholds A, B, C in that order at each
    evaluation. *)
Theorem construction_accepts_every_configuration (cfg : config) :
  strictly_decreasing default_config
  /\ (exists self,
         __init__ cfg = Constructed self
         /\ TIER_THRESHOLDS self TierA = TIER_A_THRESHOLD cfg
         /\ TIER_THRESHOLDS self TierB = TIER_B_THRESHOLD cfg
         /\ TIER_THRESHOLDS self TierC = TIER_C_THRESHOLD cfg
         /\ TIER_THRESHOLDS self TierD = 0)
  /\ forall score : Q,
       let tier := _determine_tier (scorer_of cfg) score in
       (tier = TierA <-> TIER_A_THRESHOLD cfg <= score)
       /\ (tier = TierB <-> score < TIER_A_THRESHOLD cfg /\ TIER_B_THRESHOLD cfg <= score)
       /\ (tier = TierC <-> score < TIER_A_THRESHOLD cfg /\ score < TIER_B_THRESHOLD cfg
                            /\ TIER_C_THRESHOLD cfg <= score)
       /\ (tier = TierD <-> score < TIER_A_THRESHOLD cfg /\ score < TIER_B_THRESHOLD cfg
                            /\ score < TIER_C_THRESHOLD cfg).
Proof.
  split; [|split].
  - unfold strictly_decreasing. cbn. repeat split.
  - eexists. split; [reflexivity|]. cbn. repeat split.
  - intro score. cbv zeta. unfold _determine_tier, scorer_of, __init__.
    cbn [TIER_THRESHOLDS].
    destruct (Qle_bool (TIER_A_THRESHOLD cfg) score) eqn:EA;
      destruct (Qle_bool (TIER_B_THRESHOLD cfg) score) eqn:EB;
      destruct (Qle_bool (TIER_C_THRESHOLD cfg) score) eqn:EC;
      reflect_Q;
      repeat split; intros; try discriminate; try reflexivity;
        try assumption; try lra;
        try (exfalso; intuition lra).
Qed.

End ScorerFacts.

(* ================================================================== *)
(** * Properties of paper trading *)

Module PaperFacts.
Import PaperTrading Vocabulary Ledger.

Local Open Scope string_scope.
Local Open Scope Q_scope.

(** ** The unique key *)

Lemma violates_unique_In (srv : server) (db : table) (address : string) :
  violates_unique srv db address = true
  <-> In (weight_string srv address)
         (map (fun r => weight_string srv (token_address r)) db).
Proof.
  unfold violates_unique, same_address. rewrite existsb_exists, in_map_iff. split.
  - intros [r [Hr E]]. apply String.eqb_eq in E. now exists r.
  - intros [r [E Hr]]. exists r. split; [assumption|]. now apply String.eqb_eq.
Qed.

(** An insert either leaves the table as it is, or the server took every
    value, no key was violated and the row is appended. *)
Lemma store_cases srv db connected auto_increment address symbol price amount tokens
      timestamp :
  store_paper_trade srv db connected auto_increment address symbol price amount tokens
                    timestamp
  = (db, false)
  \/ exists stored_address stored_symbol stored_price stored_amount stored_tokens,
      connected = true
      /\ varchar srv 255 address = Some stored_address
      /\ varchar srv 50 symbol = Some stored_symbol
      /\ decimal srv 20 price = Some stored_price
      /\ decimal srv 20 amount = Some stored_amount
      /\ decimal srv 30 tokens = Some stored_tokens
      /\ violates_unique srv db stored_address = false
      /\ violates_primary db auto_increment = false
      /\ store_paper_trade srv db connected auto_increment address symbol price amount
                           tokens timestamp
         = ((db ++ [mkTrade auto_increment stored_address stored_symbol stored_price
                            stored_amount stored_tokens (as_timestamp srv timestamp)
                            "OPEN" None None])%list, true).
Proof.
  unfold store_paper_trade. destruct connected; [|now left].
  destruct (varchar srv 255 address) as [a|]; [|now left].
  destruct (varchar srv 50 symbol) as [s|]; [|now left].
  destruct (decimal srv 20 price) as [p|]; [|now left].
  destruct (decimal srv 20 amount) as [m|]; [|now left].
  destruct (decimal srv 30 tokens) as [t|]; [|now left].
  destruct (violates_unique srv db a) eqn:U; [now left|].
  destruct (violates_primary db auto_increment) eqn:P; [now left|].
  right. exists a, s, p, m, t. repeat split; assumption.
Qed.

(** An insert keeps the addresses of the table distinct. *)
Lemma store_keeps_unique srv db connected auto_increment address symbol price amount
      tokens timestamp :
  unique_addresses srv db ->
  unique_addresses srv
    (fst (store_paper_trade srv db connected auto_increment address symbol price amount
                            tokens timestamp)).
Proof.
  intro U.
  destruct (store_cases srv db connected auto_increment address symbol price amount
              tokens timestamp)
    as [E | (a & s & p & m & t & _ & _ & _ & _ & _ & _ & V & _ & E)]; rewrite E; cbn [fst];
    [assumption|].
  unfold unique_addresses in *. rewrite map_app. cbn [map token_address].
  apply NoDup_app_remove_l with (l := @nil string). cbn.
  apply Permutation_NoDup
    with (l := weight_string srv a :: map (fun r => weight_string srv (token_address r)) db).
  - apply Permutation_cons_append.
  - constructor; [|assumption].
    intro H. apply violates_unique_In in H. congruence.
Qed.

(** ** The block *)

(** The block either leaves the bot as it is, or has found a priced pair
    with a positive price, within the balance and with no open position for
    the address on record; it then tries the insert and records the
    purchase locally. *)
Lemma logic_cases srv amount self address pairs now lookup_up insert_up auto_increment :
  paper_trading_logic srv amount self address pairs now lookup_up insert_up auto_increment
  = self
  \/ exists selected price,
      find has_price pairs = Some selected
      /\ priceUsd selected = PriceUsd price
      /\ 0 < price
      /\ amount <= paper_usd_balance self
      /\ paper_trading self = true
      /\ get_paper_trade_by_address srv (db self) lookup_up address = None
      /\ paper_trading_logic srv amount self address pairs now lookup_up insert_up
                             auto_increment
         = mkBot (fst (store_paper_trade
                         srv (db self) insert_up auto_increment address
                         (match baseToken_symbol selected with
                          | Some s => s | None => "UNKNOWN" end)
                         price amount (amount / price) now))
                 (paper_trading self) (paper_usd_balance self)
                 (paper_trades self ++ [local_of amount address selected price now])%list.
Proof.
  unfold paper_trading_logic.
  destruct (paper_trading self) eqn:PT; [|now left].
  destruct (get_paper_trade_by_address srv (db self) lookup_up address) eqn:G; [now left|].
  destruct (find has_price pairs) as [selected|] eqn:F.
  - destruct (priceUsd selected) as [| |price] eqn:P; try now left.
    destruct (Qle_bool amount (paper_usd_balance self)) eqn:B; [|now left].
    destruct (Qeq_bool price 0) eqn:Z; [now left|].
    destruct (Qlt_bool 0 price) eqn:L; [|now left].
    right. exists selected, price. cbn [andb negb].
    apply Qle_bool_iff in B. apply ScorerFacts.Qlt_bool_iff in L.
    repeat split; try assumption.
    destruct (store_paper_trade _ _ _ _ _ _ _ _ _ _). reflexivity.
  - destruct (hd_error pairs) as [first|] eqn:Hd; [|now left].
    assert (N : has_price first = false).
    { apply (find_none _ _ F). destruct pairs; [discriminate|].
      inversion Hd; subst. now left. }
    unfold has_price in N. destruct (priceUsd first); try discriminate. now left.
Qed.

Lemma logic_keeps_unique srv amount self address pairs now lookup_up insert_up
      auto_increment :
  unique_addresses srv (db self) ->
  unique_addresses srv
    (db (paper_trading_logic srv amount self address pairs now lookup_up insert_up
                             auto_increment)).
Proof.
  intro U.
  destruct (logic_cases srv amount self address pairs now lookup_up insert_up
              auto_increment)
    as [E | [selected [price [_ [_ [_ [_ [_ [_ E]]]]]]]]]; rewrite E; [assumption|].
  cbn [db]. now apply store_keeps_unique.
Qed.

(** No row is selected for an address the table does not hold. *)
Lemma absent_address_selects_nothing srv (db : table) (address status_wanted : string) :
  violates_unique srv db address = false ->
  filter (fun r => same_address srv (token_address r) address
                   && String.eqb (status r) status_wanted) db = [].
Proof.
  unfold violates_unique.
  induction db as [|q db IH]; intro H; [reflexivity|].
  cbn [existsb] in H. apply orb_false_elim in H. destruct H as [H1 H2].
  cbn [filter]. rewrite H1. cbn [andb]. now apply IH.
Qed.

Lemma absent_address_is_not_found srv (db : table) (connected : bool) (address : string) :
  violates_unique srv db address = false ->
  get_paper_trade_by_address srv db connected address = None.
Proof.
  intro H. unfold get_paper_trade_by_address. destruct connected; [|reflexivity].
  destruct (find _ db) as [r|] eqn:F; [|reflexivity].
  apply find_some in F. destruct F as [Hin E].
  apply andb_prop in E. destruct E as [E _].
  assert (T : violates_unique srv db address = true).
  { unfold violates_unique. apply existsb_exists. now exists r. }
  congruence.
Qed.

(** In a table with distinct addresses the position found for an address
    is the only OPEN position for it. *)
Lemma found_is_only_open srv (db : table) (address : string) (position : paper_trade) :
  unique_addresses srv db ->
  get_paper_trade_by_address srv db true address = Some position ->
  open_positions srv db address = [position].
Proof.
  unfold unique_addresses, get_paper_trade_by_address, open_positions.
  induction db as [|r db IH]; cbn [find filter map]; intros U F; [discriminate|].
  inversion U as [|x l Hnotin U']; subst.
  destruct (same_address srv (token_address r) address) eqn:A; cbn [andb] in *.
  - unfold same_address in A. apply String.eqb_eq in A. rewrite A in Hnotin.
    assert (V : violates_unique srv db address = false).
    { destruct (violates_unique srv db address) eqn:V; [|reflexivity].
      apply violates_unique_In in V. contradiction. }
    pose proof (absent_address_selects_nothing srv db address "OPEN" V) as N.
    destruct (String.eqb (status r) "OPEN") eqn:S.
    + inversion F; subst. now rewrite N.
    + exfalso.
      apply find_some in F. destruct F as [G1 G2].
      assert (K : In position
                     (filter (fun r0 => same_address srv (token_address r0) address
                                        && String.eqb (status r0) "OPEN") db))
        by (apply filter_In; now split).
      rewrite N in K. contradiction.
  - now apply IH.
Qed.

Lemma find_after_none {A : Type} (f : A -> bool) (l1 l2 : list A) :
  find f l1 = None -> find f (l1 ++ l2) = find f l2.
Proof.
  induction l1 as [|x l1 IH]; cbn; [reflexivity|].
  destruct (f x); [discriminate | exact IH].
Qed.

(** A position stored for an address is the one the lookup finds for every
    address of the same weight. *)
Lemma stored_is_found srv (db : table) (position : paper_trade) (address : string) :
  violates_unique srv db (token_address position) = false ->
  status position = "OPEN" ->
  weight_string srv address = weight_string srv (token_address position) ->
  get_paper_trade_by_address srv (db ++ [position])%list true address = Some position.
Proof.
  intros V S W. unfold get_paper_trade_by_address. rewrite find_after_none.
  - cbn [find]. unfold same_address. rewrite W, String.eqb_refl, S. reflexivity.
  - assert (V' : violates_unique srv db address = false).
    { destruct (violates_unique srv db address) eqn:E; [|reflexivity].
      apply violates_unique_In in E. rewrite W in E.
      apply violates_unique_In in E. congruence. }
    exact (absent_address_is_not_found srv db true address V').
Qed.

(** The first open of an address: with paper trading on, an address that is
    new to the table, a free id, a first priced pair with a positive price,
    a balance that covers the amount and values the server takes, the block
    appends the position. *)
Lemma logic_opens srv amount self address pairs now auto_increment selected price symbol
      stored_price stored_amount stored_tokens :
  paper_trading self = true ->
  violates_unique srv (db self) address = false ->
  violates_primary (db self) auto_increment = false ->
  find has_price pairs = Some selected ->
  priceUsd selected = PriceUsd price -> 0 < price ->
  amount <= paper_usd_balance self ->
  varchar srv 255 address = Some address ->
  varchar srv 50 (match baseToken_symbol selected with Some s => s | None => "UNKNOWN" end)
  = Some symbol ->
  decimal srv 20 price = Some stored_price ->
  decimal srv 20 amount = Some stored_amount ->
  decimal srv 30 (amount / price) = Some stored_tokens ->
  paper_trading_logic srv amount self address pairs now true true auto_increment
  = mkBot (db self ++ [mkTrade auto_increment address symbol stored_price stored_amount
                               stored_tokens (as_timestamp srv now) "OPEN" None None])%list
          (paper_trading self) (paper_usd_balance self)
          (paper_trades self ++ [local_of amount address selected price now])%list.
Proof.
  intros PT V K F P Hp B Va Vs Dp Dm Dt.
  unfold paper_trading_logic. rewrite PT.
  rewrite (absent_address_is_not_found srv (db self) true address V).
  rewrite F, P.
  assert (B' : Qle_bool amount (paper_usd_balance self) = true) by now apply Qle_bool_iff.
  assert (Z : Qeq_bool price 0 = false).
  { destruct (Qeq_bool price 0) eqn:E; [|reflexivity]. apply Qeq_bool_iff in E. lra. }
  assert (L : Qlt_bool 0 price = true) by now apply ScorerFacts.Qlt_bool_iff.
  rewrite B', Z, L. cbn [andb negb].
  unfold store_paper_trade. rewrite Va, Vs, Dp, Dm, Dt, V, K. reflexivity.
Qed.

(** When the lookup of a second open fails, the unique key still rejects
    the insert: the table is unchanged. *)
Lemma unique_key_rejects_duplicate srv amount self address pairs now insert_up
      auto_increment :
  varchar srv 255 address = Some address ->
  violates_unique srv (db self) address = true ->
  db (paper_trading_logic srv amount self address pairs now false insert_up
                          auto_increment)
  = db self.
Proof.
  intros Va H.
  destruct (logic_cases srv amount self address pairs now false insert_up auto_increment)
    as [E | [selected [price [_ [_ [_ [_ [_ [_ E]]]]]]]]]; rewrite E; [reflexivity|].
  cbn [db].
  match goal with
  | |- context [store_paper_trade ?s ?d ?c ?i ?a ?y ?p ?m ?t ?n] =>
      destruct (store_cases s d c i a y p m t n)
        as [S | (a' & s' & p' & m' & t' & _ & Va' & _ & _ & _ & _ & V' & _ & _)]
  end.
  - now rewrite S.
  - rewrite Va in Va'. inversion Va'; subst a'. congruence.
Qed.

(** C8. Opening a paper position is idempotent per address.  When an OPEN
    position exists for the address, an open changes nothing.  When the
    address is new to the table, the first open stores the position (for
    a priced pair with a positive price, a balance that covers the amount
    and values the server takes): its entry price, notional and quantity
    are those of the first call as the DECIMAL columns hold them, its
    timestamp is that of the first call; the second open, at any price
    and time, changes nothing, so that there is exactly one OPEN position
    for the address, with the fields the first call set.  Even when the
    lookup of a later open fails the unique key keeps the table as it
    is. *)
Theorem open_is_idempotent
        (srv : server) (amount : Q) (self : MemeBot) (address : string)
        (pairs1 pairs2 : list pair) (now1 now2 : string) (id1 id2 : Z)
        (insert2 : bool) :
  let first := paper_trading_logic srv amount self address pairs1 now1 true true id1 in
  let second := paper_trading_logic srv amount first address pairs2 now2 true insert2 id2 in
  unique_addresses srv (db self) ->
  (forall position,
      get_paper_trade_by_address srv (db self) true address = Some position ->
      first = self /\ second = first
      /\ open_positions srv (db second) address = [position])
  /\ (forall selected price symbol stored_price stored_amount stored_tokens,
         paper_trading self = true ->
         violates_unique srv (db self) address = false ->
         violates_primary (db self) id1 = false ->
         find has_price pairs1 = Some selected ->
         priceUsd selected = PriceUsd price -> 0 < price ->
         amount <= paper_usd_balance self ->
         varchar srv 255 address = Some address ->
         varchar srv 50 (match baseToken_symbol selected with
                         | Some s => s | None => "UNKNOWN" end)
         = Some symbol ->
         decimal srv 20 price = Some stored_price ->
         decimal srv 20 amount = Some stored_amount ->
         decimal srv 30 (amount / price) = Some stored_tokens ->
         let position :=
           mkTrade id1 address symbol stored_price stored_amount stored_tokens
                   (as_timestamp srv now1) "OPEN" None None in
         db first = (db self ++ [position])%list
         /\ get_paper_trade_by_address srv (db first) true address = Some position
         /\ second = first
         /\ open_positions srv (db second) address = [position]
         /\ forall pairs3 now3 insert3 id3,
             db (paper_trading_logic srv amount first address pairs3 now3 false insert3
                                     id3)
             = db first).
Proof.
  intros first second U.
  assert (Again : forall position,
             get_paper_trade_by_address srv (db first) true address = Some position ->
             second = first /\ open_positions srv (db second) address = [position]).
  { intros position F.
    assert (E : second = first).
    { subst second. unfold paper_trading_logic at 1.
      destruct (paper_trading first); [|reflexivity]. now rewrite F. }
    split; [exact E|]. rewrite E. apply found_is_only_open; [|exact F].
    subst first. now apply logic_keeps_unique. }
  split.
  - intros position F.
    assert (E : first = self).
    { subst first. unfold paper_trading_logic.
      destruct (paper_trading self); [|reflexivity]. now rewrite F. }
    split; [exact E|]. apply Again. now rewrite E.
  - intros selected price symbol stored_price stored_amount stored_tokens
           PT V K F P Hp B Va Vs Dp Dm Dt position.
    assert (E : db first = (db self ++ [position])%list).
    { subst first.
      now rewrite (logic_opens srv amount self address pairs1 now1 id1 selected price
                     symbol stored_price stored_amount stored_tokens). }
    assert (G : get_paper_trade_by_address srv (db first) true address = Some position).
    { rewrite E. apply stored_is_found; [exact V | reflexivity | reflexivity]. }
    destruct (Again position G) as [E2 O].
    repeat split; try assumption.
    intros pairs3 now3 insert3 id3.
    apply unique_key_rejects_duplicate; [exact Va|].
    apply violates_unique_In. rewrite E, map_app. apply in_or_app. right. now left.
Qed.

(** C8 on a table that holds a position for ADDR1: the first open of
    ADDR2 takes the second pair, the first one that is priced, and stores
    12500 tokens bought at 0.002 for 25 USD under the id 2; the second
    open, at another price and time, changes nothing. *)
Lemma open_is_idempotent_witness :
  let pairs1 := [mkPair PriceMissing None; mkPair (PriceUsd 0.002) (Some "DOGE")] in
  let pairs2 := [mkPair (PriceUsd 0.004) (Some "DOGE")] in
  let position :=
    mkTrade 2 "ADDR2" "DOGE" (200000 # 100000000) (2500000000 # 100000000)
            (1250000000000 # 100000000) "t1" "OPEN" None None in
  let first := paper_trading_logic strict_server 25 holding_bot "ADDR2" pairs1 "t1"
                                   true true 2 in
  let second := paper_trading_logic strict_server 25 first "ADDR2" pairs2 "t2"
                                    true true 3 in
  db first = (one_position ++ [position])%list
  /\ get_paper_trade_by_address strict_server (db first) true "ADDR2" = Some position
  /\ second = first
  /\ open_positions strict_server (db second) "ADDR2" = [position]
  /\ forall pairs3 now3 insert3 id3,
      db (paper_trading_logic strict_server 25 first "ADDR2" pairs3 now3 false insert3
                              id3)
      = db first.
Proof.
  intros pairs1 pairs2 position first second.
  assert (U : unique_addresses strict_server (db holding_bot)).
  { unfold unique_addresses. cbn. constructor; [intros []|constructor]. }
  destruct (open_is_idempotent strict_server 25 holding_bot "ADDR2" pairs1 pairs2
              "t1" "t2" 2 3 true U) as [_ Opens].
  apply (Opens (mkPair (PriceUsd 0.002) (Some "DOGE")) 0.002 "DOGE");
    first [reflexivity | cbn; lra].
Defined.

End PaperFacts.

(* ================================================================== *)
(** * Properties of the timing query *)

Module TrackerFacts.
Import PriceTracker Vocabulary.

Local Open Scope string_scope.
Local Open Scope Z_scope.

(** ** Groups do not depend on the order of the rows *)

Lemma filter_Permutation {A : Type} (f : A -> bool) (l l' : list A) :
  Permutation l l' -> Permutation (filter f l) (filter f l').
Proof.
  induction 1; cbn.
  - constructor.
  - destruct (f x); [constructor|]; assumption.
  - destruct (f x), (f y); try constructor; try apply Permutation_refl.
  - eapply Permutation_trans; eassumption.
Qed.

Lemma sum_performance_Permutation g g' :
  Permutation g g' -> sum_performance g = sum_performance g'.
Proof.
  unfold sum_performance. induction 1; cbn [fold_right]; lia.
Qed.

(** The maximum of a group bounds its rows and is one of them. *)
Lemma max_of_bound first rest :
  (forall s, In s (first :: rest) -> performance_pct s <= max_of first rest)
  /\ exists s, In s (first :: rest) /\ performance_pct s = max_of first rest.
Proof.
  induction rest as [|x rest [IH1 [w [IHw1 IHw2]]]]; cbn [max_of fold_right].
  - split.
    + intros s [<-|[]]. lia.
    + exists first. split; [now left | reflexivity].
  - fold (max_of first rest). split.
    + intros s [<-|[<-|H]].
      * specialize (IH1 first (or_introl eq_refl)). lia.
      * lia.
      * specialize (IH1 s (or_intror H)). lia.
    + destruct (Z.max_spec (performance_pct x) (max_of first rest)) as [[_ E]|[_ E]];
        rewrite E.
      * exists w. split; [|assumption].
        destruct IHw1 as [<-|H]; [now left | right; now right].
      * exists x. split; [right; now left | reflexivity].
Qed.

Lemma min_of_bound first rest :
  (forall s, In s (first :: rest) -> min_of first rest <= performance_pct s)
  /\ exists s, In s (first :: rest) /\ performance_pct s = min_of first rest.
Proof.
  induction rest as [|x rest [IH1 [w [IHw1 IHw2]]]]; cbn [min_of fold_right].
  - split.
    + intros s [<-|[]]. lia.
    + exists first. split; [now left | reflexivity].
  - fold (min_of first rest). split.
    + intros s [<-|[<-|H]].
      * specialize (IH1 first (or_introl eq_refl)). lia.
      * lia.
      * specialize (IH1 s (or_intror H)). lia.
    + destruct (Z.min_spec (performance_pct x) (min_of first rest)) as [[_ E]|[_ E]];
        rewrite E.
      * exists x. split; [right; now left | reflexivity].
      * exists w. split; [|assumption].
        destruct IHw1 as [<-|H]; [now left | right; now right].
Qed.

Lemma max_of_Permutation f r f' r' :
  Permutation (f :: r) (f' :: r') -> max_of f r = max_of f' r'.
Proof.
  intro P.
  destruct (max_of_bound f r) as [U [w [Hw Ew]]].
  destruct (max_of_bound f' r') as [U' [w' [Hw' Ew']]].
  apply (Permutation_in _ P) in Hw.
  apply (Permutation_in _ (Permutation_sym P)) in Hw'.
  specialize (U' w Hw). specialize (U w' Hw'). lia.
Qed.

Lemma min_of_Permutation f r f' r' :
  Permutation (f :: r) (f' :: r') -> min_of f r = min_of f' r'.
Proof.
  intro P.
  destruct (min_of_bound f r) as [U [w [Hw Ew]]].
  destruct (min_of_bound f' r') as [U' [w' [Hw' Ew']]].
  apply (Permutation_in _ P) in Hw.
  apply (Permutation_in _ (Permutation_sym P)) in Hw'.
  specialize (U' w Hw). specialize (U w' Hw'). lia.
Qed.

Lemma aggregate_Permutation label g g' :
  Permutation g g' -> aggregate label g = aggregate label g'.
Proof.
  intro P. destruct g as [|f r], g' as [|f' r'].
  - reflexivity.
  - apply Permutation_nil in P. discriminate.
  - apply Permutation_sym, Permutation_nil in P. discriminate.
  - unfold aggregate, count_above.
    rewrite (max_of_Permutation _ _ _ _ P), (min_of_Permutation _ _ _ _ P).
    rewrite (sum_performance_Permutation _ _ P).
    rewrite (Permutation_length P).
    rewrite !(Permutation_length (filter_Permutation _ _ _ P)).
    reflexivity.
Qed.

Lemma timing_query_Permutation h h' :
  Permutation h h' -> timing_query h = timing_query h'.
Proof.
  intro P. unfold timing_query. apply flat_map_ext. intro label.
  apply aggregate_Permutation. unfold group. now apply filter_Permutation.
Qed.

(** ** Which intervals are emitted *)

Lemma group_nonempty label h : has_samples label h = true <-> group label h <> [].
Proof.
  unfold has_samples, group. induction h as [|s h IH]; cbn.
  - split; [discriminate | congruence].
  - destruct (String.eqb (time_interval s) label); cbn.
    + split; [discriminate | reflexivity].
    + exact IH.
Qed.

Lemma aggregate_interval label h :
  map interval (aggregate label (group label h))
  = if has_samples label h then [label] else [].
Proof.
  destruct (has_samples label h) eqn:E.
  - apply group_nonempty in E. destruct (group label h); [congruence | reflexivity].
  - destruct (group label h) eqn:G; [reflexivity|].
    assert (has_samples label h = true) by (apply group_nonempty; congruence).
    congruence.
Qed.

Lemma emitted_intervals h (labels : list string) :
  map interval (flat_map (fun label => aggregate label (group label h)) labels)
  = filter (fun label => has_samples label h) labels.
Proof.
  induction labels as [|l labels IH]; cbn; [reflexivity|].
  rewrite map_app, IH, aggregate_interval.
  destruct (has_samples l h); reflexivity.
Qed.

(** ** What a row carries *)

Lemma mean_times_count (total : Z) (n : nat) :
  (0 < n)%nat ->
  (Qmake total (Pos.of_nat n) * inject_Z (Z.of_nat n) == inject_Z total)%Q.
Proof.
  intro H. unfold Qeq, Qmult, inject_Z. cbn [Qnum Qden].
  destruct n as [|k]; [lia|].
  rewrite Pos.mul_1_r, <- Pos.of_nat_succ, Zpos_P_of_succ_nat, Nat2Z.inj_succ. ring.
Qed.

Lemma row_of_query history row :
  In row (timing_query history) ->
  exists first rest,
    In (interval row) intervals
    /\ group (interval row) history = first :: rest
    /\ row = mkRow (interval row) (List.length (first :: rest))
                   (Qmake (sum_performance (first :: rest))
                          (Pos.of_nat (List.length (first :: rest))))
                   (max_of first rest) (min_of first rest)
                   (count_above 10 (first :: rest)) (count_above 50 (first :: rest))
                   (count_above 100 (first :: rest)).
Proof.
  unfold timing_query. rewrite in_flat_map. intros [label [Hl Hr]].
  unfold aggregate in Hr. destruct (group label history) as [|first rest] eqn:G;
    [contradiction|].
  destruct Hr as [<-|[]]. cbn [interval]. exists first, rest.
  repeat split; assumption.
Qed.

(** C9, what the code does not do: of the samples at 10, 20 and 70 minutes
    the third is not in the third band (30 to 60 minutes) but in the
    fourth (1 to 2 hours). *)
Lemma seventy_minutes_is_in_the_fourth_band :
  map interval (timing_query three_samples) <> ["0-15 min"; "15-30 min"; "30-60 min"]
  /\ map interval (timing_query three_samples) = ["0-15 min"; "15-30 min"; "1-2 hours"]
  /\ nth_error intervals 2 = Some "30-60 min"
  /\ nth_error intervals 3 = Some "1-2 hours".
Proof.
  repeat split; try reflexivity. vm_compute. discriminate.
Qed.

(** C9, as the code has it.  The query partitions the samples by
    minutes since entry into the bands up to 15, (15,30], (30,60], (60,120],
    (120,360], (360,1440] and above 1440 (the first band is [0,15] for the
    non-negative minutes the sampler records); the bands come out in that
    order whatever the order of the samples; a band without samples is
    omitted; each band carries its count, mean, maximum and minimum
    performance and the numbers of samples above +10 %, +50 % and +100 %.
    Samples at 10, 20 and 70 minutes give the first, second and fourth
    band, each with count 1. *)
Theorem timing_query_bands (history reordered : list snapshot) :
  Permutation history reordered ->
  (forall s : snapshot,
      let m := minutes_since_entry s in
      (time_interval s = "0-15 min" <-> m <= 15)
      /\ (time_interval s = "15-30 min" <-> 15 < m <= 30)
      /\ (time_interval s = "30-60 min" <-> 30 < m <= 60)
      /\ (time_interval s = "1-2 hours" <-> 60 < m <= 120)
      /\ (time_interval s = "2-6 hours" <-> 120 < m <= 360)
      /\ (time_interval s = "6-24 hours" <-> 360 < m <= 1440)
      /\ (time_interval s = "24+ hours" <-> 1440 < m))
  /\ timing_query reordered = timing_query history
  /\ map interval (timing_query history)
     = filter (fun label => has_samples label history) intervals
  /\ (forall row, In row (timing_query history) ->
        let g := group (interval row) history in
        (0 < snapshots row)%nat
        /\ snapshots row = List.length g
        /\ (avg_performance row * inject_Z (Z.of_nat (snapshots row))
            == inject_Z (sum_performance g))%Q
        /\ (forall s, In s g ->
              min_performance row <= performance_pct s <= max_performance row)
        /\ (exists s, In s g /\ performance_pct s = max_performance row)
        /\ (exists s, In s g /\ performance_pct s = min_performance row)
        /\ pumps_10pct row = count_above 10 g
        /\ pumps_50pct row = count_above 50 g
        /\ moons_100pct row = count_above 100 g)
  /\ map (fun row => (interval row, snapshots row)) (timing_query three_samples)
     = [("0-15 min", 1%nat); ("15-30 min", 1%nat); ("1-2 hours", 1%nat)].
Proof.
  intro P. split; [|split; [|split; [|split]]].
  - intro s. cbv zeta. unfold time_interval.
    destruct (minutes_since_entry s <=? 15) eqn:E1;
      [apply Z.leb_le in E1 | apply Z.leb_gt in E1];
    (destruct (minutes_since_entry s <=? 30) eqn:E2;
      [apply Z.leb_le in E2 | apply Z.leb_gt in E2]);
    (destruct (minutes_since_entry s <=? 60) eqn:E3;
      [apply Z.leb_le in E3 | apply Z.leb_gt in E3]);
    (destruct (minutes_since_entry s <=? 120) eqn:E4;
      [apply Z.leb_le in E4 | apply Z.leb_gt in E4]);
    (destruct (minutes_since_entry s <=? 360) eqn:E5;
      [apply Z.leb_le in E5 | apply Z.leb_gt in E5]);
    (destruct (minutes_since_entry s <=? 1440) eqn:E6;
      [apply Z.leb_le in E6 | apply Z.leb_gt in E6]);
    try lia;
    repeat split; intros; try discriminate; try reflexivity; try lia.
  - symmetry. now apply timing_query_Permutation.
  - apply emitted_intervals.
  - intros row Hrow. cbv zeta.
    destruct (row_of_query history row Hrow) as [first [rest [Hl [G R]]]].
    rewrite G. rewrite R. cbn [snapshots avg_performance max_performance
                                 min_performance pumps_10pct pumps_50pct moons_100pct].
    destruct (max_of_bound first rest) as [Mx [wx [Hwx Ewx]]].
    destruct (min_of_bound first rest) as [Mn [wn [Hwn Ewn]]].
    split; [cbn; lia|]. split; [reflexivity|].
    split; [apply mean_times_count; cbn; lia|].
    split; [intros s Hs; split; [now apply Mn | now apply Mx]|].
    split; [now exists wx|]. split; [now exists wn|].
    repeat split.
  - vm_compute. reflexivity.
Qed.

(** C9 on four samples given in one order and in the reverse order. *)
Lemma timing_query_bands_witness :
  let history := [sample 70 5; sample 20 60; sample 10 (-3); sample 12 120] in
  Permutation history (rev history)
  /\ timing_query (rev history) = timing_query history
  /\ map (fun row => (interval row, snapshots row)) (timing_query history)
     = [("0-15 min", 2%nat); ("15-30 min", 1%nat); ("1-2 hours", 1%nat)].
Proof.
  intro history.
  assert (P : Permutation history (rev history)) by apply Permutation_rev.
  split; [exact P|].
  destruct (timing_query_bands history (rev history) P) as [_ [E _]].
  split; [exact E | reflexivity].
Defined.

End TrackerFacts.

(* ================================================================== *)
(** * Further properties of the scorer *)

Module BudgetFacts.
Import Scorer Vocabulary Budget ScorerFacts.

Local Open Scope string_scope.
Local Open Scope Q_scope.

(** ** Category budgets *)

(** Sequencing adds the gains; a body that stops early has run a prefix,
    so the gains of what follows must allow 0. *)
Lemma gains_bind {X Y} (l1 h1 l2 h2 l h : Q) (m : M X) (k : X -> M Y) :
  gains l1 h1 m -> (forall x, gains l2 h2 (k x)) -> l2 <= 0 <= h2 ->
  l == l1 + l2 -> h == h1 + h2 ->
  gains l h (bind m k).
Proof.
  intros Hm Hk [L H] El Eh a. unfold bind. specialize (Hm a).
  destruct (m a) as [s' [x| |]]; cbn [fst] in *.
  - specialize (Hk x s'). lra.
  - lra.
  - lra.
Qed.

Lemma gains_after_lift {X Y} (l h : Q) (o : option X) (k : X -> M Y) :
  (forall x, gains l h (k x)) -> l <= 0 <= h -> gains l h (bind (lift o) k).
Proof.
  intros Hk [L H] a. unfold bind, lift. destruct o as [x|]; cbn [fst].
  - apply Hk.
  - lra.
Qed.

Ltac break_match :=
  match goal with
  | |- context [match ?x with _ => _ end] =>
      lazymatch x with
      | context [match _ with _ => _ end] => fail
      | _ => destruct x
      end
  end; cbv beta iota.

(** Runs a body through all its paths. *)
Ltac gains_paths :=
  intro;
  unfold bind, get_, Scorer.lt, Scorer.le, Scorer.gt, Scorer.ge, num, pass, lift, award,
    flag, strength, ret, early_return;
  cbv beta iota;
  repeat break_match; cbn [fst score]; lra.

(** Peels a leading [get] or a leading block with known gains. *)
Ltac after_get := unfold get_ at 1; apply gains_after_lift; [intro | lra].
Ltac after_block l1 h1 l2 h2 :=
  apply (gains_bind l1 h1 l2 h2); [gains_paths | intro | lra | lra | lra].
Ltac after_check l1 h1 l2 h2 H :=
  apply (gains_bind l1 h1 l2 h2); [apply H | intro | lra | lra | lra].

Lemma gains_honeypot_check td : gains 0 8 (honeypot_check td).
Proof. unfold honeypot_check. gains_paths. Qed.

Lemma gains_tax_check td : gains 0 4 (tax_check td).
Proof. unfold tax_check. gains_paths. Qed.

Lemma gains_tx_limit_check td : gains 0 2 (tx_limit_check td).
Proof. unfold tx_limit_check. gains_paths. Qed.

Lemma gains_pause_check td : gains 0 1 (pause_check td).
Proof. unfold pause_check. gains_paths. Qed.

Lemma gains_liquidity_check td : gains 0 5 (liquidity_check td).
Proof. unfold liquidity_check. gains_paths. Qed.

Lemma gains_contract_check td : gains 0 5 (contract_check td).
Proof. unfold contract_check. gains_paths. Qed.

Lemma gains_onchain_health td : gains 0 25 (onchain_health_body td).
Proof.
  unfold onchain_health_body, safety_sub_checks.
  after_check 0 8 0 17 gains_honeypot_check.
  after_check 0 4 0 13 gains_tax_check.
  after_check 0 2 0 11 gains_tx_limit_check.
  after_check 0 1 0 10 gains_pause_check.
  after_check 0 5 0 5 gains_liquidity_check.
  apply gains_contract_check.
Qed.

Lemma gains_volume_surge v24 v1 v5 : gains 0 8 (volume_surge v24 v1 v5).
Proof. unfold volume_surge. gains_paths. Qed.

Lemma gains_volume_intensity v24 cap : gains 0 4 (volume_intensity_check v24 cap).
Proof. unfold volume_intensity_check. gains_paths. Qed.

Lemma gains_price_momentum td : gains 0 4 (price_momentum td).
Proof. unfold price_momentum. gains_paths. Qed.

Lemma gains_whale_activity td : gains 0 3 (whale_activity_check td).
Proof. unfold whale_activity_check. gains_paths. Qed.

Lemma gains_slippage td : gains 0 3 (slippage_check td).
Proof. unfold slippage_check. gains_paths. Qed.

Lemma gains_market_dynamics td : gains 0 22 (market_dynamics_body td).
Proof.
  unfold market_dynamics_body.
  do 4 after_get.
  after_check 0 8 0 14 gains_volume_surge.
  after_check 0 4 0 10 gains_volume_intensity.
  after_check 0 4 0 6 gains_price_momentum.
  after_check 0 3 0 3 gains_whale_activity.
  apply gains_slippage.
Qed.

Lemma gains_twitter_check sd : gains 0 11 (twitter_check sd).
Proof. unfold twitter_check. gains_paths. Qed.

Lemma gains_reddit_telegram sd : gains 0 4 (reddit_telegram_check sd).
Proof. unfold reddit_telegram_check. gains_paths. Qed.

Lemma gains_influencer_meme sd : gains 0 4 (influencer_meme_check sd).
Proof. unfold influencer_meme_check. gains_paths. Qed.

Lemma gains_hype sd : gains 0 3 (hype_check sd).
Proof. unfold hype_check. gains_paths. Qed.

Lemma gains_community_signals td : gains 0 22 (community_signals_body td).
Proof.
  unfold community_signals_body.
  after_get.
  after_check 0 11 0 11 gains_twitter_check.
  after_check 0 4 0 7 gains_reddit_telegram.
  after_check 0 4 0 3 gains_influencer_meme.
  apply gains_hype.
Qed.

Lemma gains_token_age clk td : gains 0 4 (token_age_check clk td).
Proof. unfold token_age_check. gains_paths. Qed.

Lemma gains_listing td : gains 0 4 (listing_check td).
Proof. unfold listing_check. gains_paths. Qed.

Lemma gains_opportunity td : gains 0 4 (opportunity_check td).
Proof. unfold opportunity_check. gains_paths. Qed.

Lemma gains_momentum td : gains 0 4 (momentum_check td).
Proof. unfold momentum_check. gains_paths. Qed.

Lemma gains_transparency td : gains (-0.75) 6.5 (transparency_check td).
Proof.
  unfold transparency_check.
  do 2 after_get.
  after_block 0 2 (-0.75) 4.5. after_get.
  after_block 0 2 (-0.75) 2.5. after_get.
  after_block 0 1 (-0.75) 1.5. after_get.
  after_block 0 1 (-0.75) 0.5. after_get.
  after_block 0 0.5 (-0.75) 0. after_get.
  after_block (-0.25) 0 (-0.5) 0. after_get.
  after_block (-0.25) 0 (-0.25) 0. after_get.
  gains_paths.
Qed.

Lemma gains_technical_foundation clk td :
  gains (-0.75) 22.5 (technical_foundation_body clk td).
Proof.
  unfold technical_foundation_body.
  after_check 0 4 (-0.75) 18.5 gains_token_age.
  after_check 0 4 (-0.75) 14.5 gains_listing.
  after_check 0 4 (-0.75) 10.5 gains_opportunity.
  after_check 0 4 (-0.75) 6.5 gains_momentum.
  apply gains_transparency.
Qed.

Lemma gains_market_momentum mc : gains 0 5 (market_momentum mc).
Proof. unfold market_momentum. gains_paths. Qed.

Lemma gains_trading_hours clk : gains 0 2 (trading_hours clk).
Proof. unfold trading_hours. gains_paths. Qed.

Lemma gains_competition td : gains 0 3 (competition_check td).
Proof. unfold competition_check. gains_paths. Qed.

Lemma gains_timing_factors clk td mc : gains 0 10 (timing_factors_body clk td mc).
Proof.
  unfold timing_factors_body.
  after_check 0 5 0 5 gains_market_momentum.
  after_check 0 2 0 3 gains_trading_hours.
  apply gains_competition.
Qed.

(** From the gains of a body to the score its scorer returns. *)
Lemma contribution_within error_flag (lo hi : Q) (body : M unit) :
  gains lo hi body -> lo <= contribution (try_except error_flag body) <= hi.
Proof.
  intro G. specialize (G acc0). unfold contribution, try_except.
  destruct (body acc0) as [s [[]| |]]; cbn [fst score acc0] in *; lra.
Qed.

(** X1. The safety category never contributes less than 0 or more than
    25 points, whatever the snapshot holds (a faulting snapshot included),
    and a token that passes every check gets the 25. *)
Theorem onchain_health_budget (token_data : pyval) :
  0 <= contribution (_score_onchain_health token_data) <= 25
  /\ contribution (_score_onchain_health safe_token) == 25.
Proof.
  split; [|vm_compute; reflexivity].
  apply contribution_within, gains_onchain_health.
Qed.

(** X2. The market-dynamics category contributes between 0 and 22 points
    (not the 20 of its docstring): volume surge 8, volume intensity 4,
    price momentum 4, whales 3, liquidity 3; the 22 are reached. *)
Theorem market_dynamics_budget (token_data : pyval) :
  0 <= contribution (_score_market_dynamics token_data) <= 22
  /\ contribution (_score_market_dynamics surging_token) == 22.
Proof.
  split; [|vm_compute; reflexivity].
  apply contribution_within, gains_market_dynamics.
Qed.

(** X3. The community category contributes between 0 and 22 points (not
    the 20 of its docstring); the 22 are reached. *)
Theorem community_signals_budget (token_data : pyval) :
  0 <= contribution (_score_community_signals token_data) <= 22
  /\ contribution (_score_community_signals viral_token) == 22.
Proof.
  split; [|vm_compute; reflexivity].
  apply contribution_within, gains_community_signals.
Qed.

(** X4. The technical category contributes between -0.75 and 22.5 points
    (its docstring says 15): it goes below zero when website, documentation
    and roadmap are all missing and nothing else scores, and both ends are
    reached. *)
Theorem technical_foundation_budget (clk : clock) (token_data : pyval) :
  -0.75 <= contribution (_score_technical_foundation clk token_data) <= 22.5
  /\ contribution (_score_technical_foundation wednesday_13h fresh_token) == 22.5
  /\ contribution (_score_technical_foundation wednesday_13h mainstream_token) == -0.75.
Proof.
  split; [|split; vm_compute; reflexivity].
  apply contribution_within, gains_technical_foundation.
Qed.

(** X5. The timing category contributes between 0 and 10 points, for every
    snapshot, market context and time of the week; the 10 are reached. *)
Theorem timing_factors_budget (clk : clock) (token_data market_context : pyval) :
  0 <= contribution (_score_timing_factors clk token_data market_context) <= 10
  /\ contribution (_score_timing_factors saturday_13h trending_token euphoric_market) == 10.
Proof.
  split; [|vm_compute; reflexivity].
  apply contribution_within, gains_timing_factors.
Qed.

(** ** The risk deductions *)

(** X6. The risk scorer computes a deduction between 0 and 10 for every
    snapshot and every list of flags; 10 is reached when a category has
    flagged a weak social presence and every risk check fires. *)
Theorem risk_deductions_budget (token_data : pyval) (existing_flags : list string) :
  0 <= fst (_score_risk_factors token_data existing_flags) <= 10
  /\ fst (_score_risk_factors risky_token ["weak_social_presence"]) == 10.
Proof.
  split; [|vm_compute; reflexivity].
  unfold _score_risk_factors.
  match goal with
  | |- context [try_except ?e ?b] =>
      assert (G : gains 0 10 b);
      [ | apply (contribution_within e) in G; unfold contribution in G;
          destruct (try_except e b) as [[d f] g]; exact G ]
  end.
  after_block 0 3 0 7.
  do 2 after_get. after_block 0 2 0 5.
  after_get. after_block 0 2 0 3.
  do 2 after_get. after_block 0 2 0 1.
  after_get. gains_paths.
Qed.

End BudgetFacts.

(* ================================================================== *)
(** * Properties of an evaluation and of what a scan does with it *)

Module EvaluationFacts.
Import Scorer Targets Scan Vocabulary Budget Ledger ScorerFacts BudgetFacts.

Local Open Scope string_scope.
Local Open Scope Q_scope.

(** ** The social-presence deduction *)

Lemma not_social_flags (l : list string) :
  Forall not_social l ->
  mem_str "weak_social_presence" l || mem_str "small_community" l = false.
Proof.
  induction 1 as [|f l Hf _ IH]; [reflexivity|].
  unfold not_social in Hf. cbn in Hf.
  apply orb_false_elim in Hf. destruct Hf as [H1 H2].
  apply orb_false_elim in H2. destruct H2 as [H2 _].
  apply orb_false_elim in IH. destruct IH as [I1 I2].
  unfold mem_str in *. cbn [existsb].
  rewrite (String.eqb_sym "weak_social_presence" f), H1.
  rewrite (String.eqb_sym "small_community" f), H2.
  cbn [orb]. now rewrite I1, I2.
Qed.

(** The flags a scorer returns are those its body raised and, on a fault,
    its error flag. *)
Lemma try_except_flags (P : string -> Prop) error_flag (body : M unit) :
  framed P body -> P error_flag -> Forall P (snd (fst (try_except error_flag body))).
Proof.
  intros F Pe. apply framed_flags_reached in F. unfold reached in F.
  unfold try_except. destruct (body acc0) as [s [[]| |]]; cbn [fst snd] in *;
    try assumption.
  apply Forall_app. split; [assumption | now constructor].
Qed.

Lemma category_flags_not_social clk td mc :
  Forall not_social (category_flags clk td mc).
Proof.
  unfold category_flags.
  repeat (apply Forall_app; split).
  - apply try_except_flags; [|reflexivity].
    unfold onchain_health_body, honeypot_check.
    apply framed_bind; [framed_tac | intro].
    apply framed_safety_sub_checks.
    intros f H. cbn in H.
    repeat (destruct H as [<-|H]; [reflexivity|]). contradiction.
  - apply try_except_flags; [|reflexivity].
    unfold market_dynamics_body, volume_surge, volume_intensity_check, price_momentum,
      whale_activity_check, slippage_check.
    framed_tac.
  - apply try_except_flags; [|reflexivity].
    unfold community_signals_body, twitter_check, reddit_telegram_check,
      influencer_meme_check, hype_check.
    framed_tac.
  - apply try_except_flags; [|reflexivity].
    unfold technical_foundation_body, token_age_check, listing_check, opportunity_check,
      momentum_check, transparency_check.
    framed_tac.
  - apply try_except_flags; [|reflexivity].
    unfold timing_factors_body, market_momentum, trading_hours, competition_check.
    framed_tac.
Qed.

Lemma not_social_absent (l : list string) :
  Forall not_social l -> ~ In "minimal_social_presence" l.
Proof.
  intros F H. rewrite Forall_forall in F. specialize (F _ H). discriminate.
Qed.

(** X7. No category scorer raises the flags weak_social_presence or
    small_community that the risk scorer looks for, so in an evaluation
    the social-presence deduction never fires: minimal_social_presence is
    never among the red flags and the recorded deduction is at most 7,
    not 10. *)
Theorem social_presence_deduction_never_fires
        (self : scorer) (clk : clock) (token_data market_context : pyval) :
  let r := comprehensive_score self clk token_data market_context in
  ~ In "minimal_social_presence" (red_flags r)
  /\ 0 <= assoc_default (category_scores r) "risk_deductions" 0 <= 7.
Proof.
  cbv zeta. rewrite red_flags_collected, category_scores_independent.
  unfold collected_flags.
  change (assoc_default _ "risk_deductions" 0)
    with (fst (_score_risk_factors token_data (category_flags clk token_data market_context))).
  fold (category_flags clk token_data market_context).
  pose proof (category_flags_not_social clk token_data market_context) as S.
  generalize dependent (category_flags clk token_data market_context).
  intros so_far S.
  unfold _score_risk_factors. rewrite (not_social_flags _ S).
  match goal with
  | |- context [try_except ?e ?b] =>
      assert (G : gains 0 7 b /\ framed not_social b);
      [ | destruct G as [G F];
          apply (contribution_within e) in G; unfold contribution in G;
          apply (try_except_flags _ e) in F; [|reflexivity];
          destruct (try_except e b) as [[d f] g]; cbn [fst snd] in * ]
  end.
  - split.
    + after_block 0 0 0 7.
      do 2 after_get. after_block 0 2 0 5.
      after_get. after_block 0 2 0 3.
      do 2 after_get. after_block 0 2 0 1.
      after_get. gains_paths.
    + framed_tac.
  - split; [|exact G].
    intro H. apply in_app_or in H. destruct H as [H|H].
    + exact (not_social_absent _ S H).
    + exact (not_social_absent _ F H).
Qed.

(** ** The result of an evaluation *)

(** X8. The total of every evaluation lies between 0 and 100, whichever
    path produced it: the critical override, the clamped sum, or the market
    adjustment with any weight table. *)
Theorem total_score_in_range
        (self : scorer) (clk : clock) (token_data market_context : pyval) :
  0 <= total_score (comprehensive_score self clk token_data market_context) <= 100.
Proof.
  unfold comprehensive_score.
  split_scorers clk token_data market_context.
  destruct (critical_flags_of self _); cbn [total_score]; [|lra].
  destruct (truthy market_context); [|apply clamp_bounds].
  unfold _apply_market_adjustments.
  destruct (Py.get market_context "condition" (PStr "sideways")) as [[| | | |]|];
    try apply clamp_bounds;
    (split; [apply Q.min_glb; [lra | apply Q.le_max_l] | apply Q.le_min_l]).
Qed.

(** X9. An evaluation is rated CRITICAL exactly when one of its red flags
    is in the critical list; a low score or many ordinary flags give HIGH
    at most. *)
Theorem critical_risk_iff_critical_flag
        (self : scorer) (clk : clock) (token_data market_context : pyval) :
  let r := comprehensive_score self clk token_data market_context in
  risk_level r = CRITICAL <-> has_critical_flag self (red_flags r).
Proof.
  cbv zeta. rewrite red_flags_collected. split.
  - intro H. unfold collected_flags.
    unfold comprehensive_score in H.
    split_scorers clk token_data market_context.
    destruct (critical_flags_of self _) eqn:E.
    + cbn [risk_level] in H. unfold _assess_risk_level in H.
      rewrite E in H. cbn [List.length Nat.ltb Nat.leb] in H.
      repeat match type of H with
             | (if ?b then _ else _) = _ => destruct b
             end; discriminate.
    + eapply critical_flags_of_cons; eassumption.
  - intro H. now apply critical_override.
Qed.

(** X10. The classifier is monotone for every choice of thresholds,
    ordered or not: a higher score never gets a lower tier. *)
Theorem tier_is_monotone (self : scorer) (low high : Q) :
  low <= high ->
  (tier_rank (_determine_tier self low) <= tier_rank (_determine_tier self high))%nat.
Proof.
  intro H. unfold _determine_tier.
  destruct (Qle_bool (TIER_THRESHOLDS self TierA) low) eqn:A1;
    destruct (Qle_bool (TIER_THRESHOLDS self TierA) high) eqn:A2;
    destruct (Qle_bool (TIER_THRESHOLDS self TierB) low) eqn:B1;
    destruct (Qle_bool (TIER_THRESHOLDS self TierB) high) eqn:B2;
    destruct (Qle_bool (TIER_THRESHOLDS self TierC) low) eqn:C1;
    destruct (Qle_bool (TIER_THRESHOLDS self TierC) high) eqn:C2;
    cbn [tier_rank]; try lia; reflect_Q; lra.
Qed.

Lemma tier_is_monotone_witness :
  (tier_rank (_determine_tier default_scorer 20)
   <= tier_rank (_determine_tier default_scorer 30))%nat.
Proof. apply tier_is_monotone. lra. Defined.

(** X11. The five categories add up to a sum between -0.75 and 101.5,
    not 0 to 100.  A token that scores in every check reaches 101.5, and
    the clamp brings its total to 100; a token with nothing but a major
    listing and saturated coverage, on a quiet night, reaches -0.75. *)
Theorem category_sum_budget (clk : clock) (token_data market_context : pyval) :
  -0.75 <= category_sum clk token_data market_context <= 101.5
  /\ category_sum saturday_13h ideal_token euphoric_market == 101.5
  /\ total_score (comprehensive_score default_scorer saturday_13h ideal_token
                                      euphoric_market) == 100
  /\ category_sum tuesday_3h quiet_token PNone == -0.75.
Proof.
  split; [|repeat split; vm_compute; reflexivity].
  unfold category_sum.
  pose proof (contribution_within "safety_analysis_error" _ _ _
                (gains_onchain_health token_data)) as H1.
  pose proof (contribution_within "market_analysis_error" _ _ _
                (gains_market_dynamics token_data)) as H2.
  pose proof (contribution_within "social_analysis_error" _ _ _
                (gains_community_signals token_data)) as H3.
  pose proof (contribution_within "timing_analysis_error" _ _ _
                (gains_technical_foundation clk token_data)) as H4.
  pose proof (contribution_within "timing_analysis_error" _ _ _
                (gains_timing_factors clk token_data market_context)) as H5.
  change (try_except "safety_analysis_error" (onchain_health_body token_data))
    with (_score_onchain_health token_data) in H1.
  change (try_except "market_analysis_error" (market_dynamics_body token_data))
    with (_score_market_dynamics token_data) in H2.
  change (try_except "social_analysis_error" (community_signals_body token_data))
    with (_score_community_signals token_data) in H3.
  change (try_except "timing_analysis_error" (technical_foundation_body clk token_data))
    with (_score_technical_foundation clk token_data) in H4.
  change (try_except "timing_analysis_error"
            (timing_factors_body clk token_data market_context))
    with (_score_timing_factors clk token_data market_context) in H5.
  lra.
Qed.

(** ** What a scan does with a result *)

(** X12. A result that is a speculative candidate always signals when the
    decision is taken in speculative mode, as the scan takes it; so the
    speculative-alert branch of the scan is never entered, for any result
    and any scorer. *)
Theorem speculative_alert_is_unreachable (self : scorer) (result : ScoringResult) :
  (is_speculative_candidate result = true ->
   should_send_signal_comprehensive self result true = true)
  /\ ~ In SpeculativeAlert (scan_actions self result).
Proof.
  assert (H : is_speculative_candidate result = true ->
              should_send_signal_comprehensive self result true = true).
  { intro C. unfold should_send_signal_comprehensive. rewrite C.
    cbn [andb].
    repeat match goal with
           | |- (if ?b then _ else _) = _ => destruct b
           end; reflexivity. }
  split; [exact H|].
  unfold scan_actions.
  destruct (should_send_signal_comprehensive self result true) eqn:S.
  - cbn. intuition discriminate.
  - destruct (is_speculative_candidate result).
    + specialize (H eq_refl). discriminate.
    + destruct (is_watchlist_candidate self result); cbn; intuition discriminate.
Qed.

(** X13. An evaluation with a critical flag leads to no action in a scan
    (no signal, no alert, no watchlist entry) when the tier-C threshold is
    above 5, and to no position; with a threshold of 5 or less the
    honeypot is put on the watchlist. *)
Theorem critical_evaluation_is_dropped
        (cfg : config) (clk : clock) (token_data market_context : pyval) :
  5 < TIER_C_THRESHOLD cfg ->
  has_critical_flag (scorer_of cfg) (collected_flags clk token_data market_context) ->
  let r := comprehensive_score (scorer_of cfg) clk token_data market_context in
  scan_actions (scorer_of cfg) r = []
  /\ get_position_size_recommendation r = "NO POSITION"
  /\ scan_actions (scorer_of (mkConfig 40 25 5 true 30 18 true))
                  (comprehensive_score (scorer_of (mkConfig 40 25 5 true 30 18 true))
                                       wednesday_13h honeypot_token PNone)
     = [WatchlistEntry].
Proof.
  intros T H. cbv zeta.
  destruct (critical_override _ _ _ _ H) as [E0 [ED [EC _]]].
  split; [|split; [|vm_compute; reflexivity]].
  - unfold scan_actions, should_send_signal_comprehensive, is_speculative_candidate,
      is_watchlist_candidate.
    rewrite E0, ED, EC. cbn [tier_eqb risk_eqb andb orb].
    assert (F40 : Qle_bool 40 0 = false) by reflexivity.
    rewrite F40.
    replace (Qle_bool (TIER_THRESHOLDS (scorer_of cfg) TierC - 5) 0) with false.
    + cbn [andb negb]. destruct (tier_d_never (scorer_of cfg)); reflexivity.
    + symmetry. apply Qle_bool_false_iff. cbn. lra.
  - unfold get_position_size_recommendation. now rewrite ED.
Qed.

Lemma critical_evaluation_is_dropped_witness :
  scan_actions default_scorer
    (comprehensive_score default_scorer wednesday_13h honeypot_token PNone) = [].
Proof.
  apply (critical_evaluation_is_dropped default_config wednesday_13h honeypot_token PNone).
  - vm_compute. reflexivity.
  - exists "CRITICAL_HONEYPOT". split; vm_compute; tauto.
Defined.

End EvaluationFacts.

(* ================================================================== *)
(** * Price targets, stored signals and paper positions *)

Module LedgerFacts.
Import Scorer PaperTrading Targets Scan Vocabulary Ledger ScorerFacts PaperFacts.

Local Open Scope string_scope.
Local Open Scope Q_scope.

(** ** Price targets *)

Lemma ordered_prices (price t1 t2 sl : Q) :
  0 < price -> -100 < sl -> sl < 0 -> 0 < t1 -> t1 < t2 ->
  0 < price * (1 + sl / 100)
  /\ price * (1 + sl / 100) < price
  /\ price < price * (1 + t1 / 100)
  /\ price * (1 + t1 / 100) < price * (1 + t2 / 100).
Proof.
  intros Hp H1 H2 H3 H4.
  assert (E : forall x, price * (1 + x / 100) == price + price * x / 100)
    by (intro; field).
  rewrite !E.
  assert (M : forall x y, x < y -> price * x / 100 < price * y / 100).
  { intros x y L. unfold Qdiv. apply Qmult_lt_compat_r; [reflexivity|].
    rewrite !(Qmult_comm price). now apply Qmult_lt_compat_r. }
  pose proof (M _ _ H1) as A. pose proof (M _ _ H2) as B.
  pose proof (M _ _ H3) as C. pose proof (M _ _ H4) as D.
  assert (Z0 : price * 0 / 100 == 0) by field.
  assert (Z1 : price * -100 / 100 == - price) by field.
  rewrite Z0 in B, C. rewrite Z1 in A.
  repeat split; lra.
Qed.

(** X14. With targets above the price and stop losses between -100 % and
    0, as in the default configuration, the prices computed for a positive
    price are ordered for every tier, the fallback of tier D included:
    0 < stop loss < price < first target < second target. *)
Theorem price_targets_are_ordered (cfg : target_config) (price : Q) (t : tier) :
  ordered_targets cfg -> 0 < price ->
  exists r, get_tp_sl_position cfg (Some price) t = Some r
            /\ 0 < stop_loss_price r
            /\ stop_loss_price r < price
            /\ price < target_1_price r
            /\ target_1_price r < target_2_price r.
Proof.
  intros [[A1 [A2 [A3 A4]]] [[B1 [B2 [B3 B4]]] [C1 [C2 [C3 C4]]]]] Hp.
  unfold get_tp_sl_position.
  assert (L : Qlt_bool 0 price = true) by now apply Qlt_bool_iff.
  destruct t; rewrite L; eexists; (split; [reflexivity|]);
    cbn [stop_loss_price target_1_price target_2_price];
    apply ordered_prices; try assumption; reflexivity.
Qed.

Lemma price_targets_are_ordered_witness :
  exists r, get_tp_sl_position default_targets (Some 0.002) TierB = Some r
            /\ 0 < stop_loss_price r
            /\ stop_loss_price r < 0.002
            /\ 0.002 < target_1_price r
            /\ target_1_price r < target_2_price r.
Proof.
  apply price_targets_are_ordered.
  - unfold ordered_targets. cbn. repeat split; reflexivity.
  - reflexivity.
Defined.

(** ** The stored signal *)

(** X15. When no pair carries a price, or the first pair that carries one
    has a price that does not convert, the signal is lost: nothing is
    stored and nothing is sent, whatever the database and Telegram would
    have answered. *)
Theorem unpriced_signal_is_lost
        (cfg : target_config) (signals : list signal) (connected : bool)
        (token_address : string) (comprehensive_result : ScoringResult)
        (risk_level : string) (pairs : list pair) (timestamp : string)
        (sent : option bool) :
  signal_price pairs = None ->
  _send_trading_signal cfg signals connected token_address comprehensive_result
                       risk_level pairs timestamp sent
  = (signals, false).
Proof.
  intro H. unfold _send_trading_signal. rewrite H.
  unfold get_tp_sl_position. destruct (result_tier comprehensive_result); reflexivity.
Qed.

Lemma unpriced_signal_is_lost_witness :
  _send_trading_signal default_targets [] true "ADDR1"
                       (mkResult 50 TierA [] [] [] (MemePumpAlert 50) MEDIUM)
                       "LOW" [mkPair PriceInvalid (Some "MEME")] "t1" (Some true)
  = ([], false).
Proof. apply unpriced_signal_is_lost. reflexivity. Defined.




(** ** Paper positions *)

(** The block does nothing at all when paper trading is off, when the
    balance is below the trade amount, when no pair yields a price, or
    when the price is not positive. *)
Lemma logic_refuses srv amount self address pairs now lookup_up insert_up auto_increment :
  paper_trading self = false
  \/ paper_usd_balance self < amount
  \/ signal_price pairs = None
  \/ (exists price, signal_price pairs = Some price /\ price <= 0) ->
  paper_trading_logic srv amount self address pairs now lookup_up insert_up auto_increment
  = self.
Proof.
  intro H.
  destruct (logic_cases srv amount self address pairs now lookup_up insert_up
              auto_increment)
    as [E | [selected [price [F [P [Hp [B [PT [_ _]]]]]]]]]; [assumption|].
  exfalso. unfold signal_price in H. rewrite F, P in H.
  destruct H as [H | [H | [H | [q [H1 H2]]]]].
  - congruence.
  - lra.
  - discriminate.
  - inversion H1; subst. lra.
Qed.

(** X17. The paper-trading block only appends: it adds at most one row to
    the table and at most one entry to the local list, never a row without
    a local entry, and it changes neither the balance (the deduction is
    switched off) nor the mode.  It does nothing at all when paper trading
    is off, the balance is below the trade amount, no pair yields a price
    or the price is not positive.  The local list can run ahead of the
    table: when the insert fails the purchase is still recorded locally. *)
Theorem paper_logic_only_appends
        (srv : server) (amount : Q) (self : MemeBot) (address : string)
        (pairs : list pair) (now : string) (lookup_up insert_up : bool)
        (auto_increment : Z) :
  let self' := paper_trading_logic srv amount self address pairs now lookup_up insert_up
                                   auto_increment in
  (exists rows locals,
      db self' = (db self ++ rows)%list
      /\ paper_trades self' = (paper_trades self ++ locals)%list
      /\ (List.length rows <= List.length locals <= 1)%nat)
  /\ paper_usd_balance self' = paper_usd_balance self
  /\ paper_trading self' = paper_trading self
  /\ (paper_trading self = false
      \/ paper_usd_balance self < amount
      \/ signal_price pairs = None
      \/ (exists price, signal_price pairs = Some price /\ price <= 0) ->
      self' = self)
  /\ (let failed := paper_trading_logic strict_server 25 fresh_bot "ADDR1" quoted_pairs
                                        "t1" true false 1 in
      db failed = [] /\ List.length (paper_trades failed) = 1%nat).
Proof.
  cbv zeta.
  split; [|split; [|split; [|split; [apply logic_refuses | split; reflexivity]]]];
    destruct (logic_cases srv amount self address pairs now lookup_up insert_up
                auto_increment)
      as [E | [selected [price [_ [_ [_ [_ [_ [_ E]]]]]]]]]; rewrite E;
    try reflexivity.
  - exists [], []. rewrite !app_nil_r. repeat split; cbn; lia.
  - cbn [db paper_trades].
    match goal with
    | |- context [store_paper_trade ?v ?d ?c ?i ?a ?s ?p ?m ?t ?n] =>
        destruct (store_cases v d c i a s p m t n)
          as [S | (a' & s' & p' & m' & t' & _ & _ & _ & _ & _ & _ & _ & _ & S)]; rewrite S
    end; cbn [fst].
    + exists [], [local_of amount address selected price now].
      rewrite app_nil_r. repeat split; cbn; lia.
    + eexists [_], [local_of amount address selected price now].
      repeat split; cbn; lia.
Qed.



(** ** The table of positions *)

(** X20. A stored position is found again.  After a successful insert the
    table has one more row: it has the id the server gave, the address and
    the symbol as their VARCHAR columns take them, price, amount and
    quantity as their DECIMAL columns take them (rounded to 8 places), the
    timestamp as the server reads it, status OPEN and no performance yet.
    The lookup returns this row for every address the collation equates
    with the stored one; ids stay distinct; and every further insert for
    such an address is rejected by the unique key. *)
Theorem stored_position_is_found
        (srv : server) (db db' : table) (auto_increment : Z) (address symbol : string)
        (price amount tokens : Q) (timestamp : string) :
  store_paper_trade srv db true auto_increment address symbol price amount tokens
                    timestamp
  = (db', true) ->
  exists row,
    db' = (db ++ [row])%list
    /\ (id row = auto_increment
        /\ varchar srv 255 address = Some (token_address row)
        /\ varchar srv 50 symbol = Some (token_symbol row)
        /\ decimal srv 20 price = Some (buy_price_usd row)
        /\ decimal srv 20 amount = Some (amount_usd row)
        /\ decimal srv 30 tokens = Some (tokens_bought row)
        /\ buy_timestamp row = as_timestamp srv timestamp
        /\ status row = "OPEN"
        /\ last_price_usd row = None /\ profit_loss_usd row = None)
    /\ (forall wanted,
           weight_string srv wanted = weight_string srv (token_address row) ->
           get_paper_trade_by_address srv db' true wanted = Some row)
    /\ (NoDup (map id db) -> NoDup (map id db'))
    /\ (forall id2 address2 stored2 symbol2 price2 amount2 tokens2 timestamp2,
           varchar srv 255 address2 = Some stored2 ->
           weight_string srv stored2 = weight_string srv (token_address row) ->
           store_paper_trade srv db' true id2 address2 symbol2 price2 amount2 tokens2
                             timestamp2
           = (db', false)).
Proof.
  intro H.
  destruct (store_cases srv db true auto_increment address symbol price amount tokens
              timestamp)
    as [S | (a & s & p & m & t & _ & Va & Vs & Dp & Dm & Dt & V & K & S)]; rewrite S in H;
    [discriminate|].
  inversion H; subst db'. clear H S. eexists. split; [reflexivity|].
  cbn [id token_address token_symbol buy_price_usd amount_usd tokens_bought buy_timestamp
       status last_price_usd profit_loss_usd].
  split; [repeat split; assumption|]. split; [|split].
  - intros wanted W. now apply stored_is_found.
  - intro N. rewrite map_app. cbn [map id].
    apply NoDup_app_remove_l with (l := @nil Z). cbn.
    apply Permutation_NoDup with (l := auto_increment :: map id db).
    + apply Permutation_cons_append.
    + constructor; [|assumption].
      intro I. apply in_map_iff in I. destruct I as [r [E Hin]].
      assert (T : violates_primary db auto_increment = true).
      { unfold violates_primary. apply existsb_exists. exists r.
        split; [assumption | now apply Z.eqb_eq]. }
      congruence.
  - intros id2 address2 stored2 symbol2 price2 amount2 tokens2 timestamp2 V2 W.
    match goal with
    | |- store_paper_trade ?v ?d ?c ?i ?x ?y ?q ?n ?k ?z = _ =>
        destruct (store_cases v d c i x y q n k z)
          as [S | (a2 & s2 & p2 & m2 & t2 & _ & Va2 & _ & _ & _ & _ & U2 & _ & _)]; [exact S|]
    end.
    exfalso. rewrite V2 in Va2. inversion Va2; subst a2.
    unfold violates_unique in U2. rewrite existsb_app in U2. cbn [existsb] in U2.
    unfold same_address in U2. cbn [token_address] in U2.
    rewrite W, String.eqb_refl in U2.
    rewrite orb_true_r in U2. discriminate.
Qed.

Lemma stored_position_is_found_witness :
  exists row,
    fst (store_paper_trade strict_server one_position true 7 "Addr2" "DOGE"
                           0.123456789 25 (25 / 0.123456789) "t2")
    = (one_position ++ [row])%list
    /\ (id row = 7%Z
        /\ varchar strict_server 255 "Addr2" = Some (token_address row)
        /\ varchar strict_server 50 "DOGE" = Some (token_symbol row)
        /\ decimal strict_server 20 0.123456789 = Some (buy_price_usd row)
        /\ decimal strict_server 20 25 = Some (amount_usd row)
        /\ decimal strict_server 30 (25 / 0.123456789) = Some (tokens_bought row)
        /\ buy_timestamp row = as_timestamp strict_server "t2"
        /\ status row = "OPEN"
        /\ last_price_usd row = None /\ profit_loss_usd row = None)
    /\ buy_price_usd row = (12345679 # 100000000)
    /\ get_paper_trade_by_address
         strict_server
         (fst (store_paper_trade strict_server one_position true 7 "Addr2" "DOGE"
                                 0.123456789 25 (25 / 0.123456789) "t2"))
         true "ADDR2"
       = Some row.
Proof.
  destruct (stored_position_is_found strict_server one_position
              (fst (store_paper_trade strict_server one_position true 7 "Addr2" "DOGE"
                                      0.123456789 25 (25 / 0.123456789) "t2"))
              7 "Addr2" "DOGE" 0.123456789 25 (25 / 0.123456789) "t2" eq_refl)
    as [row [E [F [G _]]]].
  exists row. split; [exact E|]. split; [exact F|]. split.
  - destruct F as [_ [_ [_ [Dp _]]]]. vm_compute in Dp. now inversion Dp.
  - apply G. destruct F as [_ [Va _]]. cbn in Va. injection Va as <-. reflexivity.
Defined.

End LedgerFacts.

(* ================================================================== *)
(** * The performance pass and its report *)

Module PerformanceFacts.
Import PaperTrading Performance Vocabulary Ledger ScorerFacts.

Local Open Scope string_scope.
Local Open Scope Q_scope.

(** ** One turn of the loop *)

(** A turn leaves the pass as it is, only notes the token as seen, or
    reports a row for a trade with a non-zero price, amount and quantity
    and a non-zero latest price. *)
Lemma visit_cases srv fetch_pairs update_up st trade :
  visit srv fetch_pairs update_up st trade = st
  \/ visit srv fetch_pairs update_up st trade
     = mkPass (pass_db st) (total_pnl_usd st) (profitable st) (losses st) (trade_rows st)
              (seen st ++ [(token_symbol trade, token_address trade)])%list
  \/ exists latest,
      ~ latest == 0 /\ ~ buy_price_usd trade == 0
      /\ visit srv fetch_pairs update_up st trade
         = let current_value := tokens_bought trade * latest in
           let pnl := current_value - amount_usd trade in
           mkPass (fst (update_paper_trade_performance
                          srv (pass_db st) (update_up (id trade)) (id trade) latest pnl))
                  (total_pnl_usd st + pnl)
                  (if Qle_bool 0 pnl then S (profitable st) else profitable st)
                  (if Qle_bool 0 pnl then losses st else S (losses st))
                  (trade_rows st
                     ++ [mkReportRow (token_symbol trade) (token_address trade)
                                     (buy_price_usd trade) latest (amount_usd trade)
                                     (tokens_bought trade) pnl
                                     (if Qlt_bool 0 (buy_price_usd trade)
                                      then (latest - buy_price_usd trade)
                                           / buy_price_usd trade * 100
                                      else 0)
                                     (buy_timestamp trade) current_value])%list
                  (seen st ++ [(token_symbol trade, token_address trade)])%list.
Proof.
  unfold visit.
  destruct (Qeq_bool (buy_price_usd trade) 0) eqn:Z1; [now left|].
  destruct (Qeq_bool (amount_usd trade) 0) eqn:Z2; [now left|].
  destruct (Qeq_bool (tokens_bought trade) 0) eqn:Z3; [now left|].
  cbn [orb].
  destruct (existsb _ (seen st)); [now left|].
  destruct (fetch_pairs (token_address trade)) as [pairs|]; [|right; now left].
  destruct (latest_price pairs) as [latest|]; [|right; now left].
  destruct (Qeq_bool latest 0) eqn:Z4; [right; now left|].
  right. right. exists latest.
  apply Qeq_bool_neq in Z4. apply Qeq_bool_neq in Z1.
  repeat split; try assumption.
  cbn [pass_db total_pnl_usd profitable losses trade_rows seen].
  destruct (update_paper_trade_performance _ _ _ _ _ _). reflexivity.
Qed.

(** A property kept by every turn holds of the pass. *)
Lemma pass_invariant (I : pass -> Prop) srv fetch_pairs update_up
      (trades : list paper_trade) (init : pass) :
  (forall st trade, In trade trades -> I st -> I (visit srv fetch_pairs update_up st trade)) ->
  I init -> I (fold_left (visit srv fetch_pairs update_up) trades init).
Proof.
  revert init. induction trades as [|t trades IH]; intros init Step H0; [assumption|].
  cbn [fold_left]. apply IH.
  - intros st trade Hin. apply Step. now right.
  - apply Step; [now left | assumption].
Qed.

Lemma sum_pnl_app rows r : sum_pnl (rows ++ [r]) == sum_pnl rows + pnl_usd r.
Proof.
  unfold sum_pnl. induction rows as [|x rows IH]; cbn [app fold_right].
  - ring.
  - rewrite IH. ring.
Qed.

Lemma winners_app rows r :
  winners (rows ++ [r])
  = (winners rows + (if Qle_bool 0 (pnl_usd r) then 1 else 0))%nat.
Proof.
  unfold winners. rewrite filter_app, length_app. cbn [filter].
  destruct (Qle_bool 0 (pnl_usd r)); reflexivity.
Qed.

(** A turn keeps the counters in step with the rows. *)
Lemma visit_keeps_counted srv fetch_pairs update_up st trade :
  counted st -> counted (visit srv fetch_pairs update_up st trade).
Proof.
  intros [C1 [C2 C3]].
  destruct (visit_cases srv fetch_pairs update_up st trade)
    as [E | [E | [latest [_ [_ E]]]]]; rewrite E.
  - now repeat split.
  - now repeat split.
  - cbv zeta. unfold counted.
    cbn [profitable losses trade_rows total_pnl_usd].
    rewrite length_app, winners_app, sum_pnl_app. cbn [pnl_usd List.length].
    destruct (Qle_bool 0 _); repeat split; try lia; rewrite C3; reflexivity.
Qed.

(** X21. After a pass the counters agree with the rows it returns: every
    row counts as a winner or as a loser, the winners are the rows with a
    profit of 0 or more, and the total is the sum of the profits of the
    rows; trades that are skipped touch no counter. *)
Theorem pass_counters_agree
        (srv : server) (earlier : string -> string -> bool)
        (fetch_pairs : string -> option (list pair)) (update_up : Z -> bool)
        (db : table) (connected : bool) :
  let p := fetch_and_update_trades srv earlier fetch_pairs update_up db connected in
  (profitable p + losses p = List.length (trade_rows p))%nat
  /\ profitable p = winners (trade_rows p)
  /\ total_pnl_usd p == sum_pnl (trade_rows p).
Proof.
  cbv zeta. unfold fetch_and_update_trades.
  apply (pass_invariant counted).
  - intros st trade _. apply visit_keeps_counted.
  - unfold counted. cbn [profitable losses trade_rows total_pnl_usd].
    repeat split; reflexivity.
Qed.

(** ** The table after a pass *)

Lemma update_keeps_entries srv db connected trade_id last_price profit_loss :
  map entry (fst (update_paper_trade_performance srv db connected trade_id last_price
                                                 profit_loss))
  = map entry db.
Proof.
  unfold update_paper_trade_performance. destruct connected; [|reflexivity].
  destruct (decimal srv 20 last_price); [|reflexivity].
  destruct (decimal srv 20 profit_loss); [|reflexivity].
  cbn [fst]. rewrite map_map. apply map_ext.
  intro r. destruct (Z.eqb (id r) trade_id); reflexivity.
Qed.

(** X22. A pass changes nothing but the performance columns: the table
    has the same rows in the same order afterwards, each with the id,
    address, symbol, buy price, amount, quantity, buy time and status it
    had; no position is closed, added or removed. *)
Theorem pass_keeps_entries
        (srv : server) (earlier : string -> string -> bool)
        (fetch_pairs : string -> option (list pair)) (update_up : Z -> bool)
        (db : table) (connected : bool) :
  map entry (pass_db (fetch_and_update_trades srv earlier fetch_pairs update_up db connected))
  = map entry db.
Proof.
  unfold fetch_and_update_trades.
  apply (pass_invariant (fun p => map entry (pass_db p) = map entry db)).
  - intros st trade _ H.
    destruct (visit_cases srv fetch_pairs update_up st trade)
      as [E | [E | [latest [_ [_ E]]]]]; rewrite E; try assumption.
    cbv zeta. cbn [pass_db]. now rewrite update_keeps_entries.
  - reflexivity.
Qed.

(** ** The rows of a pass *)

Lemma insert_by_timestamp_Permutation earlier r sorted :
  Permutation (insert_by_timestamp earlier r sorted) (r :: sorted).
Proof.
  induction sorted as [|x rest IH]; cbn [insert_by_timestamp]; [reflexivity|].
  destruct (earlier _ _); [reflexivity|].
  rewrite IH. apply perm_swap.
Qed.

(** The open trades are the OPEN rows of the table, in some order. *)
Lemma open_trades_Permutation earlier db :
  Permutation (get_open_paper_trades earlier db true)
              (filter (fun r => String.eqb (status r) "OPEN") db).
Proof.
  unfold get_open_paper_trades.
  induction (filter (fun r => String.eqb (status r) "OPEN") db) as [|x l IH];
    cbn [fold_right]; [reflexivity|].
  rewrite insert_by_timestamp_Permutation. now constructor.
Qed.

Lemma open_trades_in_table earlier db connected trade :
  In trade (get_open_paper_trades earlier db connected) -> In trade db.
Proof.
  destruct connected; [|contradiction].
  intro H. apply (Permutation_in _ (open_trades_Permutation earlier db)) in H.
  apply filter_In in H. tauto.
Qed.

(** X23. On a table of sound positions every row of a pass is coherent:
    the profit in USD is the percentage applied to the amount spent (so
    the two have the same sign), the current value is the amount plus the
    profit, and neither price is zero. *)
Theorem pass_rows_are_coherent
        (srv : server) (earlier : string -> string -> bool)
        (fetch_pairs : string -> option (list pair)) (update_up : Z -> bool)
        (db : table) (connected : bool) :
  Forall sound_position db ->
  Forall coherent_row
         (trade_rows (fetch_and_update_trades srv earlier fetch_pairs update_up db connected)).
Proof.
  intro S. unfold fetch_and_update_trades.
  apply (pass_invariant (fun p => Forall coherent_row (trade_rows p))).
  - intros st trade Hin H.
    apply open_trades_in_table in Hin.
    rewrite Forall_forall in S. destruct (S _ Hin) as [Hp [Ht _]].
    destruct (visit_cases srv fetch_pairs update_up st trade)
      as [E | [E | [latest [NZ [_ E]]]]]; rewrite E; try assumption.
    cbv zeta. cbn [trade_rows].
    apply Forall_app. split; [assumption|]. constructor; [|constructor].
    unfold coherent_row.
    cbn [pnl_usd row_amount_usd pnl_pct current_value_usd row_buy_price row_latest_price].
    assert (L : Qlt_bool 0 (buy_price_usd trade) = true) by now apply Qlt_bool_iff.
    rewrite L. repeat split; try assumption.
    + rewrite <- Ht. field. lra.
    + ring.
  - constructor.
Qed.

Lemma pass_rows_are_coherent_witness :
  Forall coherent_row
         (trade_rows (fetch_and_update_trades strict_server any_order quote_all (fun _ => true)
                                              one_position true)).
Proof.
  apply pass_rows_are_coherent.
  constructor; [|constructor]. unfold sound_position. cbn. repeat split; reflexivity.
Defined.

(** ** The report *)

Lemma insert_by_pnl_Permutation r sorted :
  Permutation (insert_by_pnl r sorted) (r :: sorted).
Proof.
  induction sorted as [|x rest IH]; cbn [insert_by_pnl]; [reflexivity|].
  destruct (Qle_bool _ _); [reflexivity|].
  rewrite IH. apply perm_swap.
Qed.

Lemma sorted_trades_Permutation rows : Permutation (sorted_trades rows) rows.
Proof.
  unfold sorted_trades. induction rows as [|x l IH]; cbn [fold_right]; [reflexivity|].
  rewrite insert_by_pnl_Permutation. now constructor.
Qed.

Lemma insert_by_pnl_sorted r sorted :
  best_first sorted -> best_first (insert_by_pnl r sorted).
Proof.
  unfold best_first. induction 1 as [|x rest Hs IH Hx]; cbn [insert_by_pnl].
  - constructor; constructor.
  - destruct (Qle_bool (pnl_pct x) (pnl_pct r)) eqn:E.
    + apply Qle_bool_iff in E. constructor.
      * now constructor.
      * constructor; [assumption|].
        eapply Forall_impl; [|exact Hx]. cbn. intros y Hy. lra.
    + apply Qle_bool_false_iff in E. constructor; [assumption|].
      apply (Permutation_Forall (Permutation_sym (insert_by_pnl_Permutation r rest))).
      constructor; [lra | assumption].
Qed.

(** X24. The cards of the report are the rows it was given, each exactly
    once, ordered by percentage with the best first. *)
Theorem report_cards_are_sorted (self : pass) (rows : list report_row) :
  Permutation (cards (build_report self rows)) rows
  /\ best_first (cards (build_report self rows)).
Proof.
  cbn [build_report cards]. split; [apply sorted_trades_Permutation|].
  unfold sorted_trades. induction rows as [|x l IH]; cbn [fold_right].
  - constructor.
  - now apply insert_by_pnl_sorted.
Qed.

Lemma sum_amounts_app rows r :
  sum_amounts (rows ++ [r]) == sum_amounts rows + row_amount_usd r.
Proof.
  unfold sum_amounts. rewrite map_app, fold_left_app. reflexivity.
Qed.

Lemma sum_current_value_app rows r :
  sum_current_value (rows ++ [r]) == sum_current_value rows + current_value_usd r.
Proof.
  unfold sum_current_value. induction rows as [|x rows IH]; cbn [app fold_right].
  - ring.
  - rewrite IH. ring.
Qed.

Lemma winners_bound rows : (winners rows <= List.length rows)%nat.
Proof. unfold winners. apply filter_length_le. Qed.

(** X25. The summary of a report built from the rows of a pass is
    consistent with them: the current value of the portfolio is the sum of
    the current values of the rows, and the win rate is the share of rows
    with a profit of 0 or more, between 0 and 100. *)
Theorem report_summary_is_consistent
        (srv : server) (earlier : string -> string -> bool)
        (fetch_pairs : string -> option (list pair)) (update_up : Z -> bool)
        (db : table) (connected : bool) :
  let p := fetch_and_update_trades srv earlier fetch_pairs update_up db connected in
  let r := build_report p (trade_rows p) in
  total_current_value r == sum_current_value (trade_rows p)
  /\ 0 <= win_rate r <= 100
  /\ win_rate r * inject_Z (Z.of_nat (List.length (trade_rows p)))
     == 100 * inject_Z (Z.of_nat (winners (trade_rows p))).
Proof.
  cbv zeta.
  assert (C : counted (fetch_and_update_trades srv earlier fetch_pairs update_up db
                                              connected)).
  { unfold fetch_and_update_trades. apply (pass_invariant counted).
    - intros st trade _. apply visit_keeps_counted.
    - unfold counted. cbn [profitable losses trade_rows total_pnl_usd].
      repeat split; reflexivity. }
  destruct C as [C1 [C2 C3]].
  split.
  - cbn [build_report total_current_value]. rewrite C3.
    unfold fetch_and_update_trades.
    apply (pass_invariant
             (fun p => sum_amounts (trade_rows p) + sum_pnl (trade_rows p)
                       == sum_current_value (trade_rows p))).
    + intros st trade _ H.
      destruct (visit_cases srv fetch_pairs update_up st trade)
        as [E | [E | [latest [_ [_ E]]]]]; rewrite E; try assumption.
      cbv zeta. cbn [trade_rows].
      rewrite sum_amounts_app, sum_pnl_app, sum_current_value_app.
      cbn [row_amount_usd pnl_usd current_value_usd]. rewrite <- H. ring.
    + reflexivity.
  - cbn [build_report win_rate]. rewrite C2.
    pose proof (winners_bound
                  (trade_rows (fetch_and_update_trades srv earlier fetch_pairs update_up
                                                       db connected))) as B.
    destruct (trade_rows _) as [|x rows] eqn:R.
    + cbn. repeat split; try lra. 
    + set (n := List.length (x :: rows)) in *.
      set (w := winners (x :: rows)) in *.
      assert (Hn : 0 < inject_Z (Z.of_nat n)).
      { unfold n. cbn [List.length]. rewrite Nat2Z.inj_succ.
        change 0 with (inject_Z 0). rewrite <- Zlt_Qlt. lia. }
      assert (Hw : 0 <= inject_Z (Z.of_nat w) <= inject_Z (Z.of_nat n)).
      { change 0 with (inject_Z 0). rewrite <- !Zle_Qle. lia. }
      assert (E : inject_Z (Z.of_nat w) / inject_Z (Z.of_nat n) * 100
                  * inject_Z (Z.of_nat n) == 100 * inject_Z (Z.of_nat w))
        by (field; lra).
      split; [|exact E].
      split.
      * apply Qmult_le_0_compat; [|lra].
        apply Qle_shift_div_l; [assumption | lra].
      * assert (D : inject_Z (Z.of_nat w) / inject_Z (Z.of_nat n) <= 1).
        { apply Qle_shift_div_r; [assumption | lra]. }
        lra.
Qed.

End PerformanceFacts.

(* ================================================================== *)
(** * Price snapshots and the timing query over them *)

Module HistoryFacts.
Import PaperTrading Performance Sampler PriceTracker Vocabulary Ledger History
       ScorerFacts PaperFacts TrackerFacts.

Local Open Scope string_scope.
Local Open Scope Q_scope.

(** ** Recording snapshots *)






Lemma snapshots_of_abort get_token_price elapsed_seconds trades trade :
  In trade trades ->
  snapshot_of get_token_price elapsed_seconds trade = None ->
  snapshots_of get_token_price elapsed_seconds trades = None.
Proof.
  induction trades as [|t trades IH]; [contradiction|].
  intros [->|Hin] N; cbn [snapshots_of].
  - now rewrite N.
  - destruct (snapshot_of _ _ t); [|reflexivity].
    now rewrite (IH Hin N).
Qed.

(** X27. One open position with a buy price of zero and a quoted token
    aborts the recording: the division by the buy price fails, nothing is
    committed, and the snapshots of the other positions are lost with it.
    The performance pass skips such a position instead. *)
Theorem zero_buy_price_aborts_recording
        (db : table) (history : list price_row)
        (get_token_price : string -> option Q) (elapsed_seconds : paper_trade -> Q)
        (trade : paper_trade) (price : Q) :
  In trade db -> status trade = "OPEN" -> buy_price_usd trade == 0 ->
  get_token_price (token_address trade) = Some price -> ~ price == 0 ->
  record_price_snapshot db history true get_token_price elapsed_seconds = None
  /\ forall srv fetch_pairs update_up st, visit srv fetch_pairs update_up st trade = st.
Proof.
  intros Hin Ho Hz Hg Hp. split.
  - unfold record_price_snapshot.
    rewrite (snapshots_of_abort get_token_price elapsed_seconds _ trade); [reflexivity| |].
    + apply filter_In. split; [assumption|]. rewrite Ho. reflexivity.
    + unfold snapshot_of. rewrite Hg.
      destruct (Qeq_bool price 0) eqn:E; [apply Qeq_bool_iff in E; contradiction|].
      apply Qeq_bool_iff in Hz. now rewrite Hz.
  - intros. unfold visit. apply Qeq_bool_iff in Hz. now rewrite Hz.
Qed.

Lemma zero_buy_price_aborts_recording_witness :
  record_price_snapshot (one_position ++ [unpriced_position])%list [] true quoted
                        sixteen_minutes_less_a_second
  = None.
Proof.
  apply (zero_buy_price_aborts_recording (one_position ++ [unpriced_position])%list [] quoted
           sixteen_minutes_less_a_second unpriced_position 0.002).
  - cbn. tauto.
  - reflexivity.
  - reflexivity.
  - reflexivity.
  - discriminate.
Defined.

(** ** Minutes since entry *)

Lemma int_of_le (x : Q) (k : Z) :
  (0 <= k)%Z -> ((int_of x <= k)%Z <-> x < inject_Z (k + 1)).
Proof.
  intro Hk. unfold int_of. destruct x as [n d]. unfold Qlt, inject_Z. cbn [Qnum Qden].
  pose proof (Z.quot_rem' n (Zpos d)) as E.
  destruct (Z_le_gt_dec 0 n) as [Hn|Hn].
  - pose proof (Z.rem_bound_pos_pos n (Zpos d) ltac:(lia) Hn) as B. split; intro H; nia.
  - pose proof (Z.rem_bound_pos_neg n (Zpos d) ltac:(lia) ltac:(lia)) as B.
    split; intro H; nia.
Qed.

(** X28. The minutes of a snapshot are the elapsed seconds divided by 60
    with the fraction dropped, so the first band of the timing query takes
    every snapshot recorded less than 16 minutes (960 seconds) after
    entry, and no other. *)
Theorem first_band_is_sixteen_minutes
        (get_token_price : string -> option Q) (elapsed_seconds : paper_trade -> Q)
        (trade : paper_trade) (row : price_row) (performance_pct : Z) :
  snapshot_of get_token_price elapsed_seconds trade = Some [row] ->
  time_interval (mkSnapshot (minutes row) performance_pct) = "0-15 min"
  <-> elapsed_seconds trade < 960.
Proof.
  intro H. unfold snapshot_of in H.
  destruct (get_token_price (token_address trade)) as [price|]; [|discriminate].
  destruct (Qeq_bool price 0); [discriminate|].
  destruct (Qeq_bool (buy_price_usd trade) 0); [discriminate|].
  inversion H; subst row. clear H. cbn [minutes].
  assert (B : (int_of (elapsed_seconds trade / 60) <= 15)%Z
              <-> elapsed_seconds trade < 960).
  { rewrite (int_of_le _ 15) by lia. change (inject_Z (15 + 1)) with 16.
    split; intro H.
    - assert (E : elapsed_seconds trade == elapsed_seconds trade / 60 * 60) by field.
      rewrite E. lra.
    - apply Qlt_shift_div_r; [reflexivity | lra]. }
  rewrite <- B. unfold time_interval. cbn [minutes_since_entry].
  destruct (int_of (elapsed_seconds trade / 60) <=? 15)%Z eqn:E1;
    [apply Z.leb_le in E1; tauto | apply Z.leb_gt in E1].
  split; [|lia].
  repeat match goal with
         | |- context [if ?b then _ else _] => destruct b
         end; discriminate.
Qed.

Lemma first_band_is_sixteen_minutes_witness :
  time_interval
    (mkSnapshot (minutes (mkPriceRow 1 "ADDR1" "MEME" 0.002
                                     ((0.002 - 0.001) / 0.001 * 100)
                                     ((0.002 - 0.001) * (25 / 0.001))
                                     15))
                (pct 100))
  = "0-15 min"
  <-> sixteen_minutes_less_a_second
        (mkTrade 1 "ADDR1" "MEME" 0.001 25 25000 "t1" "OPEN" None None) < 960.
Proof.
  apply (first_band_is_sixteen_minutes quoted). reflexivity.
Defined.

(** ** The timing query *)

Lemma total_of_app column rows1 rows2 :
  total_of column (rows1 ++ rows2)
  = (total_of column rows1 + total_of column rows2)%nat.
Proof.
  unfold total_of. induction rows1 as [|r rows1 IH]; cbn [app fold_right]; lia.
Qed.

Lemma time_interval_in (s : snapshot) : In (time_interval s) intervals.
Proof.
  unfold time_interval, intervals.
  repeat match goal with
         | |- context [if ?b then _ else _] => destruct b
         end; cbn; tauto.
Qed.

(** Every snapshot that passes a test is in exactly one group. *)
Lemma bands_partition (p : snapshot -> bool) (history : list snapshot) :
  fold_right (fun label n => (List.length (filter p (group label history)) + n)%nat)
             0%nat intervals
  = List.length (filter p history).
Proof.
  induction history as [|s history IH]; [reflexivity|].
  unfold intervals, group in *. cbn [fold_right filter] in *.
  pose proof (time_interval_in s) as H. unfold intervals in H. cbn [In] in H.
  destruct H as [E|[E|[E|[E|[E|[E|[E|[]]]]]]]]; rewrite <- E;
    cbn [String.eqb Ascii.eqb Bool.eqb andb]; cbn [filter];
    destruct (p s); cbn [List.length]; lia.
Qed.

Lemma total_of_query (column : interval_row -> nat) (p : snapshot -> bool)
      (history : list snapshot) :
  (forall label g, total_of column (aggregate label g) = List.length (filter p g)) ->
  total_of column (timing_query history) = List.length (filter p history).
Proof.
  intro A. rewrite <- bands_partition. unfold timing_query.
  induction intervals as [|label labels IH]; [reflexivity|].
  cbn [flat_map fold_right]. now rewrite total_of_app, A, IH.
Qed.

Lemma filter_all {A : Type} (l : list A) : filter (fun _ => true) l = l.
Proof. induction l as [|x l IH]; cbn; [reflexivity | now rewrite IH]. Qed.

(** X29. The timing query loses no snapshot and counts none twice: the
    counts of its rows add up to the number of snapshots in the history,
    and the pumps above +10 %, +50 % and +100 % of its rows add up to
    those of the history. *)
Theorem every_snapshot_is_counted_once (history : list snapshot) :
  total_of snapshots (timing_query history) = List.length history
  /\ total_of pumps_10pct (timing_query history) = count_above 10 history
  /\ total_of pumps_50pct (timing_query history) = count_above 50 history
  /\ total_of moons_100pct (timing_query history) = count_above 100 history.
Proof.
  repeat split.
  - rewrite (total_of_query snapshots (fun _ => true)); [now rewrite filter_all|].
    intros label [|first rest]; [reflexivity|].
    rewrite filter_all. cbn. lia.
  - apply total_of_query. intros label [|first rest]; [reflexivity|].
    unfold total_of, aggregate, count_above. cbn [fold_right pumps_10pct]. lia.
  - apply total_of_query. intros label [|first rest]; [reflexivity|].
    unfold total_of, aggregate, count_above. cbn [fold_right pumps_50pct]. lia.
  - apply total_of_query. intros label [|first rest]; [reflexivity|].
    unfold total_of, aggregate, count_above. cbn [fold_right moons_100pct]. lia.
Qed.

Lemma count_above_antitone (low high : Z) (g : list snapshot) :
  (low <= high)%Z -> (count_above high g <= count_above low g)%nat.
Proof.
  intro H. unfold count_above, pct.
  induction g as [|s g IH]; cbn [filter]; [lia|].
  destruct (high * 10000 <? PriceTracker.performance_pct s)%Z eqn:E1;
    destruct (low * 10000 <? PriceTracker.performance_pct s)%Z eqn:E2;
    cbn [List.length]; lia.
Qed.

Lemma sum_performance_bounds (lo hi : Z) (g : list snapshot) :
  (forall s, In s g -> (lo <= PriceTracker.performance_pct s <= hi)%Z) ->
  (lo * Z.of_nat (List.length g) <= sum_performance g <= hi * Z.of_nat (List.length g))%Z.
Proof.
  unfold sum_performance.
  induction g as [|s g IH]; intro H; cbn [fold_right List.length]; [lia|].
  assert (B : (lo <= PriceTracker.performance_pct s <= hi)%Z) by (apply H; now left).
  assert (I : forall s', In s' g -> (lo <= PriceTracker.performance_pct s' <= hi)%Z)
    by (intros s' Hs; apply H; now right).
  specialize (IH I). rewrite Nat2Z.inj_succ. nia.
Qed.

(** X30. Each row of the timing query is ordered in itself: the moons are
    among the +50 % pumps, these among the +10 % pumps, these among the
    snapshots of the row, and the mean performance lies between the
    minimum and the maximum. *)
Theorem timing_rows_are_ordered (history : list snapshot) (row : interval_row) :
  In row (timing_query history) ->
  (moons_100pct row <= pumps_50pct row <= pumps_10pct row)%nat
  /\ (pumps_10pct row <= snapshots row)%nat
  /\ inject_Z (min_performance row) <= avg_performance row
     <= inject_Z (max_performance row).
Proof.
  intro H.
  destruct (row_of_query history row H) as [first [rest [_ [_ R]]]].
  rewrite R.
  cbn [moons_100pct pumps_50pct pumps_10pct snapshots avg_performance
       min_performance max_performance].
  split; [split; apply count_above_antitone; lia|].
  split; [unfold count_above; apply filter_length_le|].
  destruct (max_of_bound first rest) as [Mx _].
  destruct (min_of_bound first rest) as [Mn _].
  pose proof (sum_performance_bounds (min_of first rest) (max_of first rest)
                (first :: rest)
                (fun s Hs => conj (Mn s Hs) (Mx s Hs))) as B.
  unfold Qle, inject_Z. cbn [Qnum Qden].
  assert (P : Zpos (Pos.of_nat (List.length (first :: rest)))
              = Z.of_nat (List.length (first :: rest))).
  { cbn [List.length]. rewrite <- Pos.of_nat_succ, Zpos_P_of_succ_nat, Nat2Z.inj_succ.
    reflexivity. }
  rewrite P. lia.
Qed.

Lemma timing_rows_are_ordered_witness :
  let row := mkRow "0-15 min" 1 (Qmake (pct 5) 1) (pct 5) (pct 5) 0 0 0 in
  (moons_100pct row <= pumps_50pct row <= pumps_10pct row)%nat
  /\ (pumps_10pct row <= snapshots row)%nat
  /\ inject_Z (min_performance row) <= avg_performance row
     <= inject_Z (max_performance row).
Proof.
  intro row. apply (timing_rows_are_ordered three_samples row).
  cbn. tauto.
Defined.

(** ** Prices below the last decimal place *)

Lemma decimal_of_dust (srv : server) (precision : Z) (price : Q) :
  (0 < precision)%Z -> 0 < price -> price < 0.000000005 ->
  decimal srv precision price = Some (0 # 100000000).
Proof.
  intros Hd Hp Hs. unfold decimal, round_half_away.
  assert (L : Qle_bool 0 (price * 100000000) = true) by (apply Qle_bool_iff; lra).
  rewrite L.
  assert (F : Qfloor (price * 100000000 + (1 # 2)) = 0%Z).
  { pose proof (Qfloor_le (price * 100000000 + (1 # 2))) as A.
    pose proof (Qlt_floor (price * 100000000 + (1 # 2))) as B.
    assert (A' : inject_Z (Qfloor (price * 100000000 + (1 # 2))) < inject_Z 1)
      by (change (inject_Z 1) with 1; lra).
    assert (B' : inject_Z 0
                 < inject_Z (Qfloor (price * 100000000 + (1 # 2)) + 1))
      by (change (inject_Z 0) with 0; lra).
    rewrite <- Zlt_Qlt in A', B'. lia. }
  rewrite F. cbv zeta. cbn [Z.abs].
  assert (P : (0 <? 10 ^ precision)%Z = true).
  { apply Z.ltb_lt. apply Z.pow_pos_nonneg; lia. }
  now rewrite P.
Qed.

(** X18. The positions the block stores need not stay sound.  A positive
    price below 0.000000005 USD passes the guard of the block, and the
    position is stored with the buy price the DECIMAL(20, 8) column takes
    for it: zero.  From then on recording a snapshot fails with a
    division by zero whenever the token is quoted at a price other than
    zero. *)
Theorem dust_price_is_stored_as_zero
        (srv : server) (amount : Q) (self : MemeBot) (address : string)
        (pairs : list pair) (now : string) (auto_increment : Z)
        (selected : pair) (price : Q) (symbol : string) (stored_amount stored_tokens : Q) :
  paper_trading self = true ->
  violates_unique srv (db self) address = false ->
  violates_primary (db self) auto_increment = false ->
  find has_price pairs = Some selected ->
  priceUsd selected = PriceUsd price ->
  0 < price -> price < 0.000000005 ->
  amount <= paper_usd_balance self ->
  varchar srv 255 address = Some address ->
  varchar srv 50 (match baseToken_symbol selected with Some s => s | None => "UNKNOWN" end)
  = Some symbol ->
  decimal srv 20 amount = Some stored_amount ->
  decimal srv 30 (amount / price) = Some stored_tokens ->
  let self' := paper_trading_logic srv amount self address pairs now true true
                                   auto_increment in
  exists row,
    db self' = (db self ++ [row])%list
    /\ token_address row = address
    /\ status row = "OPEN"
    /\ buy_price_usd row == 0
    /\ ~ sound_position row
    /\ forall history get_token_price elapsed_seconds quote,
        get_token_price address = Some quote -> ~ quote == 0 ->
        record_price_snapshot (db self') history true get_token_price elapsed_seconds
        = None.
Proof.
  intros PT V K F P Hp Hs B Va Vs Dm Dt self'.
  assert (E : db self'
              = (db self ++ [mkTrade auto_increment address symbol (0 # 100000000)
                                     stored_amount stored_tokens (as_timestamp srv now)
                                     "OPEN" None None])%list).
  { subst self'.
    now rewrite (logic_opens srv amount self address pairs now auto_increment selected
                   price symbol (0 # 100000000) stored_amount stored_tokens
                   PT V K F P Hp B Va Vs
                   (decimal_of_dust srv 20 price ltac:(lia) Hp Hs) Dm Dt). }
  eexists. split; [exact E|].
  cbn [token_address status buy_price_usd].
  split; [reflexivity|]. split; [reflexivity|]. split; [reflexivity|]. split.
  - intros [H _]. cbn [buy_price_usd] in H. vm_compute in H. discriminate.
  - intros history get_token_price elapsed_seconds quote G Q.
    rewrite E. unfold record_price_snapshot.
    rewrite (snapshots_of_abort get_token_price elapsed_seconds _
               (mkTrade auto_increment address symbol (0 # 100000000) stored_amount
                        stored_tokens (as_timestamp srv now) "OPEN" None None));
      [reflexivity| |].
    + apply filter_In. split; [apply in_or_app; right; now left | reflexivity].
    + unfold snapshot_of. cbn [token_address buy_price_usd]. rewrite G.
      destruct (Qeq_bool quote 0) eqn:Z; [apply Qeq_bool_iff in Z; contradiction|].
      reflexivity.
Qed.

Lemma dust_price_is_stored_as_zero_witness :
  let self' := paper_trading_logic strict_server 25 holding_bot "ADDR2" dust_pairs "t2"
                                   true true 2 in
  exists row,
    db self' = (one_position ++ [row])%list
    /\ token_address row = "ADDR2"
    /\ status row = "OPEN"
    /\ buy_price_usd row == 0
    /\ ~ sound_position row
    /\ forall history get_token_price elapsed_seconds quote,
        get_token_price "ADDR2" = Some quote -> ~ quote == 0 ->
        record_price_snapshot (db self') history true get_token_price elapsed_seconds
        = None.
Proof.
  apply (dust_price_is_stored_as_zero strict_server 25 holding_bot "ADDR2" dust_pairs "t2"
           2 (mkPair (PriceUsd 0.000000001) (Some "DUST")) 0.000000001 "DUST"
           (2500000000 # 100000000) (2500000000000000000 # 100000000));
    first [reflexivity | cbn; lra].
Defined.

End HistoryFacts.
